(** * A shallow embedding of the LAN relay server (server.py)

    The development follows the layout of the Python module:

    - [Py]      the few string and dict primitives of Python the server uses;
    - [Exec]    a small state monad with three outcomes: a call returns,
                raises, or blocks for ever on a lock;
    - [Chat]    [get_user_list_string], [broadcast_chat], [handle_chat_client];
    - [Screen]  [broadcast_to_viewers], [handle_screen_client];
    - [Files]   the [os.path] functions (POSIX flavour) and the UPLOAD,
                DOWNLOAD and DELETE branches of [handle_file_client];
    - [Interleaved]
                the UPLOAD branch cut where its thread can be switched out,
                for two uploads served at the same time;
    - [Session], [Frames], [Relay], [FileSession]
                the rest of the handlers: a chat session from join to
                leave, the frame loop of the presenter, the audio and
                video relays, the greeting of a file client;
    - [Client]  what the chat client (client_chat.py) makes of the roster
                messages of the server.

    Sockets are modelled by their identity (a number); what a socket was
    sent is recorded in a wire trace.  Text is kept as the [string] of its
    UTF-8 bytes: the server decodes every chat and file command before it
    looks at it and encodes every reply the same way, and it only ever cuts
    text at ASCII characters, so cutting the bytes is cutting the text.  The
    model takes the messages that decode; one that does not takes the
    handler straight to its [except] clause.  Only [int()] looks at the
    characters themselves, and [Py.int_of] decodes the bytes for it.

    [chat_lock] is part of the state of the chat server, because
    [handle_chat_client] calls [broadcast_chat], which acquires the lock,
    from inside its own [with chat_lock] blocks. *)

From Stdlib Require Import String Ascii List Bool Arith Lia FinFun.
From Stdlib Require Import Decimal DecimalNat DecimalString.
From Stdlib Require Import NArith Permutation.
Import ListNotations.
Open Scope string_scope.

(* ================================================================== *)
(** ** Python primitives *)

Module Py.

(** [s.startswith(p)] *)
Fixpoint startswith (p s : string) : bool :=
  match p with
  | EmptyString => true
  | String a p' =>
      match s with
      | EmptyString => false
      | String b s' => Ascii.eqb a b && startswith p' s'
      end
  end.

(** Cut [s] at the first occurrence of the separator character. *)
Fixpoint cut (sep : ascii) (s : string) : option (string * string) :=
  match s with
  | EmptyString => None
  | String c r =>
      if Ascii.eqb c sep then Some (EmptyString, r)
      else match cut sep r with
           | Some (a, b) => Some (String c a, b)
           | None => None
           end
  end.

(** [s.split(sep, maxsplit)] for a one-character separator. *)
Fixpoint split (sep : ascii) (maxsplit : nat) (s : string) : list string :=
  match maxsplit with
  | O => [s]
  | S n =>
      match cut sep s with
      | None => [s]
      | Some (a, b) => a :: split sep n b
      end
  end.

(** [sep.join(parts)] *)
Definition join (sep : string) (parts : list string) : string :=
  String.concat sep parts.

(** [x in [..]] on strings. *)
Definition str_in (x : string) (l : list string) : bool :=
  existsb (String.eqb x) l.

(** [str(n)] / [f"{n}"] for a non-negative integer. *)
Definition str_of_nat (n : nat) : string :=
  NilEmpty.string_of_uint (Nat.to_uint n).

(** The line feed that ends every line of the file protocol. *)
Definition LF : string := String (ascii_of_nat 10) EmptyString.

(** The slices [s[:n]] and [s[n:]]. *)
Fixpoint take (n : nat) (s : string) : string :=
  match n, s with
  | S n', String c r => String c (take n' r)
  | _, _ => EmptyString
  end.

Fixpoint drop (n : nat) (s : string) : string :=
  match n, s with
  | S n', String _ r => drop n' r
  | _, _ => s
  end.

(** [s.rfind(c)] for a character: the index of its last occurrence, [None]
    where Python answers -1. *)
Fixpoint rfind (c : ascii) (s : string) : option nat :=
  match s with
  | EmptyString => None
  | String a r =>
      match rfind c r with
      | Some i => Some (S i)
      | None => if Ascii.eqb a c then Some 0 else None
      end
  end.

(** [s.endswith(c)] for a character. *)
Fixpoint endswith (c : ascii) (s : string) : bool :=
  match s with
  | EmptyString => false
  | String a EmptyString => Ascii.eqb a c
  | String _ r => endswith c r
  end.

(** [Py_ISSPACE], the blanks [PyLong_FromString] skips around a number:
    tab, line feed, vertical tab, form feed, carriage return and space. *)
Definition is_space (c : ascii) : bool :=
  let n := nat_of_ascii c in
  ((9 <=? n)%nat && (n <=? 13)%nat) || (n =? 32)%nat.

Fixpoint lstrip (s : string) : string :=
  match s with
  | String c r => if is_space c then lstrip r else s
  | EmptyString => EmptyString
  end.

Fixpoint rstrip (s : string) : string :=
  match s with
  | EmptyString => EmptyString
  | String c r =>
      match rstrip r with
      | EmptyString => if is_space c then EmptyString else String c EmptyString
      | r' => String c r'
      end
  end.

Definition digit_of (c : ascii) : option nat :=
  let n := nat_of_ascii c in
  if (48 <=? n)%nat && (n <=? 57)%nat then Some (n - 48) else None.

(** Digits with single underscores between them. *)
Fixpoint int_digits (acc : nat) (after_digit : bool) (s : string)
    : option nat :=
  match s with
  | EmptyString => if after_digit then Some acc else None
  | String c r =>
      match digit_of c with
      | Some d => int_digits (10 * acc + d) true r
      | None =>
          if Ascii.eqb c "_" && after_digit then int_digits acc false r
          else None
      end
  end.

(** How many digits a literal has; [int()] refuses more than
    [sys.int_info.default_max_str_digits] of them. *)
Fixpoint count_digits (s : string) : nat :=
  match s with
  | EmptyString => 0
  | String c r =>
      match digit_of c with
      | Some _ => S (count_digits r)
      | None => count_digits r
      end
  end.

Definition MAX_STR_DIGITS : nat := 4300.

(** A continuation byte of UTF-8 and the six bits it carries. *)
Definition continuation (c : ascii) : option N :=
  let n := N_of_ascii c in
  if ((128 <=? n) && (n <? 192))%N then Some (n - 128)%N else None.

(** A decoded scalar value is kept when it is in shortest form ([least] is
    the smallest value of its length), is no surrogate and is not above
    U+10FFFF. *)
Definition scalar (least cp : N) (rest : option (list N)) : option (list N) :=
  if ((cp <? least) || ((55296 <=? cp) && (cp <=? 57343)) || (1114111 <? cp))%N
  then None
  else option_map (cons cp) rest.

(** The code points of a text, from its UTF-8 bytes, as
    [bytes.decode('utf-8')] reads them; [None] for bytes that do not
    decode. *)
Fixpoint code_points (s : string) : option (list N) :=
  match s with
  | EmptyString => Some []
  | String a r =>
      let n := N_of_ascii a in
      if (n <? 128)%N then option_map (cons n) (code_points r)
      else if (n <? 192)%N then None
      else if (n <? 224)%N then
        match r with
        | String b r1 =>
            match continuation b with
            | Some x => scalar 128 ((n - 192) * 64 + x)%N (code_points r1)
            | None => None
            end
        | _ => None
        end
      else if (n <? 240)%N then
        match r with
        | String b (String c r2) =>
            match continuation b, continuation c with
            | Some x, Some y =>
                scalar 2048 ((n - 224) * 4096 + x * 64 + y)%N (code_points r2)
            | _, _ => None
            end
        | _ => None
        end
      else if (n <? 248)%N then
        match r with
        | String b (String c (String d r3)) =>
            match continuation b, continuation c, continuation d with
            | Some x, Some y, Some z =>
                scalar 65536 ((n - 240) * 262144 + x * 4096 + y * 64 + z)%N
                       (code_points r3)
            | _, _, _ => None
            end
        | _ => None
        end
      else None
  end.

(** [Py_UNICODE_ISSPACE] above the ASCII range (Unicode 14.0, the character
    database of CPython 3.11): the characters of bidirectional type WS, B
    or S and of category Zs. *)
Definition unicode_spaces : list N :=
  [133; 160; 5760; 8192; 8193; 8194; 8195; 8196; 8197; 8198; 8199; 8200;
   8201; 8202; 8232; 8233; 8239; 8287; 12288]%N.

Definition is_unicode_space (ch : N) : bool :=
  existsb (N.eqb ch) unicode_spaces.

(** The zero of every run of decimal digits of the same database; the
    digits one to nine follow their zero. *)
Definition decimal_zeros : list N :=
  [1632; 1776; 1984; 2406; 2534; 2662; 2790; 2918; 3046; 3174; 3302; 3430;
   3558; 3664; 3792; 3872; 4160; 4240; 6112; 6160; 6470; 6608; 6784; 6800;
   6992; 7088; 7232; 7248; 42528; 43216; 43264; 43472; 43504; 43600; 44016;
   65296; 66720; 68912; 69734; 69872; 69942; 70096; 70384; 70736; 70864;
   71248; 71360; 71472; 71904; 72016; 72784; 73040; 73120; 92768; 92864;
   93008; 120782; 120792; 120802; 120812; 120822; 123200; 123632; 125264;
   130032]%N.

(** [Py_UNICODE_TODECIMAL] *)
Definition to_decimal (ch : N) : option N :=
  match find (fun z => ((z <=? ch) && (ch <? z + 10))%N) decimal_zeros with
  | Some z => Some (ch - z)%N
  | None => None
  end.

(** [_PyUnicode_TransformDecimalAndSpaceToASCII] on a text that is not all
    ASCII: a blank becomes a space, a decimal digit its ASCII digit, and the
    text ends in a question mark at the first character that is neither. *)
Fixpoint transform_decimal_and_space (text : list N) : string :=
  match text with
  | [] => EmptyString
  | ch :: rest =>
      if (ch <? 127)%N then
        String (ascii_of_N ch) (transform_decimal_and_space rest)
      else if is_unicode_space ch then
        String " " (transform_decimal_and_space rest)
      else
        match to_decimal ch with
        | Some d =>
            String (ascii_of_N (48 + d)) (transform_decimal_and_space rest)
        | None => "?"
        end
  end.

(** The number after the blanks and the sign are gone. *)
Definition int_literal (digits : string) : option nat :=
  if (MAX_STR_DIGITS <? count_digits digits)%nat then None
  else int_digits 0 false digits.

(** [int(s)] for a [str] (CPython 3.11, [PyLong_FromUnicodeObject] with base
    ten): [None] stands for [ValueError], a negative number is [inr] of its
    absolute value.  An ASCII text is read as it is; any other text first
    goes through [transform_decimal_and_space].  The texts the server looks
    at have decoded; for bytes that do not decode the answer is [None]. *)
Definition int_of (s : string) : option (nat + nat) :=
  match code_points s with
  | None => None
  | Some text =>
      let asciidig :=
        if forallb (fun ch => (ch <? 128)%N) text then s
        else transform_decimal_and_space text in
      match rstrip (lstrip asciidig) with
      | String "-" r => option_map inr (int_literal r)
      | String "+" r => option_map inl (int_literal r)
      | r => option_map inl (int_literal r)
      end
  end.

(** A Python [dict] with string keys.  Since Python 3.7 a dict iterates in
    insertion order, and the roster string depends on that order, so the
    dict is an association list with one entry per key. *)
Section Dict.
Context {V : Type}.

Definition dict := list (string * V).

(** [d.get(k)] *)
Fixpoint get (k : string) (d : dict) : option V :=
  match d with
  | [] => None
  | (k', v) :: d' => if String.eqb k k' then Some v else get k d'
  end.

(** [k in d] *)
Definition mem (k : string) (d : dict) : bool :=
  match get k d with Some _ => true | None => false end.

(** [d[k] = v]: an existing key keeps its position, a new key goes last. *)
Fixpoint set (k : string) (v : V) (d : dict) : dict :=
  match d with
  | [] => [(k, v)]
  | (k', v') :: d' =>
      if String.eqb k k' then (k, v) :: d' else (k', v') :: set k v d'
  end.

(** [del d[k]] (the server only deletes after checking [k in d]). *)
Fixpoint del (k : string) (d : dict) : dict :=
  match d with
  | [] => []
  | (k', v') :: d' =>
      if String.eqb k k' then d' else (k', v') :: del k d'
  end.

Definition keys (d : dict) : list string := map fst d.
Definition values (d : dict) : list V := map snd d.
End Dict.
Arguments dict : clear implicits.

End Py.


(* ================================================================== *)
(** ** Execution monad *)

Module Exec.

(** The exception classes the handlers tell apart.  [ConnectionError]
    covers [BrokenPipeError] and [ConnectionResetError]; [ValueError] also
    stands for [IndexError], which is always caught by the same clause;
    [OSError] is any other exception, all of them caught by
    [except Exception]. *)
Inductive exn := ValueError | ConnectionError | TimeoutError | OSError.

(** How a call ends.  [Blocks] is a thread that never gets on: it waits on
    a [threading.Lock] that nobody will release (the lock is not
    re-entrant, so a thread that acquires a lock it already holds waits for
    ever), or it runs a loop that never ends. *)
Inductive outcome (A : Type) : Type :=
| Returns (a : A)
| Raises (e : exn)
| Blocks.
Arguments Returns {A} a.
Arguments Raises {A} e.
Arguments Blocks {A}.

Definition M (S A : Type) : Type := S -> outcome A * S.

Definition ret {S A} (a : A) : M S A := fun s => (Returns a, s).

Definition bind {S A B} (m : M S A) (k : A -> M S B) : M S B :=
  fun s =>
    match m s with
    | (Returns a, s') => k a s'
    | (Raises e, s') => (Raises e, s')
    | (Blocks, s') => (Blocks, s')
    end.

Definition raise {S A} (e : exn) : M S A := fun s => (Raises e, s).

(** [try: body / except ... as e: handler e].  A blocked thread never
    reaches the handler. *)
Definition try_except {S A} (body : M S A) (handler : exn -> M S A) : M S A :=
  fun s =>
    match body s with
    | (Raises e, s') => handler e s'
    | r => r
    end.

Definition gets {S A} (f : S -> A) : M S A := fun s => (Returns (f s), s).
Definition modify {S} (f : S -> S) : M S unit := fun s => (Returns tt, f s).

(** [for x in xs: body(x)] *)
Fixpoint for_each {S A} (xs : list A) (body : A -> M S unit) : M S unit :=
  match xs with
  | [] => ret tt
  | x :: xs' => bind (body x) (fun _ => for_each xs' body)
  end.

(** [keeps I m]: whatever way [m] ends (it returns, raises or blocks), a
    state that satisfies [I] is left in a state that satisfies [I]. *)
Definition keeps {S A} (I : S -> Prop) (m : M S A) : Prop :=
  forall s, I s -> I (snd (m s)).

End Exec.

Declare Scope exec_scope.
Delimit Scope exec_scope with exec.
Notation "x <- c ;; k" := (Exec.bind c (fun x => k))
  (at level 61, c at next level, right associativity) : exec_scope.
Notation "c ;; k" := (Exec.bind c (fun _ => k))
  (at level 61, right associativity) : exec_scope.
Open Scope exec_scope.

(* ================================================================== *)
(** ** Sockets *)

Module Net.
Import Exec.

(** A socket object, compared by identity. *)
Definition conn := nat.

(** What the three TCP servers see of the network: what each socket was
    sent (oldest first), the sockets closed on this side, and the sockets
    whose peer is gone. *)
Record net := mk_net {
  wire : list (conn * string);
  closed : list conn;
  reset : list conn
}.

Definition quiet : net := {| wire := []; closed := []; reset := [] |}.

Definition is_in (c : conn) (l : list conn) : bool := existsb (Nat.eqb c) l.

(** [conn.sendall(data)]: raises on a closed socket and on a socket whose
    peer is gone, delivers otherwise. *)
Definition sendall (c : conn) (data : string) : M net unit :=
  fun n =>
    if is_in c (closed n) then (Raises OSError, n)
    else if is_in c (reset n) then (Raises ConnectionError, n)
    else (Returns tt,
          {| wire := wire n ++ [(c, data)]; closed := closed n;
             reset := reset n |}).

(** The network after [c] was closed. *)
Definition closing (c : conn) (n : net) : net :=
  {| wire := wire n; closed := c :: closed n; reset := reset n |}.

(** [conn.close()] *)
Definition close (c : conn) : M net unit := modify (closing c).

(** The network after the peer of [c] has reset the connection. *)
Definition resetting (c : conn) (n : net) : net :=
  {| wire := wire n; closed := closed n; reset := c :: reset n |}.

(** A socket on which [sendall] delivers. *)
Definition alive (c : conn) (n : net) : bool :=
  negb (is_in c (closed n)) && negb (is_in c (reset n)).

(** The network after the messages [l] were delivered. *)
Definition delivered (l : list (conn * string)) (n : net) : net :=
  {| wire := wire n ++ l; closed := closed n; reset := reset n |}.

(** What was sent to socket [c]. *)
Definition received_by (c : conn) (n : net) : list string :=
  map snd (filter (fun e => Nat.eqb (fst e) c) (wire n)).

(** Run a network action inside a larger state. *)
Definition lift {S A} (get : S -> net) (put : net -> S -> S) (m : M net A)
    : M S A :=
  fun s => let '(r, n) := m (get s) in (r, put n s).

End Net.

(* ================================================================== *)
(** ** Chat server *)

Module Chat.
Import Exec Net.

(** The value stored per user: [{'conn': conn, 'status': 'Online'}]. *)
Record client_info := mk_client_info {
  ci_conn : conn;
  ci_status : string
}.

(** The module globals of the chat server, and the network. *)
Record state := mk_state {
  chat_clients : Py.dict client_info;
  current_presenter_username : option string;
  chat_lock : bool;                     (* [true]: held *)
  io : net
}.

Definition initial : state :=
  {| chat_clients := []; current_presenter_username := None;
     chat_lock := false; io := quiet |}.

Definition with_clients (f : Py.dict client_info -> Py.dict client_info)
    (s : state) : state :=
  {| chat_clients := f (chat_clients s);
     current_presenter_username := current_presenter_username s;
     chat_lock := chat_lock s; io := io s |}.

Definition with_presenter (p : option string) (s : state) : state :=
  {| chat_clients := chat_clients s;
     current_presenter_username := p;
     chat_lock := chat_lock s; io := io s |}.

Definition with_lock_flag (b : bool) (s : state) : state :=
  {| chat_clients := chat_clients s;
     current_presenter_username := current_presenter_username s;
     chat_lock := b; io := io s |}.

Definition with_io (n : net) (s : state) : state :=
  {| chat_clients := chat_clients s;
     current_presenter_username := current_presenter_username s;
     chat_lock := chat_lock s; io := n |}.

Definition sendall (c : conn) (data : string) : M state unit :=
  lift io with_io (Net.sendall c data).

Definition close (c : conn) : M state unit :=
  lift io with_io (Net.close c).

(** [with chat_lock: body].  Acquiring blocks while the lock is held; the
    lock is released when the body returns or raises. *)
Definition with_chat_lock {A} (body : M state A) : M state A :=
  fun s =>
    if chat_lock s then (Blocks, s)
    else match body (with_lock_flag true s) with
         | (Blocks, s') => (Blocks, s')
         | (r, s') => (r, with_lock_flag false s')
         end.

(** The string [get_user_list_string] builds from the dict. *)
Definition user_list_of (clients : Py.dict client_info) : string :=
  match clients with
  | [] => "USER_LIST:"
  | _ =>
      let parts :=
        map (fun '(name, info) => name ++ "=" ++ ci_status info) clients in
      "USER_LIST:" ++ Py.join "," parts
  end.

(** [get_user_list_string()] *)
Definition get_user_list_string : M state string :=
  with_chat_lock (gets (fun s => user_list_of (chat_clients s))).

(** [conn != sender_conn], where [sender_conn] may be [None]. *)
Definition conn_differs (c : conn) (sender_conn : option conn) : bool :=
  match sender_conn with
  | Some c' => negb (Nat.eqb c c')
  | None => true
  end.

(** [broadcast_chat(message_bytes, sender_conn)]: the recipients are copied
    under the lock, and a failed send is logged and skipped. *)
Definition broadcast_chat (message : string) (sender_conn : option conn)
    : M state unit :=
  clients_to_message <-
    with_chat_lock (gets (fun s => Py.values (chat_clients s))) ;;
  for_each clients_to_message (fun client_info =>
    if conn_differs (ci_conn client_info) sender_conn
    then try_except (sendall (ci_conn client_info) message) (fun _ => ret tt)
    else ret tt).

(** The sockets a broadcast reaches, in dict order: those of the registered
    sessions, the sender's own and the dead ones left out. *)
Definition recipients (clients : Py.dict client_info)
    (sender_conn : option conn) (n : net) : list conn :=
  filter (fun c => conn_differs c sender_conn && alive c n)
         (map ci_conn (Py.values clients)).

(** One copy of [message] for each socket of [cs]. *)
Definition copies (message : string) (cs : list conn) : list (conn * string) :=
  map (fun c => (c, message)) cs.

(** The local variable [username] of a handler once the first [recv]
    returned [username_bytes]: it stays [None] when nothing was received. *)
Definition local_username (username_bytes : string) : option string :=
  if String.eqb username_bytes "" then None else Some username_bytes.

(** How the handshake part of [handle_chat_client] ends: the handler falls
    through to its command loop, or executes [return]. *)
Inductive handshake_exit := EntersLoop | Returned.

(** Lines 126-165. *)
Definition chat_handshake (conn : conn) (username_bytes : string)
    : M state handshake_exit :=
  if String.eqb username_bytes "" then ret Returned
  else
    let username := username_bytes in
    r <- with_chat_lock (
      clients <- gets chat_clients ;;
      if String.eqb username "" || Py.mem username clients then
        try_except (sendall conn "ERROR:USERNAME_TAKEN") (fun _ => ret tt) ;;
        close conn ;;
        ret Returned
      else
        ok <- try_except (sendall conn "OK" ;; ret true)
                         (fun _ => close conn ;; ret false) ;;
        if ok : bool then
          modify (with_clients
                    (Py.set username (mk_client_info conn "Online"))) ;;
          ret EntersLoop
        else ret Returned) ;;
    match r with
    | Returned => ret Returned
    | EntersLoop =>
        user_list_str <- get_user_list_string ;;
        sendall conn user_list_str ;;
        broadcast_chat ("USER_JOIN:" ++ username ++ "=Online") (Some conn) ;;
        with_chat_lock (
          p <- gets current_presenter_username ;;
          match p with
          | Some presenter =>
              if String.eqb presenter "" then ret tt
              else sendall conn ("SCREEN_START:" ++ presenter)
          | None => ret tt
          end) ;;
        ret EntersLoop
    end.

(** [username == current_presenter_username] *)
Definition is_presenter (username : string) (p : option string) : bool :=
  match p with
  | Some q => String.eqb username q
  | None => false
  end.

(** The status a [SET_STATUS:] message sets (line 180). *)
Definition coerce_status (received : string) : string :=
  if Py.str_in received ["Online"; "Away"] then received else "Online".

(** [chat_clients[username]['status'] = new_status], behind its guard
    [if username in chat_clients] (lines 183-184). *)
Definition set_status (username new_status : string)
    (clients : Py.dict client_info) : Py.dict client_info :=
  match Py.get username clients with
  | Some info =>
      Py.set username (mk_client_info (ci_conn info) new_status) clients
  | None => clients
  end.

(** The [SET_STATUS:] branch, lines 177-188. *)
Definition on_set_status (conn : conn) (username message_str : string)
    : M state unit :=
  try_except (
    match Py.split ":" 1 message_str with
    | [_; received] =>
        let new_status := coerce_status received in
        with_chat_lock (modify (with_clients (set_status username new_status))) ;;
        broadcast_chat ("STATUS_UPDATE:" ++ username ++ "=" ++ new_status)
                       (Some conn)
    | _ => raise ValueError
    end)
    (fun _ => ret tt).

(** The [PM:] branch, lines 191-208. *)
Definition on_pm (conn : conn) (username timestamp message_str : string)
    : M state unit :=
  try_except (
    match Py.split ":" 2 message_str with
    | [_; target_user; content] =>
        target_conn <- with_chat_lock (
          clients <- gets chat_clients ;;
          ret (option_map ci_conn (Py.get target_user clients))) ;;
        match target_conn with
        | Some tc =>
            sendall tc (timestamp ++ " PM_FROM:" ++ username ++ ":" ++ content) ;;
            sendall conn (timestamp ++ " PM_TO:" ++ target_user ++ ":" ++ content)
        | None =>
            sendall conn (timestamp ++ " SYSTEM:User '" ++ target_user
                          ++ "' not found or offline.")
        end
    | _ => raise ValueError
    end)
    (fun _ => sendall conn (timestamp ++ " SYSTEM:Error processing PM.")).

(** The [REQUEST_TO_PRESENT] branch, lines 211-231.  Both granting paths
    call [broadcast_chat] inside [with chat_lock]. *)
Definition on_request_to_present (conn : conn) (username : string)
    : M state unit :=
  with_chat_lock (
    p <- gets current_presenter_username ;;
    match p with
    | None =>
        modify (with_presenter (Some username)) ;;
        sendall conn "OK_TO_PRESENT" ;;
        broadcast_chat ("SCREEN_START:" ++ username) (Some conn)
    | Some presenter =>
        clients <- gets chat_clients ;;
        match Py.get presenter clients with
        | Some presenter_info =>
            sendall (ci_conn presenter_info)
                    ("PRESENT_REQUEST_FROM:" ++ username)
        | None =>
            modify (with_presenter (Some username)) ;;
            sendall conn "OK_TO_PRESENT" ;;
            broadcast_chat ("SCREEN_START:" ++ username) (Some conn)
        end
    end).

(** The [PRESENT_RESPONSE:] branch, lines 234-266.  The two [continue]
    statements leave the [with] block, which has nothing after it. *)
Definition on_present_response (conn : conn) (username message_str : string)
    : M state unit :=
  try_except (
    match Py.split ":" 2 message_str with
    | [_; response; requester_name] =>
        with_chat_lock (
          p <- gets current_presenter_username ;;
          if negb (is_presenter username p) then ret tt
          else
            clients <- gets chat_clients ;;
            match Py.get requester_name clients with
            | None => ret tt
            | Some requester_info =>
                if String.eqb response "Yes" then
                  sendall (ci_conn requester_info) "OK_TO_PRESENT" ;;
                  sendall conn "SCREEN_STOP_REQUESTED" ;;
                  modify (with_presenter (Some requester_name)) ;;
                  broadcast_chat ("SCREEN_START:" ++ requester_name)
                                 (Some (ci_conn requester_info))
                else
                  sendall (ci_conn requester_info) "PRESENT_REQUEST_DENIED"
            end)
    | _ => raise ValueError
    end)
    (fun _ => ret tt).

(** The [STOP_SHARING] branch, lines 269-276. *)
Definition on_stop_sharing (username : string) : M state unit :=
  with_chat_lock (
    p <- gets current_presenter_username ;;
    if is_presenter username p then
      modify (with_presenter None) ;;
      broadcast_chat "SCREEN_STOP" None
    else ret tt).

(** One turn of the command loop for a non-empty message, lines 173-283. *)
Definition chat_dispatch (conn : conn) (username timestamp message_str : string)
    : M state unit :=
  if Py.startswith "SET_STATUS:" message_str then
    on_set_status conn username message_str
  else if Py.startswith "PM:" message_str then
    on_pm conn username timestamp message_str
  else if String.eqb message_str "REQUEST_TO_PRESENT" then
    on_request_to_present conn username
  else if Py.startswith "PRESENT_RESPONSE:" message_str then
    on_present_response conn username message_str
  else if String.eqb message_str "STOP_SHARING" then
    on_stop_sharing username
  else
    broadcast_chat (timestamp ++ " " ++ username ++ ": " ++ message_str)
                   (Some conn).

(** The critical section of the [finally] block (lines 293-300): the
    registry entry of [username] is deleted and the presenter slot is
    cleared when it names [username]. *)
Definition unregister (username : string) : M state (bool * bool) :=
  with_chat_lock (
    clients <- gets chat_clients ;;
    removed <-
      (if Py.mem username clients
       then modify (with_clients (Py.del username)) ;; ret true
       else ret false) ;;
    p <- gets current_presenter_username ;;
    if is_presenter username p
    then modify (with_presenter None) ;; ret (removed, true)
    else ret (removed, false)).

(** The [finally] block, lines 289-313.  It runs for every way out of the
    handler, a refused handshake included, with whatever [username] holds. *)
Definition chat_finally (conn : conn) (username : option string)
    : M state unit :=
  match username with
  | Some username =>
      if String.eqb username "" then ret tt
      else
        flags <- unregister username ;;
        (if fst flags then broadcast_chat ("USER_LEAVE:" ++ username) None
         else ret tt) ;;
        (if snd flags then broadcast_chat "SCREEN_STOP" None else ret tt)
  | None => ret tt
  end ;;
  try_except (close conn) (fun _ => ret tt).

(** The [while True] loop over the messages the socket delivers, each with
    the wall-clock time at which it was read.  An empty read, or a socket
    that delivers nothing more, ends the loop. *)
Fixpoint command_loop (conn : conn) (username : string)
    (inbox : list (string * string)) : M state unit :=
  match inbox with
  | [] => ret tt
  | (timestamp, message_str) :: rest =>
      if String.eqb message_str "" then ret tt
      else chat_dispatch conn username timestamp message_str ;;
           command_loop conn username rest
  end.

(** [handle_chat_client(conn, addr)] for a socket that delivers
    [username_bytes] and then [inbox]. *)
Definition handle_chat_client (conn : conn) (username_bytes : string)
    (inbox : list (string * string)) : M state unit :=
  try_except (
    r <- chat_handshake conn username_bytes ;;
    match r with
    | EntersLoop => command_loop conn username_bytes inbox
    | Returned => ret tt
    end)
    (fun _ => ret tt) ;;
  chat_finally conn (local_username username_bytes).

(** *** The server as a transition system

    Handlers of different sockets interleave between two reads.  [server]
    adds to the shared state the handlers that sit in their command loop,
    each with its local [username]. *)
Record server := mk_server {
  shared : state;
  loops : list (conn * string)
}.

Definition boot : server := {| shared := initial; loops := [] |}.

Inductive event :=
| Accept (c : conn) (username_bytes : string)
    (* a new socket, and the result of its first [recv] *)
| Recv (c : conn) (timestamp message_bytes : string).
    (* a later [recv]; the empty string is end of stream *)

Definition loop_of (c : conn) (l : list (conn * string)) : option string :=
  option_map snd (find (fun e => Nat.eqb c (fst e)) l).

Definition drop_loop (c : conn) (l : list (conn * string))
    : list (conn * string) :=
  filter (fun e => negb (Nat.eqb c (fst e))) l.

(** The handler of [c] leaves through [finally]. *)
Definition leave (c : conn) (username : option string) (sv : server)
    (s : state) : server :=
  {| shared := snd (chat_finally c username s);
     loops := drop_loop c (loops sv) |}.

(** A handler that blocks stays blocked: it is taken out of [loops] and
    never runs again. *)
Definition step (ev : event) (sv : server) : server :=
  match ev with
  | Accept c username_bytes =>
      match loop_of c (loops sv) with
      | Some _ => sv
      | None =>
          match chat_handshake c username_bytes (shared sv) with
          | (Returns EntersLoop, s) =>
              {| shared := s; loops := loops sv ++ [(c, username_bytes)] |}
          | (Returns Returned, s) | (Raises _, s) =>
              leave c (local_username username_bytes) sv s
          | (Blocks, s) => {| shared := s; loops := loops sv |}
          end
      end
  | Recv c timestamp message_bytes =>
      match loop_of c (loops sv) with
      | None => sv
      | Some username =>
          if String.eqb message_bytes "" then
            leave c (Some username) sv (shared sv)
          else
            match chat_dispatch c username timestamp message_bytes (shared sv) with
            | (Returns _, s) => {| shared := s; loops := loops sv |}
            | (Raises _, s) => leave c (Some username) sv s
            | (Blocks, s) => {| shared := s; loops := drop_loop c (loops sv) |}
            end
      end
  end.

Definition run (evs : list event) (sv : server) : server :=
  fold_left (fun sv ev => step ev sv) evs sv.

(** The presenter-slot invariant of the specification: a non-empty slot
    names a registered session. *)
Definition slot_registered (s : state) : Prop :=
  match current_presenter_username s with
  | Some p => Py.mem p (chat_clients s) = true
  | None => True
  end.

(** *** The registry operations on their own

    The three critical sections that change [chat_clients], as operations
    on the dict: the check-and-insert of the handshake (lines 133-153), the
    delete of the [finally] block (lines 294-296) and the status update
    (lines 180-184). *)
Inductive registry_op :=
| Register (username : string) (c : conn)
| Unregister (username : string)
| SetStatus (username status : string).

Definition register (username : string) (c : conn)
    (clients : Py.dict client_info) : Py.dict client_info :=
  if String.eqb username "" || Py.mem username clients then clients
  else Py.set username (mk_client_info c "Online") clients.

Definition apply_op (clients : Py.dict client_info) (op : registry_op)
    : Py.dict client_info :=
  match op with
  | Register username c => register username c clients
  | Unregister username =>
      if Py.mem username clients then Py.del username clients else clients
  | SetStatus username status =>
      set_status username (coerce_status status) clients
  end.

Definition apply_ops (ops : list registry_op) : Py.dict client_info :=
  fold_left apply_op ops [].

(** The roster of the specification, in its own words: the registered
    usernames with their statuses.  [Snapshot] is this roster sorted by
    username; the roster itself is kept here in the order of registration. *)
Definition roster := list (string * string).

Definition spec_apply (r : roster) (op : registry_op) : roster :=
  match op with
  | Register username _ =>
      if String.eqb username "" || existsb (String.eqb username) (map fst r)
      then r else (r ++ [(username, "Online")])%list
  | Unregister username =>
      filter (fun e => negb (String.eqb username (fst e))) r
  | SetStatus username status =>
      map (fun e => if String.eqb username (fst e)
                    then (fst e, coerce_status status) else e) r
  end.

Definition spec_roster (ops : list registry_op) : roster :=
  fold_left spec_apply ops [].

(** The roster a dict holds. *)
Definition roster_of (clients : Py.dict client_info) : roster :=
  map (fun e => (fst e, ci_status (snd e))) clients.

(** Sorted by username, in Python's string order. *)
Fixpoint sorted_names (names : list string) : bool :=
  match names with
  | [] => true
  | a :: rest =>
      match rest with
      | [] => true
      | b :: _ => String.leb a b && sorted_names rest
      end
  end.

(** *** States the statements below refer to *)

(** The state in which a granting [REQUEST_TO_PRESENT] leaves the server:
    the slot names the requester, the requester was told, and the handler
    still holds [chat_lock]. *)
Definition granted_and_stuck (conn : conn) (username : string) (s : state)
    : state :=
  {| chat_clients := chat_clients s;
     current_presenter_username := Some username;
     chat_lock := true;
     io := delivered [(conn, "OK_TO_PRESENT")] (io s) |}.

(** The state in which an accepted hand-over leaves the server: both
    parties were told, the slot names the requester, and the handler still
    holds [chat_lock]. *)
Definition handed_over_and_stuck (conn requester_conn : conn)
    (requester_name : string) (s : state) : state :=
  {| chat_clients := chat_clients s;
     current_presenter_username := Some requester_name;
     chat_lock := true;
     io := delivered [(requester_conn, "OK_TO_PRESENT");
                      (conn, "SCREEN_STOP_REQUESTED")] (io s) |}.


(** A predicate that looks at the registry and the slot only. *)
Definition registry_only (I : state -> Prop) : Prop :=
  forall s s',
    chat_clients s' = chat_clients s ->
    current_presenter_username s' = current_presenter_username s ->
    I s -> I s'.

(** The invariant, for a state in which [username] is registered. *)
Definition registered_actor (username : string) (s : state) : Prop :=
  slot_registered s /\ Py.mem username (chat_clients s) = true.

(** The state after the critical section of the [finally] block. *)
Definition unregistered (username : string) (s : state) : state :=
  {| chat_clients :=
       if Py.mem username (chat_clients s)
       then Py.del username (chat_clients s) else chat_clients s;
     current_presenter_username :=
       if is_presenter username (current_presenter_username s)
       then None else current_presenter_username s;
     chat_lock := chat_lock s;
     io := io s |}.


(** alice and bob have joined, in that order, on sockets 1 and 2. *)
Definition alice_and_bob : state :=
  shared (run [Accept 1 "alice"; Accept 2 "bob"] boot).

(** alice, bob and carol are registered and alice holds the slot. *)
Definition alice_presents : state :=
  {| chat_clients := [("alice", mk_client_info 1 "Online");
                      ("bob", mk_client_info 2 "Online");
                      ("carol", mk_client_info 3 "Online")];
     current_presenter_username := Some "alice";
     chat_lock := false;
     io := quiet |}.

(** bob joins, alice joins, and a third socket asks for the name alice. *)
Definition alice_name_reused : server :=
  run [Accept 2 "bob"; Accept 1 "alice"; Accept 3 "alice"] boot.

(** *** A presenter slot that is seen with the lock free

    The slot is written under [chat_lock] only, and where it is set (lines
    216, 229 and 258) the same critical section goes on to a [sendall] and
    then to the [broadcast_chat] that blocks.  Another handler sees the
    slot set and the lock free only when that [sendall] raises: the
    exception leaves the [with] block, which releases the lock, and the
    thread takes the lock again only in its [finally] block (line 293).
    Between the two, any other handler thread may run a critical section
    of its own. *)

(** The peer of socket [c] resets the connection. *)
Definition peer_reset (c : conn) (s : state) : state :=
  with_io (resetting c (io s)) s.

(** After socket 3 was refused the name alice, which unregistered alice
    while her handler (socket 1) stays in its loop, a client on socket 4
    takes the name alice.  Two handlers now sit in their loop with the
    username alice, and the name is registered to socket 4. *)
Definition two_alices : server := run [Accept 4 "alice"] alice_name_reused.

(** The client of socket 1 sends [REQUEST_TO_PRESENT] and resets its
    connection.  Its handler finds the slot empty, sets it to alice
    (line 216), and [sendall] raises (line 218). *)
Definition first_alice_fails : outcome unit * state :=
  chat_dispatch 1 "alice" "12:00:00" "REQUEST_TO_PRESENT"
    (peer_reset 1 (shared two_alices)).

(** The shared state while the handler of socket 1 is on its way from the
    [with] block to its [finally] block. *)
Definition slot_left_behind : state := snd first_alice_fails.

End Chat.

(* ================================================================== *)
(** ** Screen-share server *)

Module Screen.
Import Exec Net.

(** The module globals of the screen-share server, and the network.
    [screen_lock] is left out: no code path acquires it while holding it. *)
Record state := mk_state {
  screen_presenter_socket : option conn;
  screen_viewers : list conn;
  io : net
}.

Definition with_presenter_socket (p : option conn) (s : state) : state :=
  {| screen_presenter_socket := p; screen_viewers := screen_viewers s;
     io := io s |}.

Definition with_viewers (v : list conn) (s : state) : state :=
  {| screen_presenter_socket := screen_presenter_socket s;
     screen_viewers := v; io := io s |}.

Definition with_io (n : net) (s : state) : state :=
  {| screen_presenter_socket := screen_presenter_socket s;
     screen_viewers := screen_viewers s; io := n |}.

Definition sendall (c : conn) (data : string) : M state unit :=
  lift io with_io (Net.sendall c data).

Definition close (c : conn) : M state unit :=
  lift io with_io (Net.close c).

(** [l.remove(c)]: the first occurrence goes (the server calls it only
    after checking [c in l]). *)
Fixpoint list_remove (c : conn) (l : list conn) : list conn :=
  match l with
  | [] => []
  | x :: l' => if Nat.eqb c x then l' else x :: list_remove c l'
  end.

(** [conn == screen_presenter_socket] *)
Definition is_presenter_socket (c : conn) (p : option conn) : bool :=
  match p with
  | Some q => Nat.eqb c q
  | None => false
  end.

(** [if viewer_conn in screen_viewers: screen_viewers.remove(viewer_conn)] *)
Definition drop_viewer (c : conn) : M state unit :=
  modify (fun s =>
    if is_in c (screen_viewers s)
    then with_viewers (list_remove c (screen_viewers s)) s
    else s).

(** [broadcast_to_viewers(data, _sender_conn)] *)
Definition broadcast_to_viewers (data : string) (_sender_conn : conn)
    : M state unit :=
  p <- gets screen_presenter_socket ;;
  if negb (is_presenter_socket _sender_conn p) then ret tt
  else
    current_viewers <- gets screen_viewers ;;
    for_each current_viewers (fun viewer_conn =>
      try_except (sendall viewer_conn data)
                 (fun _ => drop_viewer viewer_conn)).

(** How the role negotiation ends (lines 435-477): the handler enters the
    presenter loop, enters the viewer loop, or leaves the [try] block. *)
Inductive role_exit := PresenterLoop | ViewerLoop | LeavesTry.

Definition negotiate_role (conn : conn) (role : string) : M state role_exit :=
  if String.eqb role "PRESENTER" then
    p <- gets screen_presenter_socket ;;
    match p with
    | None =>
        modify (with_presenter_socket (Some conn)) ;;
        ret PresenterLoop
    | Some _ =>
        sendall conn "ERROR: Presenter busy" ;;
        close conn ;;
        ret LeavesTry
    end
  else if String.eqb role "VIEWER" then
    modify (fun s => with_viewers (screen_viewers s ++ [conn]) s) ;;
    ret ViewerLoop
  else ret LeavesTry.

(** The [finally] block, lines 500-511. *)
Definition screen_finally (conn : conn) : M state unit :=
  modify (fun s =>
    if is_presenter_socket conn (screen_presenter_socket s)
    then with_presenter_socket None s else s) ;;
  drop_viewer conn ;;
  try_except (close conn) (fun _ => ret tt).

(** [handle_screen_client(conn, addr)] up to the point where an accepted
    socket starts its loop: the first [recv] returned [role]; a handler
    that does not enter a loop, or whose negotiation raises, runs
    [finally].  The result tells whether a loop was entered. *)
Definition handle_screen_client (conn : conn) (role : string)
    : M state role_exit :=
  r <- try_except (negotiate_role conn role) (fun _ => ret LeavesTry) ;;
  match r with
  | LeavesTry => screen_finally conn ;; ret LeavesTry
  | entered => ret entered
  end.

(** *** States the statements below refer to *)

(** The state after a [PRESENTER] handshake was turned away: the socket was
    told, closed by the handler and closed again by [finally]. *)
Definition turned_away (conn : conn) (s : state) : state :=
  with_io (closing conn (closing conn
             (delivered [(conn, "ERROR: Presenter busy")] (io s)))) s.

(** Socket 7 presents to the viewers 8 and 9. *)
Definition presenting : state :=
  {| screen_presenter_socket := Some 7; screen_viewers := [8; 9];
     io := quiet |}.

End Screen.

(* ================================================================== *)
(** ** File server *)

Module Files.
Import Exec Net.

Definition LF : string := Py.LF.

(** *** [os.path] (posixpath) *)

(** [os.path.basename(p)]: what follows the last slash.  [cur] is the
    suffix that starts after the last slash seen so far. *)
Fixpoint after_last_sep (cur p : string) : string :=
  match p with
  | EmptyString => cur
  | String c r =>
      if Ascii.eqb c "/" then after_last_sep r r else after_last_sep cur r
  end.

Definition basename (p : string) : string := after_last_sep p p.

(** [os.path.join(a, b)] *)
Definition join (a b : string) : string :=
  if Py.startswith "/" b then b
  else if String.eqb a "" || Py.endswith "/" a then a ++ b
  else a ++ "/" ++ b.

(** [p[i:i+1] != '.'] *)
Definition not_dot_at (p : string) (i : nat) : bool :=
  negb (String.eqb (Py.take 1 (Py.drop i p)) ".").

(** [os.path.splitext(p)] ([genericpath._splitext]): the extension starts
    at the last dot, provided that dot comes after the last slash and after
    a character of the file name that is not a dot. *)
Definition splitext (p : string) : string * string :=
  let sepIndex := Py.rfind "/" p in
  let dotIndex := Py.rfind "." p in
  match dotIndex with
  | None => (p, "")
  | Some d =>
      let filenameIndex := match sepIndex with Some i => S i | None => 0 end in
      if (filenameIndex <=? d)%nat
         && existsb (not_dot_at p) (seq filenameIndex (d - filenameIndex))
      then (Py.take d p, Py.drop d p)
      else (p, "")
  end.

(** *** The storage *)

Inductive node := File (content : string) | Dir.

(** What the server did to a path. *)
Inductive fs_op :=
| Create (path : string)      (* [open(path, 'wb')] *)
| Read (path : string)        (* [open(path, 'rb')] *)
| Remove (path : string).     (* [os.remove(path)] *)

Definition path_of (op : fs_op) : string :=
  match op with Create p | Read p | Remove p => p end.

(** What a [recv] on the served socket yields next. *)
Inductive recv_result := Data (d : string) | TimedOut.

(** The file system (path to node), the log of what was done to it, the
    module globals of the file server, the reads still to come on the
    socket being served, and the network.  [file_lock] is left out: no code
    path acquires it while holding it.  A command is a function on this
    state: the model serves one command at a time. *)
Record state := mk_state {
  fs : Py.dict node;
  touched : list fs_op;
  file_clients : list conn;
  available_files : list string;
  inbound : list recv_result;
  io : net
}.

Definition with_fs (f : Py.dict node) (op : list fs_op) (s : state) : state :=
  {| fs := f; touched := touched s ++ op; file_clients := file_clients s;
     available_files := available_files s; inbound := inbound s;
     io := io s |}.

Definition with_file_clients (l : list conn) (s : state) : state :=
  {| fs := fs s; touched := touched s; file_clients := l;
     available_files := available_files s; inbound := inbound s;
     io := io s |}.

Definition with_available (l : list string) (s : state) : state :=
  {| fs := fs s; touched := touched s; file_clients := file_clients s;
     available_files := l; inbound := inbound s; io := io s |}.

Definition with_inbound (l : list recv_result) (s : state) : state :=
  {| fs := fs s; touched := touched s; file_clients := file_clients s;
     available_files := available_files s; inbound := l; io := io s |}.

Definition with_io (n : net) (s : state) : state :=
  {| fs := fs s; touched := touched s; file_clients := file_clients s;
     available_files := available_files s; inbound := inbound s; io := n |}.

Definition sendall (c : conn) (data : string) : M state unit :=
  lift io with_io (Net.sendall c data).

(** [conn.recv(bufsize)] on the served socket: at most [bufsize] bytes of
    what arrived; the empty string when the peer has closed. *)
Definition recv (bufsize : nat) : M state string :=
  fun s =>
    match inbound s with
    | [] => (Returns "", s)
    | TimedOut :: rest => (Raises TimeoutError, with_inbound rest s)
    | Data d :: rest =>
        if (String.length d <=? bufsize)%nat then (Returns d, with_inbound rest s)
        else (Returns (Py.take bufsize d),
              with_inbound (Data (Py.drop bufsize d) :: rest) s)
    end.

(** [os.path.exists], [os.path.isfile], [os.path.getsize] *)
Definition exists_ (p : string) (files : Py.dict node) : bool := Py.mem p files.

Definition isfile (p : string) (files : Py.dict node) : bool :=
  match Py.get p files with Some (File _) => true | _ => false end.

Definition getsize (p : string) (files : Py.dict node) : nat :=
  match Py.get p files with Some (File c) => String.length c | _ => 0 end.

(** [open(path, 'wb')]: the file is created, or emptied. *)
Definition open_wb (p : string) : M state unit :=
  modify (fun s => with_fs (Py.set p (File "") (fs s)) [Create p] s).

(** [f.write(chunk)] *)
Definition write (p chunk : string) : M state unit :=
  modify (fun s =>
    match Py.get p (fs s) with
    | Some (File c) => with_fs (Py.set p (File (c ++ chunk)) (fs s)) [] s
    | _ => s
    end).

(** [open(path, 'rb')] and reading it to the end. *)
Definition open_rb (p : string) : M state string :=
  fun s =>
    match Py.get p (fs s) with
    | Some (File c) => (Returns c, with_fs (fs s) [Read p] s)
    | _ => (Raises OSError, s)
    end.

(** [os.remove(path)] *)
Definition os_remove (p : string) : M state unit :=
  fun s =>
    match Py.get p (fs s) with
    | Some (File _) => (Returns tt, with_fs (Py.del p (fs s)) [Remove p] s)
    | _ => (Raises OSError, s)
    end.

(** The chunks [f.read(4096)] returns until the file is exhausted. *)
Fixpoint chunks_of (fuel size : nat) (content : string) : list string :=
  match fuel with
  | O => []
  | S fuel' =>
      if String.eqb content "" then []
      else Py.take size content :: chunks_of fuel' size (Py.drop size content)
  end.

(** [conn in file_clients] followed by [file_clients.remove(conn)] *)
Fixpoint list_remove (c : conn) (l : list conn) : list conn :=
  match l with
  | [] => []
  | x :: l' => if Nat.eqb c x then l' else x :: list_remove c l'
  end.

Definition drop_client (c : conn) : M state unit :=
  modify (fun s =>
    if is_in c (file_clients s)
    then with_file_clients (list_remove c (file_clients s)) s
    else s).

Definition conn_differs (c : conn) (sender_conn : option conn) : bool :=
  match sender_conn with
  | Some c' => negb (Nat.eqb c c')
  | None => true
  end.

(** [broadcast_file_update(message_bytes, sender_conn)] *)
Definition broadcast_file_update (message : string)
    (sender_conn : option conn) : M state unit :=
  current_clients <- gets file_clients ;;
  for_each current_clients (fun client_conn =>
    if conn_differs client_conn sender_conn
    then try_except (sendall client_conn message)
                    (fun _ => drop_client client_conn)
    else ret tt).

(** The second component of a split command, as the inner loop of
    [handle_file_client] goes on after a command. *)
Inductive ctl := Continue | Break.

(** The rename loop of UPLOAD, lines 633-638.  [fuel] bounds the number of
    turns; running out of it stands for a loop that does not end. *)
Fixpoint free_path (fuel : nat) (files : Py.dict node) (base ext : string)
    (count : nat) (filepath filename : string) {struct fuel}
    : option (string * string) :=
  if exists_ filepath files then
    match fuel with
    | O => None
    | S fuel' =>
        let filepath' := base ++ "_" ++ Py.str_of_nat count ++ ext in
        free_path fuel' files base ext (S count) filepath' (basename filepath')
    end
  else Some (filepath, filename).

(** The receive loop of UPLOAD, lines 646-653.  Every turn adds at least
    one byte, so [fuel = filesize] turns are enough. *)
Fixpoint receive_file (fuel filesize received_bytes : nat) (filepath : string)
    {struct fuel} : M state nat :=
  if (filesize <=? received_bytes)%nat then ret received_bytes
  else
    match fuel with
    | O => ret received_bytes
    | S fuel' =>
        chunk <- recv (Nat.min 4096 (filesize - received_bytes)) ;;
        if String.eqb chunk "" then raise ConnectionError
        else
          write filepath chunk ;;
          receive_file fuel' filesize (received_bytes + String.length chunk)
                       filepath
    end.

(** The text [str(e)] of an exception, where a reply quotes it. *)
Definition str_of_exn (e : exn) : string :=
  match e with
  | TimeoutError => "timed out"
  | ConnectionError => "[Errno 32] Broken pipe"
  | ValueError => "invalid literal"
  | OSError => "[Errno 9] Bad file descriptor"
  end.

Section Handler.

(** The configured storage directory. *)
Variable FILE_DIR : string.

(** The names [os.listdir(FILE_DIR)] returns: the entries right below the
    directory, without [.] and [..]. *)
Definition dir_prefix : string :=
  if String.eqb FILE_DIR "" || Py.endswith "/" FILE_DIR then FILE_DIR
  else FILE_DIR ++ "/".

Definition entry_name (p : string) : option string :=
  if Py.startswith dir_prefix p then
    let n := Py.drop (String.length dir_prefix) p in
    if String.eqb n "" || String.eqb n "." || String.eqb n ".."
       || negb (String.eqb (basename n) n)
    then None else Some n
  else None.

Fixpoint listdir (files : Py.dict node) : list string :=
  match files with
  | [] => []
  | (p, _) :: rest =>
      match entry_name p with
      | Some n => n :: listdir rest
      | None => listdir rest
      end
  end.

(** [update_file_list()]; listing the empty path fails, and the cache is
    reset. *)
Definition update_file_list : M state unit :=
  modify (fun s =>
    if String.eqb FILE_DIR "" then with_available [] s
    else with_available
           (filter (fun f => isfile (join FILE_DIR f) (fs s)) (listdir (fs s)))
           s).

(** Lines 621-629: the file name and the size of an UPLOAD command, [None]
    where the code raises [ValueError]. *)
Definition parse_upload (cmd_data : string) : option (string * nat) :=
  match Py.split ":" 2 cmd_data with
  | [_; filename_raw; filesize_str] =>
      let filename := basename filename_raw in
      if String.eqb filename "" then None
      else match Py.int_of filesize_str with
           | Some (inl filesize) => Some (filename, filesize)
           | Some (inr O) => Some (filename, O)
           | _ => None
           end
  | _ => None
  end.

(** Lines 631-638: the path an upload of [filename] is stored at, and the
    name it gets. *)
Definition upload_target (files : Py.dict node) (filename : string)
    : option (string * string) :=
  let filepath := join FILE_DIR filename in
  let '(base, ext) := splitext filepath in
  free_path (S (List.length files)) files base ext 1 filepath filename.

(** [if os.path.exists(filepath): os.remove(filepath)] *)
Definition remove_partial (filepath : string) : M state unit :=
  files <- gets fs ;;
  if exists_ filepath files then os_remove filepath else ret tt.

(** Lines 644-660 of the UPLOAD branch: receive the file into [filepath],
    rescan and announce it. *)
Definition upload_receive (conn : conn) (filepath filename : string)
    (filesize : nat) : M state ctl :=
  received_bytes <- receive_file filesize filesize 0 filepath ;;
  if (received_bytes =? filesize)%nat then
    update_file_list ;;
    broadcast_file_update ("NEW_FILE:" ++ filename ++ LF) (Some conn) ;;
    ret Continue
  else raise OSError.

(** Lines 642-660 of the UPLOAD branch: acknowledge, create the file, and
    go on with [upload_receive]. *)
Definition upload_transfer (conn : conn) (filepath filename : string)
    (filesize : nat) : M state ctl :=
  sendall conn ("OK" ++ LF) ;;
  open_wb filepath ;;
  upload_receive conn filepath filename filesize.

(** The [except] clauses of the UPLOAD branch, lines 662-676. *)
Definition upload_failed (conn : conn) (filepath : string) (e : exn)
    : M state ctl :=
  match e with
  | ValueError =>
      try_except (sendall conn ("ERROR:Invalid UPLOAD command" ++ LF))
                 (fun _ => ret tt) ;;
      ret Continue
  | ConnectionError =>
      remove_partial filepath ;;
      ret Break
  | upload_err =>
      try_except (remove_partial filepath) (fun _ => ret tt) ;;
      try_except
        (sendall conn ("ERROR:Upload failed: " ++ str_of_exn upload_err ++ LF))
        (fun _ => ret tt) ;;
      ret Continue
  end.

(** The UPLOAD branch, lines 619-676.  A command that does not parse is
    answered by the [ValueError] clause before any path is computed. *)
Definition on_upload (conn : conn) (cmd_data : string) : M state ctl :=
  match parse_upload cmd_data with
  | None => upload_failed conn "" ValueError
  | Some (filename, filesize) =>
      files <- gets fs ;;
      match upload_target files filename with
      | None => fun s => (Blocks, s)
      | Some (filepath, filename) =>
          try_except (upload_transfer conn filepath filename filesize)
                     (upload_failed conn filepath)
      end
  end.

(** The DOWNLOAD branch, lines 680-716. *)
Definition on_download (conn : conn) (cmd_data : string) : M state ctl :=
  try_except (
    match Py.split ":" 1 cmd_data with
    | [_; requested] =>
        let filename_req := basename requested in
        if String.eqb filename_req "" then raise ValueError
        else
          let filepath := join FILE_DIR filename_req in
          files <- gets fs ;;
          if exists_ filepath files && isfile filepath files then
            let filesize := getsize filepath files in
            sendall conn ("FILE_DATA:" ++ Py.str_of_nat filesize ++ LF) ;;
            client_confirm <- recv 1024 ;;
            if negb (String.eqb client_confirm "OK") then ret Continue
            else
              content <- open_rb filepath ;;
              for_each (chunks_of (String.length content) 4096 content)
                       (sendall conn) ;;
              ret Continue
          else
            sendall conn ("ERROR:File not found" ++ LF) ;;
            ret Continue
    | _ => raise ValueError
    end)
    (fun e =>
       match e with
       | ValueError =>
           try_except (sendall conn ("ERROR:Invalid DOWNLOAD command" ++ LF)) (fun _ => ret tt) ;;
           ret Continue
       | _ => ret Break
       end).

(** The DELETE branch, lines 720-747. *)
Definition on_delete (conn : conn) (cmd_data : string) : M state ctl :=
  try_except (
    match Py.split ":" 1 cmd_data with
    | [_; requested] =>
        let filename_req := basename requested in
        if String.eqb filename_req "" then raise ValueError
        else
          let filepath := join FILE_DIR filename_req in
          files <- gets fs ;;
          if exists_ filepath files && isfile filepath files then
            os_remove filepath ;;
            update_file_list ;;
            broadcast_file_update ("FILE_DELETED:" ++ filename_req ++ LF) None ;;
            sendall conn ("OK:File deleted" ++ LF) ;;
            ret Continue
          else
            sendall conn ("ERROR:File not found" ++ LF) ;;
            ret Continue
    | _ => raise ValueError
    end)
    (fun e =>
       match e with
       | ValueError =>
           try_except (sendall conn ("ERROR:Invalid DELETE command" ++ LF)) (fun _ => ret tt) ;;
           ret Continue
       | delete_err =>
           try_except
             (sendall conn ("ERROR:Could not delete file: "
                            ++ str_of_exn delete_err ++ LF))
             (fun _ => ret tt) ;;
           ret Continue
       end).

(** One non-empty command line, lines 616-751. *)
Definition file_dispatch (conn : conn) (cmd_data : string) : M state ctl :=
  if Py.startswith "UPLOAD:" cmd_data then on_upload conn cmd_data
  else if Py.startswith "DOWNLOAD:" cmd_data then on_download conn cmd_data
  else if Py.startswith "DELETE:" cmd_data then on_delete conn cmd_data
  else ret Continue.

End Handler.

(** *** What the statements below refer to *)

(** A name without a path separator. *)
Definition sep_free (name : string) : Prop := Py.rfind "/" name = None.





(** Since [s0] the server touched only paths that satisfy [P]. *)
Definition touched_only (P : string -> Prop) (s0 s : state) : Prop :=
  exists ops,
    touched s = (touched s0 ++ ops)%list
    /\ Forall (fun op => P (path_of op)) ops.

(** Every path other than [filepath] holds what it held in [s0]. *)
Definition others_kept (filepath : string) (s0 s : state) : Prop :=
  forall q, q <> filepath -> Py.get q (fs s) = Py.get q (fs s0).



(** An empty storage directory [server_files], and one client. *)
Definition empty_storage : state :=
  {| fs := [("server_files/.", Dir); ("server_files/..", Dir)];
     touched := []; file_clients := [1]; available_files := [];
     inbound := []; io := quiet |}.

(** Client 1 sends the command [cmd_data] and then [payload]. *)
Definition served (cmd_data : string) (payload : list recv_result)
    (s : state) : state :=
  snd (file_dispatch "server_files" 1 cmd_data (with_inbound payload s)).

(** [report.txt] uploaded three times, with different contents. *)
Definition three_reports : state :=
  served "UPLOAD:report.txt:5" [Data "third"]
    (served "UPLOAD:report.txt:6" [Data "second"]
       (served "UPLOAD:report.txt:5" [Data "first"] empty_storage)).

End Files.

(* ================================================================== *)
(** ** Two uploads served by two threads *)

(** [start_file_server] starts one thread per connection (line 781), and
    the UPLOAD branch holds no lock between [os.path.exists] (line 635) and
    [open(filepath, 'wb')] (line 645): [file_lock] is taken around the
    client list and the cached file list only.  A thread can therefore be
    switched out after it has chosen its path and before it creates the
    file.  The branch is cut in two at that point. *)
Module Interleaved.
Import Exec Net Files.

Section Steps.

Variable FILE_DIR : string.

(** Lines 619-638: the command is parsed and the path is chosen.  Nothing
    is written; the answer is the path, the name and the size the thread
    goes on with, and [None] for a command that the [ValueError] clause
    answers instead. *)
Definition upload_resolve (cmd_data : string) (s : state)
    : option (string * string * nat) :=
  match parse_upload cmd_data with
  | None => None
  | Some (filename, filesize) =>
      match upload_target FILE_DIR (fs s) filename with
      | None => None
      | Some (filepath, name) => Some (filepath, name, filesize)
      end
  end.

(** Lines 642-676, run later by the same thread with what it resolved:
    [OK] is sent, the file is opened for writing and received from the
    socket of the thread, on which [payload] arrives. *)
Definition upload_finish (conn : conn) (target : string * string * nat)
    (payload : list recv_result) (s : state) : outcome ctl * state :=
  let '(filepath, name, filesize) := target in
  try_except (upload_transfer FILE_DIR conn filepath name filesize)
             (upload_failed conn filepath)
             (with_inbound payload s).

(** Two threads, one serving [cmd_a] from socket [conn_a] and one serving
    [cmd_b] from socket [conn_b]: both choose their path before either
    goes on; then the first one stores its file, then the second one. *)
Definition both_resolve_first
    (conn_a : conn) (cmd_a : string) (payload_a : list recv_result)
    (conn_b : conn) (cmd_b : string) (payload_b : list recv_result)
    (s : state) : option state :=
  match upload_resolve cmd_a s, upload_resolve cmd_b s with
  | Some target_a, Some target_b =>
      Some (snd (upload_finish conn_b target_b payload_b
                   (snd (upload_finish conn_a target_a payload_a s))))
  | _, _ => None
  end.

End Steps.

(** An empty storage directory [server_files], and two clients. *)
Definition two_uploaders : state :=
  {| fs := [("server_files/.", Dir); ("server_files/..", Dir)];
     touched := []; file_clients := [1; 2]; available_files := [];
     inbound := []; io := quiet |}.

(** Client 1 uploads [first] and client 2 uploads [second], both as
    [report.txt], at the same time. *)
Definition report_twice_at_once : option state :=
  both_resolve_first "server_files"
    1 "UPLOAD:report.txt:5" [Data "first"]
    2 "UPLOAD:report.txt:6" [Data "second"]
    two_uploaders.

End Interleaved.

(* ================================================================== *)
(** ** Chat sessions from join to leave *)

Module Session.
Import Exec Net Chat.

(** The state in which an accepted handshake leaves the server (lines
    133-165): the user is registered as [Online] on its socket, which was
    sent [OK], the roster and, when somebody presents, [SCREEN_START:]; the
    sessions registered before were sent [USER_JOIN:]. *)
Definition start_notice (p : option string) : list string :=
  match p with
  | Some presenter =>
      if String.eqb presenter "" then [] else ["SCREEN_START:" ++ presenter]
  | None => []
  end.

Definition joined (conn : conn) (username : string) (s : state) : state :=
  let clients :=
    Py.set username (mk_client_info conn "Online") (chat_clients s) in
  {| chat_clients := clients;
     current_presenter_username := current_presenter_username s;
     chat_lock := chat_lock s;
     io := delivered
             (List.app [(conn, "OK"); (conn, user_list_of clients)]
               (List.app (copies ("USER_JOIN:" ++ username ++ "=Online")
                            (recipients (chat_clients s) (Some conn) (io s)))
                    (map (pair conn)
                         (start_notice (current_presenter_username s)))))
             (io s) |}.

(** The state in which the [finally] block leaves the server (lines
    289-313): the entry and the slot of [username] are gone, those who stay
    were told, and the socket is closed. *)
Definition departed (conn : conn) (username : string) (s : state) : state :=
  let s1 := unregistered username s in
  let stay := recipients (chat_clients s1) None (io s) in
  {| chat_clients := chat_clients s1;
     current_presenter_username := current_presenter_username s1;
     chat_lock := chat_lock s;
     io := closing conn
             (delivered
                (List.app (if Py.mem username (chat_clients s)
                      then copies ("USER_LEAVE:" ++ username) stay else [])
                     (if is_presenter username (current_presenter_username s)
                      then copies "SCREEN_STOP" stay else []))
                (io s)) |}.

(** The state after a private message was passed on and echoed. *)
Definition pm_delivered (conn target_conn : conn)
    (username timestamp target_user content : string) (s : state) : state :=
  with_io (delivered
             [(target_conn,
               timestamp ++ " PM_FROM:" ++ username ++ ":" ++ content);
              (conn, timestamp ++ " PM_TO:" ++ target_user ++ ":" ++ content)]
             (io s)) s.

(** The state after the sender of a command was sent one [notice]. *)
Definition noticed (conn : conn) (notice : string) (s : state) : state :=
  with_io (delivered [(conn, notice)] (io s)) s.



(** The state in which [STOP_SHARING] from the presenter leaves the
    server: the slot is empty and the handler still holds [chat_lock]. *)
Definition stopped_and_stuck (s : state) : state :=
  {| chat_clients := chat_clients s;
     current_presenter_username := None;
     chat_lock := true;
     io := io s |}.

(** Every status in the registry is one of the two the protocol knows. *)
Definition statuses_valid (s : state) : Prop :=
  Forall (fun info => ci_status info = "Online" \/ ci_status info = "Away")
         (Py.values (chat_clients s)).

(** An inbox whose first read is already the end of the stream. *)
Definition ends_at_once (inbox : list (string * string)) : Prop :=
  match inbox with
  | [] => True
  | (_, message_str) :: _ => message_str = ""
  end.

(** A predicate on the registry, as a predicate on the state. *)
Definition on_registry (P : Py.dict client_info -> Prop) (s : state) : Prop :=
  P (chat_clients s).

(** The lock is held, and the registry and the slot are those of [s0]. *)
Definition frozen_as (s0 s : state) : Prop :=
  chat_lock s = true
  /\ chat_clients s = chat_clients s0
  /\ current_presenter_username s = current_presenter_username s0.

(** A text without the character [c]. *)
Definition free_of (c : ascii) (text : string) : Prop := Py.cut c text = None.

(** carol joins an empty server on socket 3, alice and bob join after her,
    and alice holds the slot. *)
Definition carol_alice_bob : state :=
  {| chat_clients := [("carol", mk_client_info 3 "Online");
                      ("alice", mk_client_info 1 "Away");
                      ("bob", mk_client_info 2 "Online")];
     current_presenter_username := Some "alice";
     chat_lock := false;
     io := quiet |}.


(** alice and bob have joined and alice has asked to present: her handler
    is stuck with [chat_lock]. *)
Definition stuck_server : server :=
  step (Recv 1 "12:00:00" "REQUEST_TO_PRESENT")
       (run [Accept 1 "alice"; Accept 2 "bob"] boot).

(** Nobody presents. *)
Definition slot_empty (s : state) : Prop :=
  current_presenter_username s = None.

(** A handler holds [chat_lock], or nobody presents. *)
Definition held_or_empty (s : state) : Prop :=
  chat_lock s = true \/ slot_empty s.

(** Every handler that sits in its loop has a username. *)
Definition all_named (l : list (conn * string)) : Prop :=
  Forall (fun e => snd e <> "") l.

End Session.

(* ================================================================== *)
(** ** The frames of the presenter *)

Module Frames.
Import Exec Net.

(** The screen-share server together with what is still to arrive on the
    presenter's socket, in the pieces in which [recv] will see it.  An
    empty piece, or the end of the list, is the end of the stream.  A
    [recv] that raises (the connection was reset) takes the handler to its
    [finally] block, [Screen.screen_finally], and is not part of the
    loop. *)
Record state := mk_state {
  screen : Screen.state;
  inbound : list string
}.

Definition with_screen (sc : Screen.state) (s : state) : state :=
  {| screen := sc; inbound := inbound s |}.

Definition with_inbound (l : list string) (s : state) : state :=
  {| screen := screen s; inbound := l |}.

(** Run an action of the screen-share server. *)
Definition in_screen {A} (m : M Screen.state A) : M state A :=
  fun s => let '(r, sc) := m (screen s) in (r, with_screen sc s).

(** [conn.recv(bufsize)] on the presenter's socket. *)
Definition recv (bufsize : nat) : M state string :=
  fun s =>
    match inbound s with
    | [] => (Returns "", s)
    | d :: rest =>
        if (String.length d <=? bufsize)%nat then (Returns d, with_inbound rest s)
        else (Returns (Py.take bufsize d),
              with_inbound (Py.drop bufsize d :: rest) s)
    end.

(** [struct.unpack('!I', b)[0]]: the bytes as a big-endian number. *)
Fixpoint unpack_uint (acc : N) (b : string) : N :=
  match b with
  | EmptyString => acc
  | String c r => unpack_uint (256 * acc + N_of_ascii c) r
  end.

(** [len(b)] *)
Definition len (b : string) : N := N.of_nat (String.length b).

(** The largest frame the server passes on: [20 * 1024 * 1024]. *)
Definition MAX_FRAME : N := 20 * 1024 * 1024.

(** The inner loop, lines 461-465.  Every turn but the last adds at least
    one byte, so [frame_size] turns are enough. *)
Fixpoint read_frame (fuel : nat) (frame_size : N) (frame_data : string)
    {struct fuel} : M state string :=
  if (len frame_data <? frame_size)%N then
    match fuel with
    | O => ret frame_data
    | S fuel' =>
        chunk <- recv (N.to_nat (N.min 4096 (frame_size - len frame_data))) ;;
        if String.eqb chunk "" then ret frame_data
        else read_frame fuel' frame_size (frame_data ++ chunk)
    end
  else ret frame_data.

(** How one turn of the presenter loop ends. *)
Inductive turn := NextFrame | LeavesLoop.

(** One turn of the presenter loop, lines 450-471. *)
Definition presenter_turn (conn : conn) : M state turn :=
  len_data <- recv 4 ;;
  if String.eqb len_data "" || (String.length len_data <? 4)%nat
  then ret LeavesLoop
  else
    let frame_size := unpack_uint 0 len_data in
    if (frame_size <=? 0)%N || (MAX_FRAME <? frame_size)%N then ret LeavesLoop
    else
      frame_data <- read_frame (N.to_nat frame_size) frame_size "" ;;
      if negb (len frame_data =? frame_size)%N then ret LeavesLoop
      else
        in_screen (Screen.broadcast_to_viewers (len_data ++ frame_data) conn) ;;
        ret NextFrame.

(** The presenter loop, for at most [fuel] frames. *)
Fixpoint presenter_loop (fuel : nat) (conn : conn) : M state unit :=
  match fuel with
  | O => ret tt
  | S fuel' =>
      t <- presenter_turn conn ;;
      match t with
      | NextFrame => presenter_loop fuel' conn
      | LeavesLoop => ret tt
      end
  end.

(** The bytes that arrive before the stream ends. *)
Fixpoint stream (l : list string) : string :=
  match l with
  | [] => ""
  | d :: rest => if String.eqb d "" then "" else d ++ stream rest
  end.

(** A stream that does not start with a frame the server passes on: it
    has ended, or its first piece has fewer than the four bytes of the
    length prefix, or the prefix announces no bytes or more than
    [MAX_FRAME], or the stream ends before the announced bytes are
    there. *)
Definition broken (l : list string) : Prop :=
  match l with
  | [] => True
  | first :: _ =>
      String.length first < 4
      \/ (let frame_size := unpack_uint 0 (Py.take 4 first) in
          frame_size = 0%N
          \/ (MAX_FRAME < frame_size)%N
          \/ String.length (stream l) < 4 + N.to_nat frame_size)
  end.

(** The screen-share server after the live viewers were sent [data] and
    the dead ones were dropped from the list. *)
Definition broadcasted (data : string) (sc : Screen.state) : Screen.state :=
  {| Screen.screen_presenter_socket := Screen.screen_presenter_socket sc;
     Screen.screen_viewers :=
       filter (fun v => alive v (Screen.io sc)) (Screen.screen_viewers sc);
     Screen.io :=
       delivered
         (Chat.copies data
            (filter (fun v => alive v (Screen.io sc))
                    (Screen.screen_viewers sc)))
         (Screen.io sc) |}.

(** The state after a frame was passed on, [rest] being what is still to
    arrive. *)
Definition shown (data : string) (rest : list string) (s : state) : state :=
  {| screen := broadcasted data (screen s); inbound := rest |}.

(** The screen-share server after socket [c] was closed, and after it was
    closed with the presenter slot released. *)
Definition hung_up (c : conn) (sc : Screen.state) : Screen.state :=
  Screen.with_io (closing c (Screen.io sc)) sc.

Definition released (c : conn) (sc : Screen.state) : Screen.state :=
  Screen.with_presenter_socket None (hung_up c sc).

(** Socket 7 presents to the viewers 8 and 9; the peer of 8 is gone. *)
Definition viewer_gone : Screen.state :=
  {| Screen.screen_presenter_socket := Some 7;
     Screen.screen_viewers := [8; 9];
     Screen.io := {| wire := []; closed := []; reset := [8] |} |}.

(** Socket 7 presents to the viewers 8 and 9, and sends a frame of five
    bytes in three pieces, followed by the prefix of a frame of no bytes. *)
Definition one_frame : state :=
  {| screen := Screen.presenting;
     inbound := [String Ascii.zero (String Ascii.zero (String Ascii.zero
                   (String (ascii_of_nat 5) "he")));
                 "ll"; "o";
                 String Ascii.zero (String Ascii.zero (String Ascii.zero (String Ascii.zero "")))] |}.

End Frames.

(* ================================================================== *)
(** ** Audio and video relays *)

Module Relay.
Import Exec.

(** The address [recvfrom] returns: an [(ip, port)] pair, compared by
    value. *)
Definition addr := nat.

(** The set of peers ([audio_clients], [video_clients]), the local variable
    [addr] of the loop ([None] while it is unbound), and the datagrams
    sent.  [sendto] on a UDP socket does not wait for the peer and is taken
    to succeed; a peer that is gone shows as a [ConnectionResetError] of a
    later [recvfrom]. *)
Record state := mk_state {
  clients : list addr;
  addr_var : option addr;
  sent : list (addr * string)
}.

Definition initial : state := {| clients := []; addr_var := None; sent := [] |}.

(** What [recvfrom] does next. *)
Inductive arrival :=
| Datagram (data : string) (from : addr)
| ResetByPeer.

Definition is_in (a : addr) (l : list addr) : bool := existsb (Nat.eqb a) l.

(** [s.add(a)] behind [if a not in s] *)
Definition set_add (a : addr) (l : list addr) : list addr :=
  if is_in a l then l else (l ++ [a])%list.

(** [s.discard(a)] *)
Definition set_discard (a : addr) (l : list addr) : list addr :=
  filter (fun x => negb (Nat.eqb x a)) l.

(** [server.sendto(data, client_addr)] *)
Definition sendto (data : string) (client_addr : addr) : M state unit :=
  modify (fun s =>
    {| clients := clients s; addr_var := addr_var s;
       sent := (sent s ++ [(client_addr, data)])%list |}).

(** One turn of the [while True] loop of [start_audio_server] and
    [start_video_server].  [enumerate] is the order in which [list(s)]
    yields the elements of the set; [recvfrom(bufsize)] returns the first
    [bufsize] bytes of a longer datagram.  The handler of
    [ConnectionResetError]
    reads [addr], which is the sender of the latest datagram; while no
    datagram has arrived it is unbound, and the [UnboundLocalError] leaves
    the loop. *)
Definition relay_turn (enumerate : list addr -> list addr) (bufsize : nat)
    (ev : arrival) : M state unit :=
  match ev with
  | Datagram payload from =>
      let data := Py.take bufsize payload in
      modify (fun s =>
        {| clients := set_add from (clients s); addr_var := Some from;
           sent := sent s |}) ;;
      current_clients <- gets (fun s => enumerate (clients s)) ;;
      for_each current_clients (fun client_addr =>
        if negb (Nat.eqb client_addr from) then sendto data client_addr
        else ret tt)
  | ResetByPeer =>
      a <- gets addr_var ;;
      match a with
      | None => raise OSError
      | Some addr =>
          modify (fun s =>
            {| clients := set_discard addr (clients s);
               addr_var := addr_var s; sent := sent s |})
      end
  end.

(** The loop over what arrives; an exception that escapes a turn ends it. *)
Fixpoint relay_loop (enumerate : list addr -> list addr) (bufsize : nat)
    (evs : list arrival) : M state unit :=
  match evs with
  | [] => ret tt
  | ev :: rest =>
      relay_turn enumerate bufsize ev ;; relay_loop enumerate bufsize rest
  end.

Definition start_audio_server (enumerate : list addr -> list addr)
    (evs : list arrival) : outcome unit * state :=
  relay_loop enumerate 4096 evs initial.

Definition start_video_server (enumerate : list addr -> list addr)
    (evs : list arrival) : outcome unit * state :=
  relay_loop enumerate (64 * 1024) evs initial.

(** An order of enumeration lists the elements of the set, each once. *)
Definition enumerates (enumerate : list addr -> list addr) : Prop :=
  forall l, Permutation (enumerate l) l.

End Relay.

(* ================================================================== *)
(** ** File sessions *)

Module FileSession.
Import Exec Net Files.

Definition close (c : conn) : M state unit :=
  lift io with_io (Net.close c).




(** The sockets a file broadcast reaches, and those the list keeps. *)
Definition reached (sender_conn : option conn) (s : state) : list conn :=
  filter (fun c => conn_differs c sender_conn && alive c (io s))
         (file_clients s).

Definition kept (sender_conn : option conn) (s : state) : list conn :=
  filter (fun c => negb (conn_differs c sender_conn) || alive c (io s))
         (file_clients s).

(** One copy of [message] for each socket of [cs]. *)
Definition copies (message : string) (cs : list conn) : list (conn * string) :=
  map (fun c => (c, message)) cs.

(** The state after a broadcast. *)
Definition announced (message : string) (sender_conn : option conn)
    (s : state) : state :=
  {| fs := fs s; touched := touched s;
     file_clients := kept sender_conn s;
     available_files := available_files s;
     inbound := inbound s;
     io := delivered (copies message (reached sender_conn s)) (io s) |}.


Section Session.

Variable FILE_DIR : string.

(** The files the server reports: the regular files right below the
    storage directory. *)
Definition inventory (files : Py.dict node) : list string :=
  if String.eqb FILE_DIR "" then []
  else filter (fun f => isfile (join FILE_DIR f) files) (listdir FILE_DIR files).

(** The start of [handle_file_client], lines 576-590: the socket is
    registered and sent the file list; [false] stands for [return]. *)
Definition file_connect (conn : conn) : M state bool :=
  modify (fun s => with_file_clients (file_clients s ++ [conn])%list s) ;;
  update_file_list FILE_DIR ;;
  try_except (
    files <- gets available_files ;;
    sendall conn ("FILE_LIST:" ++ Py.join "," files ++ LF) ;;
    ret true)
    (fun _ =>
       modify (fun s =>
         with_file_clients (list_remove conn (file_clients s)) s) ;;
       close conn ;;
       ret false).

(** The [finally] block, lines 756-763. *)
Definition file_finally (conn : conn) : M state unit :=
  drop_client conn ;;
  try_except (close conn) (fun _ => ret tt).

(** The state after a new socket was registered and sent the file list. *)
Definition connected (conn : conn) (s : state) : state :=
  {| fs := fs s; touched := touched s;
     file_clients := (file_clients s ++ [conn])%list;
     available_files := inventory (fs s);
     inbound := inbound s;
     io := delivered
             [(conn, "FILE_LIST:" ++ Py.join "," (inventory (fs s)) ++ LF)]
             (io s) |}.

(** The state after a socket whose greeting failed was turned down. *)
Definition turned_down (conn : conn) (s : state) : state :=
  {| fs := fs s; touched := touched s;
     file_clients := list_remove conn (file_clients s ++ [conn]);
     available_files := inventory (fs s);
     inbound := inbound s;
     io := closing conn (io s) |}.


(** The state after an upload to [filepath] was given up: the file was
    created and removed again, and the uploader was sent [OK] and then
    [notices]. *)
Definition abandoned (conn : conn) (filepath : string)
    (notices : list string) (rest : list recv_result) (s : state) : state :=
  {| fs := fs s;
     touched := touched s ++ [Create filepath; Remove filepath];
     file_clients := file_clients s;
     available_files := available_files s;
     inbound := rest;
     io := delivered ((conn, "OK" ++ LF) :: map (pair conn) notices) (io s) |}.

(** The state after the file at [filepath], of content [content], was
    sent in pieces of at most 4096 bytes. *)
Definition downloaded (conn : conn) (filepath content : string)
    (rest : list recv_result) (s : state) : state :=
  {| fs := fs s; touched := touched s ++ [Read filepath];
     file_clients := file_clients s;
     available_files := available_files s;
     inbound := rest;
     io := delivered
             ((conn, "FILE_DATA:" ++ Py.str_of_nat (String.length content)
                     ++ LF)
              :: map (pair conn)
                     (chunks_of (String.length content) 4096 content))
             (io s) |}.

(** The state after a download was offered and not confirmed. *)
Definition offered (conn : conn) (content : string)
    (rest : list recv_result) (s : state) : state :=
  with_inbound rest
    (with_io (delivered
                [(conn, "FILE_DATA:" ++ Py.str_of_nat (String.length content)
                        ++ LF)]
                (io s)) s).

(** The state after socket [conn] was sent one [line]. *)
Definition told (conn : conn) (line : string) (s : state) : state :=
  with_io (delivered [(conn, line)] (io s)) s.

(** The state after the file at [filepath] was deleted, the deletion
    announced to all live clients and confirmed to the requester. *)
Definition deleted (conn : conn) (filepath name : string) (s : state)
    : state :=
  told conn ("OK:File deleted" ++ LF)
    (announced ("FILE_DELETED:" ++ name ++ LF) None
       {| fs := Py.del filepath (fs s);
          touched := touched s ++ [Remove filepath];
          file_clients := file_clients s;
          available_files := inventory (Py.del filepath (fs s));
          inbound := inbound s;
          io := io s |}).

End Session.


(** [hello.txt] was uploaded, and the client has sent [OK]. *)
Definition hello_on_disk : state :=
  with_inbound [Data "OK"]
    (served "UPLOAD:hello.txt:5" [Data "hello"] empty_storage).


(** The same, the client falling silent after three bytes and sending the
    other two too late. *)
Definition hello_stalls : state :=
  with_inbound [Data "hel"; TimedOut; Data "lo"] empty_storage.

End FileSession.

(* ================================================================== *)
(** ** The chat client's view of the roster (client_chat.py) *)

Module Client.













End Client.

(* ================================================================== *)
(** * Properties *)

Import Exec Net.

(** ** Stepping through the monad *)

Section MonadLemmas.
Context {S A B : Type}.

Lemma bind_ret (a : A) (k : A -> M S B) (s : S) :
  Exec.bind (Exec.ret a) k s = k a s.
Proof. reflexivity. Qed.

Lemma bind_gets (f : S -> A) (k : A -> M S B) (s : S) :
  Exec.bind (Exec.gets f) k s = k (f s) s.
Proof. reflexivity. Qed.

Lemma bind_modify (f : S -> S) (k : unit -> M S B) (s : S) :
  Exec.bind (Exec.modify f) k s = k tt (f s).
Proof. reflexivity. Qed.

Lemma bind_returns (m : M S A) (k : A -> M S B) (s s' : S) (a : A) :
  m s = (Returns a, s') -> Exec.bind m k s = k a s'.
Proof. unfold Exec.bind. now intros ->. Qed.

Lemma bind_raises (m : M S A) (k : A -> M S B) (s s' : S) (e : exn) :
  m s = (Raises e, s') -> Exec.bind m k s = (Raises e, s').
Proof. unfold Exec.bind. now intros ->. Qed.

Lemma try_bind_returns (m : M S A) (k : A -> M S B) (h : exn -> M S B)
    (s s' : S) (a : A) :
  m s = (Returns a, s') ->
  Exec.try_except (Exec.bind m k) h s = Exec.try_except (k a) h s'.
Proof. unfold Exec.try_except, Exec.bind. now intros ->. Qed.

Lemma bind_blocks (m : M S A) (k : A -> M S B) (s s' : S) :
  m s = (Blocks, s') -> Exec.bind m k s = (Blocks, s').
Proof. unfold Exec.bind. now intros ->. Qed.

End MonadLemmas.

(** ** State predicates that an action keeps *)

Section Keeps.
Context {S : Type}.
Variable I : S -> Prop.

Lemma keeps_ret {A} (a : A) : keeps I (Exec.ret a).
Proof. intros s H. exact H. Qed.

Lemma keeps_raise {A} (e : exn) : keeps I (@Exec.raise S A e).
Proof. intros s H. exact H. Qed.

Lemma keeps_gets {A} (f : S -> A) : keeps I (Exec.gets f).
Proof. intros s H. exact H. Qed.

Lemma keeps_modify (f : S -> S) :
  (forall s, I s -> I (f s)) -> keeps I (Exec.modify f).
Proof. intros Hf s H. now apply Hf. Qed.

Lemma keeps_bind {A B} (m : M S A) (k : A -> M S B) :
  keeps I m -> (forall a, keeps I (k a)) -> keeps I (Exec.bind m k).
Proof.
  intros Hm Hk s H. unfold Exec.bind.
  specialize (Hm s H). destruct (m s) as [[a|e|] s']; cbn in *; auto.
  now apply Hk.
Qed.

Lemma keeps_try_except {A} (body : M S A) (handler : exn -> M S A) :
  keeps I body -> (forall e, keeps I (handler e)) ->
  keeps I (Exec.try_except body handler).
Proof.
  intros Hb Hh s H. unfold Exec.try_except.
  specialize (Hb s H). destruct (body s) as [[a|e|] s']; cbn in *; auto.
  now apply Hh.
Qed.

Lemma keeps_for_each {A} (xs : list A) (body : A -> M S unit) :
  (forall x, keeps I (body x)) -> keeps I (Exec.for_each xs body).
Proof.
  intros Hb. induction xs as [|x xs IH]; cbn.
  - apply keeps_ret.
  - apply keeps_bind; auto.
Qed.

Lemma keeps_lift {A} (get : S -> net) (put : net -> S -> S) (m : M net A) :
  (forall s, I s -> I (put (snd (m (get s))) s)) ->
  keeps I (Net.lift get put m).
Proof.
  intros Hm s H. unfold Net.lift.
  specialize (Hm s H). now destruct (m (get s)).
Qed.

End Keeps.

(** ** Sockets and broadcasts *)

Section ChatLemmas.
Import Chat.

Lemma with_io_io (s : state) : with_io (io s) s = s.
Proof. now destruct s. Qed.

Lemma unlock_lock (s : state) :
  chat_lock s = false -> with_lock_flag false (with_lock_flag true s) = s.
Proof. destruct s; cbn; now intros ->. Qed.

Lemma delivered_nil (n : net) : delivered [] n = n.
Proof. destruct n; unfold delivered; cbn; now rewrite app_nil_r. Qed.

Lemma delivered_app (n : net) (a b : list (conn * string)) :
  delivered b (delivered a n) = delivered (a ++ b) n.
Proof. unfold delivered; cbn; now rewrite app_assoc. Qed.

Lemma alive_delivered (c : conn) (l : list (conn * string)) (n : net) :
  alive c (delivered l n) = alive c n.
Proof. reflexivity. Qed.

(** [sendall] on a live socket appends to the wire; on a dead one it
    raises and leaves the network as it was. *)
Lemma net_sendall_alive (c : conn) (data : string) (n : net) :
  alive c n = true ->
  Net.sendall c data n = (Returns tt, delivered [(c, data)] n).
Proof.
  unfold alive, Net.sendall; intros H.
  apply andb_prop in H as [H1 H2].
  apply negb_true_iff in H1, H2. now rewrite H1, H2.
Qed.

Lemma net_sendall_dead (c : conn) (data : string) (n : net) :
  alive c n = false -> exists e, Net.sendall c data n = (Raises e, n).
Proof.
  unfold alive, Net.sendall; intros H.
  destruct (is_in c (closed n)); [now exists OSError|].
  destruct (is_in c (reset n)); [now exists ConnectionError|discriminate].
Qed.

Lemma sendall_alive (c : conn) (data : string) (s : state) :
  alive c (io s) = true ->
  sendall c data s = (Returns tt, with_io (delivered [(c, data)] (io s)) s).
Proof.
  intros H; unfold sendall, lift. now rewrite (net_sendall_alive _ _ _ H).
Qed.

Lemma sendall_dead (c : conn) (data : string) (s : state) :
  alive c (io s) = false -> exists e, sendall c data s = (Raises e, s).
Proof.
  intros H; unfold sendall, lift.
  destruct (net_sendall_dead c data _ H) as [e ->].
  exists e. now rewrite with_io_io.
Qed.

Lemma bind_sendall_alive {B} (c : conn) (data : string)
    (k : unit -> M state B) (s : state) :
  alive c (io s) = true ->
  Exec.bind (sendall c data) k s
  = k tt (with_io (delivered [(c, data)] (io s)) s).
Proof. intros H. apply bind_returns. now apply sendall_alive. Qed.

(** The loop of [broadcast_chat] delivers one copy to every live socket
    that is not the sender's, and always returns. *)
Lemma broadcast_loop (message : string) (sender_conn : option conn)
    (infos : list client_info) (s : state) :
  for_each infos (fun client_info =>
    if conn_differs (ci_conn client_info) sender_conn
    then try_except (sendall (ci_conn client_info) message) (fun _ => ret tt)
    else ret tt) s
  = (Returns tt,
     with_io (delivered
                (copies message
                   (filter (fun c => conn_differs c sender_conn && alive c (io s))
                           (map ci_conn infos)))
                (io s)) s).
Proof.
  revert s; induction infos as [|i infos IH]; intros s; cbn.
  - unfold ret. now rewrite delivered_nil, with_io_io.
  - unfold bind.
    destruct (conn_differs (ci_conn i) sender_conn) eqn:Hd; cbn.
    + unfold try_except.
      destruct (alive (ci_conn i) (io s)) eqn:Ha.
      * rewrite (sendall_alive _ _ _ Ha), IH. cbn.
        now rewrite delivered_app.
      * destruct (sendall_dead (ci_conn i) message s Ha) as [e ->].
        unfold ret. now rewrite IH.
    + unfold ret. now rewrite IH.
Qed.

(** Outside the lock a broadcast reaches its recipients and returns. *)
Lemma broadcast_chat_free (message : string) (sender_conn : option conn)
    (s : state) :
  chat_lock s = false ->
  broadcast_chat message sender_conn s
  = (Returns tt,
     with_io (delivered
                (copies message (recipients (chat_clients s) sender_conn (io s)))
                (io s)) s).
Proof.
  intros Hl. unfold broadcast_chat, bind, with_chat_lock, gets.
  rewrite Hl. rewrite (unlock_lock _ Hl). apply broadcast_loop.
Qed.

(** While the lock is held a broadcast blocks before it sends anything:
    [broadcast_chat] starts by acquiring [chat_lock]. *)
Lemma broadcast_chat_held (message : string) (sender_conn : option conn)
    (s : state) :
  chat_lock s = true -> broadcast_chat message sender_conn s = (Blocks, s).
Proof.
  intros Hl. unfold broadcast_chat, bind, with_chat_lock. now rewrite Hl.
Qed.

End ChatLemmas.

(** ** Presenter arbitration *)

Section Arbitration.
Import Chat.

Lemma request_dispatch (conn : conn) (username timestamp : string) :
  chat_dispatch conn username timestamp "REQUEST_TO_PRESENT"
  = on_request_to_present conn username.
Proof. reflexivity. Qed.

Lemma grant_blocks (conn : conn) (username : string) (s : state) :
  alive conn (io s) = true ->
  (modify (with_presenter (Some username)) ;;
   sendall conn "OK_TO_PRESENT" ;;
   broadcast_chat ("SCREEN_START:" ++ username) (Some conn))
    (with_lock_flag true s)
  = (Blocks, granted_and_stuck conn username s).
Proof.
  intros Ha. unfold bind, modify.
  rewrite sendall_alive by exact Ha.
  rewrite broadcast_chat_held by reflexivity.
  reflexivity.
Qed.

(** C1 (what the code does on [REQUEST_TO_PRESENT]).  With the slot empty,
    or holding a name that is no longer registered, the slot becomes the
    requester and the requester is sent [OK_TO_PRESENT]; the handler then
    calls [broadcast_chat] while it holds [chat_lock] and blocks: no
    [SCREEN_START] is sent to anybody.  With the slot holding a registered
    presenter, [PRESENT_REQUEST_FROM:<requester>] goes to the presenter and
    nothing else changes. *)
Theorem C1_request_to_present_grant_blocks
    (s : state) (conn : conn) (username timestamp : string) :
  chat_lock s = false ->
  alive conn (io s) = true ->
  let result := chat_dispatch conn username timestamp "REQUEST_TO_PRESENT" s in
  (current_presenter_username s = None ->
   result = (Blocks, granted_and_stuck conn username s))
  /\ (forall presenter,
        current_presenter_username s = Some presenter ->
        Py.get presenter (chat_clients s) = None ->
        result = (Blocks, granted_and_stuck conn username s))
  /\ (forall presenter presenter_info,
        current_presenter_username s = Some presenter ->
        Py.get presenter (chat_clients s) = Some presenter_info ->
        alive (ci_conn presenter_info) (io s) = true ->
        result
        = (Returns tt,
           with_io (delivered [(ci_conn presenter_info,
                                "PRESENT_REQUEST_FROM:" ++ username)] (io s)) s)).
Proof.
  intros Hl Ha result. subst result. rewrite request_dispatch.
  unfold on_request_to_present, with_chat_lock. rewrite Hl, bind_gets.
  cbn [current_presenter_username with_lock_flag].
  repeat split.
  - intros Hp. rewrite Hp, grant_blocks by exact Ha. reflexivity.
  - intros presenter Hp Hg. rewrite Hp, bind_gets.
    cbn [chat_clients with_lock_flag]. rewrite Hg.
    rewrite grant_blocks by exact Ha. reflexivity.
  - intros presenter presenter_info Hp Hg Hpa. rewrite Hp, bind_gets.
    cbn [chat_clients with_lock_flag]. rewrite Hg.
    rewrite sendall_alive by exact Hpa.
    cbn. destruct s; cbn in *. now subst.
Qed.

Lemma response_dispatch (conn : conn) (username timestamp response
    requester_name : string) :
  response = "Yes" \/ response = "No" ->
  chat_dispatch conn username timestamp
    ("PRESENT_RESPONSE:" ++ response ++ ":" ++ requester_name)
  = try_except
      (with_chat_lock (
         p <- gets current_presenter_username ;;
         if negb (is_presenter username p) then ret tt
         else
           clients <- gets chat_clients ;;
           match Py.get requester_name clients with
           | None => ret tt
           | Some requester_info =>
               if String.eqb response "Yes" then
                 sendall (ci_conn requester_info) "OK_TO_PRESENT" ;;
                 sendall conn "SCREEN_STOP_REQUESTED" ;;
                 modify (with_presenter (Some requester_name)) ;;
                 broadcast_chat ("SCREEN_START:" ++ requester_name)
                                (Some (ci_conn requester_info))
               else
                 sendall (ci_conn requester_info) "PRESENT_REQUEST_DENIED"
           end))
      (fun _ => ret tt).
Proof. intros [-> | ->]; reflexivity. Qed.

(** C2 (what the code does on [PRESENT_RESPONSE:<Yes|No>:<U>] with U
    registered).  From a sender that is not the current presenter nothing
    is sent and nothing changes.  From the presenter, [No] sends
    [PRESENT_REQUEST_DENIED] to U and changes nothing else; [Yes] sends
    [OK_TO_PRESENT] to U and [SCREEN_STOP_REQUESTED] to the presenter and
    sets the slot to U, and then the handler calls [broadcast_chat] while
    it holds [chat_lock] and blocks: no [SCREEN_START] is sent. *)
Theorem C2_present_response_yes_blocks
    (s : state) (conn : conn) (username timestamp requester_name : string)
    (requester_info : client_info) :
  chat_lock s = false ->
  Py.get requester_name (chat_clients s) = Some requester_info ->
  alive conn (io s) = true ->
  alive (ci_conn requester_info) (io s) = true ->
  let respond response :=
    chat_dispatch conn username timestamp
      ("PRESENT_RESPONSE:" ++ response ++ ":" ++ requester_name) s in
  (is_presenter username (current_presenter_username s) = false ->
   respond "Yes" = (Returns tt, s) /\ respond "No" = (Returns tt, s))
  /\ (is_presenter username (current_presenter_username s) = true ->
      respond "Yes"
      = (Blocks,
         handed_over_and_stuck conn (ci_conn requester_info) requester_name s)
      /\ respond "No"
         = (Returns tt,
            with_io (delivered [(ci_conn requester_info,
                                 "PRESENT_REQUEST_DENIED")] (io s)) s)).
Proof.
  intros Hl Hg Ha Hra respond. subst respond. cbv beta.
  rewrite !response_dispatch by auto.
  unfold try_except, with_chat_lock. rewrite Hl, !bind_gets.
  cbn [current_presenter_username with_lock_flag].
  split; intros Hp; rewrite Hp; cbn [negb].
  - unfold ret. rewrite unlock_lock by exact Hl. now split.
  - rewrite !bind_gets. cbn [chat_clients with_lock_flag]. rewrite Hg.
    change ("Yes" =? "Yes") with true. change ("No" =? "Yes") with false.
    cbv iota. split.
    + rewrite bind_sendall_alive by exact Hra.
      rewrite bind_sendall_alive by exact Ha.
      rewrite bind_modify, broadcast_chat_held by reflexivity.
      unfold handed_over_and_stuck, delivered. cbn.
      now rewrite <- app_assoc.
    + rewrite sendall_alive by exact Hra.
      cbn. destruct s; cbn in *. now subst.
Qed.

(** C10.  A [PRESENT_RESPONSE:<Yes|No>:<U>] from the current presenter
    that names a requester U who is not registered is ignored: the handler
    returns, and the whole state (wire, slot, registry) is as before. *)
Theorem C10_response_for_absent_requester_ignored
    (s : state) (conn : conn) (username timestamp response requester_name
     : string) :
  response = "Yes" \/ response = "No" ->
  chat_lock s = false ->
  is_presenter username (current_presenter_username s) = true ->
  Py.get requester_name (chat_clients s) = None ->
  chat_dispatch conn username timestamp
    ("PRESENT_RESPONSE:" ++ response ++ ":" ++ requester_name) s
  = (Returns tt, s).
Proof.
  intros Hr Hl Hp Hg. rewrite response_dispatch by exact Hr.
  unfold try_except, with_chat_lock. rewrite Hl, bind_gets.
  cbn [current_presenter_username with_lock_flag]. rewrite Hp. cbn [negb].
  rewrite bind_gets. cbn [chat_clients with_lock_flag]. rewrite Hg.
  unfold ret. now rewrite unlock_lock by exact Hl.
Qed.

(** alice asks to present while nobody presents: she is told so, bob is
    told nothing, and her handler is stuck with the lock.  bob asks while
    alice presents: his request is forwarded to her. *)
Lemma C1_alice_requests :
  chat_lock alice_and_bob = false
  /\ alive 1 (io alice_and_bob) = true
  /\ chat_dispatch 1 "alice" "12:00:00" "REQUEST_TO_PRESENT" alice_and_bob
     = (Blocks, granted_and_stuck 1 "alice" alice_and_bob)
  /\ received_by 2 (io (granted_and_stuck 1 "alice" alice_and_bob))
     = received_by 2 (io alice_and_bob)
  /\ chat_dispatch 2 "bob" "12:00:00" "REQUEST_TO_PRESENT" alice_presents
     = (Returns tt,
        with_io (delivered [(1, "PRESENT_REQUEST_FROM:bob")] quiet)
                alice_presents).
Proof.
  split; [reflexivity|]. split; [reflexivity|].
  split; [|split; [reflexivity|]].
  - exact (proj1 (C1_request_to_present_grant_blocks
                    alice_and_bob 1 "alice" "12:00:00" eq_refl eq_refl)
                 eq_refl).
  - exact (proj2 (proj2 (C1_request_to_present_grant_blocks
                           alice_presents 2 "bob" "12:00:00" eq_refl eq_refl))
                 "alice" (mk_client_info 1 "Online") eq_refl eq_refl eq_refl).
Defined.

(** Two handlers carry the name alice, those of sockets 1 and 4; the name
    is registered to socket 4.  The handler of socket 1 has set the slot to
    alice and failed to tell its client, whose connection is reset, and is
    on its way to its [finally] block.  When the client of socket 4 accepts
    a request of bob at this point, bob and socket 4 are told, the slot
    names bob, and the handler of socket 4 is stuck with the lock: no
    [SCREEN_START:bob] has been sent to socket 4 or to anybody else.  When
    it declines instead, bob is told so; an answer from bob, who does not
    present, is ignored. *)
Lemma C2_second_alice_accepts_bob :
  loops two_alices = [(2, "bob"); (1, "alice"); (4, "alice")]
  /\ first_alice_fails = (Raises ConnectionError, slot_left_behind)
  /\ current_presenter_username slot_left_behind = Some "alice"
  /\ chat_lock slot_left_behind = false
  /\ chat_dispatch 4 "alice" "12:00:01" "PRESENT_RESPONSE:Yes:bob"
       slot_left_behind
     = (Blocks, handed_over_and_stuck 4 2 "bob" slot_left_behind)
  /\ received_by 4 (io (handed_over_and_stuck 4 2 "bob" slot_left_behind))
     = ["OK"; "USER_LIST:bob=Online,alice=Online"; "SCREEN_STOP_REQUESTED"]
  /\ received_by 2 (io (handed_over_and_stuck 4 2 "bob" slot_left_behind))
     = (received_by 2 (io slot_left_behind) ++ ["OK_TO_PRESENT"])%list
  /\ chat_dispatch 4 "alice" "12:00:01" "PRESENT_RESPONSE:No:bob"
       slot_left_behind
     = (Returns tt,
        with_io (delivered [(2, "PRESENT_REQUEST_DENIED")]
                           (io slot_left_behind))
                slot_left_behind)
  /\ chat_dispatch 2 "bob" "12:00:01" "PRESENT_RESPONSE:Yes:alice"
       slot_left_behind
     = (Returns tt, slot_left_behind).
Proof.
  do 4 (split; [reflexivity|]).
  split; [|split; [reflexivity|split; [reflexivity|split]]].
  - exact (proj1 (proj2 (C2_present_response_yes_blocks
                           slot_left_behind 4 "alice" "12:00:01" "bob"
                           (mk_client_info 2 "Online")
                           eq_refl eq_refl eq_refl eq_refl)
                        eq_refl)).
  - exact (proj2 (proj2 (C2_present_response_yes_blocks
                           slot_left_behind 4 "alice" "12:00:01" "bob"
                           (mk_client_info 2 "Online")
                           eq_refl eq_refl eq_refl eq_refl)
                        eq_refl)).
  - exact (proj1 (proj1 (C2_present_response_yes_blocks
                           slot_left_behind 2 "bob" "12:00:01" "alice"
                           (mk_client_info 4 "Online")
                           eq_refl eq_refl eq_refl eq_refl)
                        eq_refl)).
Defined.

(** alice, presenting, answers a request of dave, who is not registered. *)
Lemma C10_alice_answers_dave :
  chat_dispatch 1 "alice" "12:00:00" "PRESENT_RESPONSE:Yes:dave" alice_presents
  = (Returns tt, alice_presents).
Proof.
  exact (C10_response_for_absent_requester_ignored
           alice_presents 1 "alice" "12:00:00" "Yes" "dave"
           (or_introl eq_refl) eq_refl eq_refl eq_refl).
Defined.

End Arbitration.

(** ** Presence *)

Section Presence.
Import Chat.


Lemma get_set_other {V} (k k' : string) (v : V) (d : Py.dict V) :
  k <> k' -> Py.get k (Py.set k' v d) = Py.get k d.
Proof.
  intros Hn. induction d as [|[k0 v0] d IH]; cbn.
  - destruct (String.eqb_spec k k'); [contradiction|reflexivity].
  - destruct (String.eqb_spec k' k0) as [->|Hk'].
    + cbn. destruct (String.eqb_spec k k0); [contradiction|reflexivity].
    + cbn. destruct (String.eqb_spec k k0); [reflexivity|exact IH].
Qed.

Lemma get_set_same {V} (k : string) (v : V) (d : Py.dict V) :
  Py.get k (Py.set k v d) = Some v.
Proof.
  induction d as [|[k0 v0] d IH]; cbn.
  - now rewrite String.eqb_refl.
  - destruct (String.eqb_spec k k0) as [->|Hk]; cbn.
    + now rewrite String.eqb_refl.
    + destruct (String.eqb_spec k k0); [contradiction|exact IH].
Qed.


Lemma keys_set_present {V} (k : string) (v v' : V) (d : Py.dict V) :
  Py.get k d = Some v -> Py.keys (Py.set k v' d) = Py.keys d.
Proof.
  induction d as [|[k0 v0] d IH]; cbn; [discriminate|].
  destruct (String.eqb_spec k k0) as [->|Hk]; cbn; [reflexivity|].
  intros Hg. f_equal. exact (IH Hg).
Qed.

Lemma set_status_keys (username new_status : string)
    (clients : Py.dict client_info) :
  Py.keys (set_status username new_status clients) = Py.keys clients.
Proof.
  unfold set_status.
  destruct (Py.get username clients) as [info|] eqn:Hg; [|reflexivity].
  exact (keys_set_present _ _ _ _ Hg).
Qed.

Lemma mem_false_get {V} (k : string) (d : Py.dict V) :
  Py.mem k d = false -> Py.get k d = None.
Proof. unfold Py.mem. now destruct (Py.get k d). Qed.

Lemma coerce_status_domain (received : string) :
  coerce_status received = "Online" \/ coerce_status received = "Away".
Proof.
  unfold coerce_status, Py.str_in. cbn [existsb].
  destruct (String.eqb_spec received "Online") as [->|]; [now left|].
  destruct (String.eqb_spec received "Away") as [->|]; [now right|].
  now left.
Qed.





End Presence.

(** ** Handshake *)

Section Handshake.
Import Chat.

Lemma keeps_with_chat_lock (I : state -> Prop) {A} (body : M state A) :
  (forall b s, I s -> I (with_lock_flag b s)) ->
  keeps I body -> keeps I (with_chat_lock body).
Proof.
  intros Hflag Hb s H. unfold with_chat_lock.
  destruct (chat_lock s); [exact H|].
  specialize (Hb _ (Hflag true s H)).
  destruct (body (with_lock_flag true s)) as [[a|e|] s']; cbn in *; auto.
Qed.

Lemma received_by_delivered (c : conn) (l : list (conn * string)) (n : net) :
  received_by c (delivered l n)
  = (received_by c n ++ map snd (filter (fun e => Nat.eqb (fst e) c) l))%list.
Proof.
  unfold received_by, delivered; cbn. now rewrite filter_app, map_app.
Qed.


Section Told.
Variables (c : conn) (told : list string).







End Told.





End Handshake.

(** ** The presenter-slot invariant *)

Section SlotInvariant.
Import Chat.

Section RegistryOnly.
Variable I : state -> Prop.
Hypothesis HI : registry_only I.

Lemma keeps_ro_sendall (c : conn) (data : string) : keeps I (sendall c data).
Proof.
  intros s H. unfold sendall, lift.
  destruct (Net.sendall c data (io s)) as [r n]. now apply (HI s).
Qed.

Lemma keeps_ro_close (c : conn) : keeps I (close c).
Proof. intros s H. now apply (HI s). Qed.

Lemma keeps_ro_lock {A} (body : M state A) :
  keeps I body -> keeps I (with_chat_lock body).
Proof.
  apply keeps_with_chat_lock. intros b s H. now apply (HI s).
Qed.

Lemma keeps_ro_broadcast (message : string) (sender_conn : option conn) :
  keeps I (broadcast_chat message sender_conn).
Proof.
  unfold broadcast_chat. apply keeps_bind.
  - apply keeps_ro_lock, keeps_gets.
  - intros infos. apply keeps_for_each. intros i.
    destruct (conn_differs (ci_conn i) sender_conn); [|apply keeps_ret].
    apply keeps_try_except; [apply keeps_ro_sendall|].
    intros _. apply keeps_ret.
Qed.

End RegistryOnly.

Lemma keeps_bind_gets (I : state -> Prop) {A B} (f : state -> A)
    (k : A -> M state B) :
  (forall s0, I s0 -> I (snd (k (f s0) s0))) -> keeps I (Exec.bind (gets f) k).
Proof. intros H s Hs. rewrite bind_gets. now apply H. Qed.

Lemma ro_slot_registered : registry_only slot_registered.
Proof.
  intros s s' Hc Hp. unfold slot_registered. now rewrite Hc, Hp.
Qed.

Lemma ro_registered_actor (username : string) :
  registry_only (registered_actor username).
Proof.
  intros s s' Hc Hp [H1 H2]. split.
  - now apply (ro_slot_registered s).
  - now rewrite Hc.
Qed.

Lemma get_del_other {V} (k k' : string) (d : Py.dict V) :
  k <> k' -> Py.get k (Py.del k' d) = Py.get k d.
Proof.
  intros Hn. induction d as [|[k0 v0] d IH]; cbn; [reflexivity|].
  destruct (String.eqb_spec k' k0) as [->|Hk'].
  - destruct (String.eqb_spec k k0); [contradiction|reflexivity].
  - cbn. destruct (String.eqb_spec k k0); [reflexivity|exact IH].
Qed.

Lemma mem_set_mono {V} (k k' : string) (v : V) (d : Py.dict V) :
  Py.mem k d = true -> Py.mem k (Py.set k' v d) = true.
Proof.
  unfold Py.mem. destruct (String.eqb_spec k k') as [->|Hn].
  - now rewrite get_set_same.
  - now rewrite get_set_other.
Qed.

Lemma mem_set_status (k username new_status : string)
    (clients : Py.dict client_info) :
  Py.mem k (set_status username new_status clients) = Py.mem k clients.
Proof.
  unfold set_status.
  destruct (Py.get username clients) as [info|] eqn:Hg; [|reflexivity].
  unfold Py.mem. destruct (String.eqb_spec k username) as [->|Hn].
  - now rewrite get_set_same, Hg.
  - now rewrite get_set_other.
Qed.

Lemma is_presenter_false (username p : string) :
  is_presenter username (Some p) = false -> p <> username.
Proof.
  cbn. intros H ->. now rewrite String.eqb_refl in H.
Qed.

(** Granting the slot to a registered user keeps the invariant. *)
Lemma grant_keeps_actor (username granted : string) (s : state) :
  Py.mem granted (chat_clients s) = true ->
  registered_actor username s ->
  registered_actor username (with_presenter (Some granted) s).
Proof. intros Hg [H1 H2]. split; [exact Hg|exact H2]. Qed.

Lemma keeps_actor_set_status (conn : conn) (username message_str : string) :
  keeps (registered_actor username) (on_set_status conn username message_str).
Proof.
  pose proof (ro_registered_actor username) as Hro.
  unfold on_set_status.
  apply keeps_try_except; [|intros; apply keeps_ret].
  destruct (Py.split ":" 1 message_str) as [|a [|b [|c l]]];
    try apply keeps_raise.
  apply keeps_bind; [|intros; now apply keeps_ro_broadcast].
  apply keeps_ro_lock; [exact Hro|].
  apply keeps_modify. intros s [H1 H2]. split.
  - unfold slot_registered in *. cbn.
    destruct (current_presenter_username s); [|exact I].
    now rewrite mem_set_status.
  - cbn. now rewrite mem_set_status.
Qed.

Lemma keeps_actor_pm (conn : conn) (username timestamp message_str : string) :
  keeps (registered_actor username)
        (on_pm conn username timestamp message_str).
Proof.
  pose proof (ro_registered_actor username) as Hro.
  unfold on_pm.
  apply keeps_try_except; [|intros; now apply keeps_ro_sendall].
  destruct (Py.split ":" 2 message_str) as [|a [|b [|c [|d l]]]];
    try apply keeps_raise.
  apply keeps_bind.
  - apply keeps_ro_lock; [exact Hro|].
    apply keeps_bind; [apply keeps_gets|intros; apply keeps_ret].
  - intros [tc|]; [|now apply keeps_ro_sendall].
    apply keeps_bind; intros; now apply keeps_ro_sendall.
Qed.

Lemma keeps_actor_grant (conn : conn) (username : string) :
  keeps (registered_actor username)
        (modify (with_presenter (Some username)) ;;
         sendall conn "OK_TO_PRESENT" ;;
         broadcast_chat ("SCREEN_START:" ++ username) (Some conn)).
Proof.
  pose proof (ro_registered_actor username) as Hro.
  apply keeps_bind.
  - apply keeps_modify. intros s H. apply grant_keeps_actor; [apply H|exact H].
  - intros _. apply keeps_bind; [now apply keeps_ro_sendall|].
    intros _. now apply keeps_ro_broadcast.
Qed.

Lemma keeps_actor_request (conn : conn) (username : string) :
  keeps (registered_actor username) (on_request_to_present conn username).
Proof.
  pose proof (ro_registered_actor username) as Hro.
  unfold on_request_to_present. apply keeps_ro_lock; [exact Hro|].
  apply keeps_bind; [apply keeps_gets|]. intros [presenter|].
  - apply keeps_bind; [apply keeps_gets|]. intros clients.
    destruct (Py.get presenter clients);
      [now apply keeps_ro_sendall|apply keeps_actor_grant].
  - apply keeps_actor_grant.
Qed.

Lemma keeps_actor_response (conn : conn) (username message_str : string) :
  keeps (registered_actor username)
        (on_present_response conn username message_str).
Proof.
  pose proof (ro_registered_actor username) as Hro.
  unfold on_present_response.
  apply keeps_try_except; [|intros; apply keeps_ret].
  destruct (Py.split ":" 2 message_str) as [|a [|response [|requester [|d l]]]];
    try apply keeps_raise.
  apply keeps_ro_lock; [exact Hro|].
  apply keeps_bind; [apply keeps_gets|]. intros p.
  destruct (negb (is_presenter username p)); [apply keeps_ret|].
  apply keeps_bind_gets. intros s0 H0.
  destruct (Py.get requester (chat_clients s0)) as [info|] eqn:Hg;
    [|exact H0].
  destruct (response =? "Yes"); [|now apply keeps_ro_sendall].
  assert (Hro' : registry_only
            (fun s => registered_actor username s
                      /\ Py.mem requester (chat_clients s) = true)).
  { intros s s' Hc Hp [H1 H2]. split; [now apply (Hro s)|now rewrite Hc]. }
  refine (proj1 (_ : (fun s => registered_actor username s
                      /\ Py.mem requester (chat_clients s) = true) _)).
  eapply (keeps_bind _ _ _ (keeps_ro_sendall _ Hro' _ _)).
  - intros _. apply keeps_bind; [now apply keeps_ro_sendall|].
    intros _. apply keeps_bind; [|intros; now apply keeps_ro_broadcast].
    apply keeps_modify. intros s [H1 H2]. split; [|exact H2].
    now apply grant_keeps_actor.
  - split; [exact H0|]. unfold Py.mem. now rewrite Hg.
Qed.

Lemma keeps_actor_stop (username : string) :
  keeps (registered_actor username) (on_stop_sharing username).
Proof.
  pose proof (ro_registered_actor username) as Hro.
  unfold on_stop_sharing. apply keeps_ro_lock; [exact Hro|].
  apply keeps_bind; [apply keeps_gets|]. intros p.
  destruct (is_presenter username p); [|apply keeps_ret].
  apply keeps_bind; [|intros; now apply keeps_ro_broadcast].
  apply keeps_modify. intros s [H1 H2]. split; [exact I|exact H2].
Qed.

(** Every command of a sender who is registered keeps the invariant. *)
Lemma dispatch_keeps_slot_registered
    (conn : conn) (username timestamp message_str : string) (s : state) :
  Py.mem username (chat_clients s) = true ->
  slot_registered s ->
  slot_registered (snd (chat_dispatch conn username timestamp message_str s)).
Proof.
  intros Hm Hs.
  refine (proj1 (_ : registered_actor username _)).
  assert (H : registered_actor username s) by now split.
  clear Hm Hs. revert s H.
  change (keeps (registered_actor username)
            (chat_dispatch conn username timestamp message_str)).
  unfold chat_dispatch.
  destruct (Py.startswith "SET_STATUS:" message_str);
    [apply keeps_actor_set_status|].
  destruct (Py.startswith "PM:" message_str); [apply keeps_actor_pm|].
  destruct (message_str =? "REQUEST_TO_PRESENT"); [apply keeps_actor_request|].
  destruct (Py.startswith "PRESENT_RESPONSE:" message_str);
    [apply keeps_actor_response|].
  destruct (message_str =? "STOP_SHARING"); [apply keeps_actor_stop|].
  apply keeps_ro_broadcast, ro_registered_actor.
Qed.

(** The handshake keeps the invariant, whoever connects. *)
Lemma handshake_keeps_slot_registered (conn : conn) (username_bytes : string) :
  keeps slot_registered (chat_handshake conn username_bytes).
Proof.
  pose proof ro_slot_registered as Hro.
  unfold chat_handshake.
  destruct (username_bytes =? ""); [apply keeps_ret|].
  apply keeps_bind.
  - apply keeps_ro_lock; [exact Hro|].
    apply keeps_bind; [apply keeps_gets|]. intros clients.
    destruct (_ || _).
    + apply keeps_bind.
      * apply keeps_try_except; [now apply keeps_ro_sendall|].
        intros; apply keeps_ret.
      * intros _. apply keeps_bind; [now apply keeps_ro_close|].
        intros; apply keeps_ret.
    + apply keeps_bind.
      * apply keeps_try_except.
        -- apply keeps_bind; [now apply keeps_ro_sendall|].
           intros; apply keeps_ret.
        -- intros _. apply keeps_bind; [now apply keeps_ro_close|].
           intros; apply keeps_ret.
      * intros [|]; [|apply keeps_ret].
        apply keeps_bind; [|intros; apply keeps_ret].
        apply keeps_modify. intros s H. unfold slot_registered in *. cbn.
        destruct (current_presenter_username s); [|exact I].
        now apply mem_set_mono.
  - intros [|]; [|apply keeps_ret].
    apply keeps_bind.
    { unfold get_user_list_string. apply keeps_ro_lock; [exact Hro|].
      apply keeps_gets. }
    intros user_list_str. apply keeps_bind; [now apply keeps_ro_sendall|].
    intros _. apply keeps_bind; [now apply keeps_ro_broadcast|].
    intros _. apply keeps_bind; [|intros; apply keeps_ret].
    apply keeps_ro_lock; [exact Hro|].
    apply keeps_bind; [apply keeps_gets|]. intros [presenter|];
      [|apply keeps_ret].
    destruct (presenter =? ""); [apply keeps_ret|now apply keeps_ro_sendall].
Qed.

Lemma unregister_free (username : string) (s : state) :
  chat_lock s = false ->
  unregister username s
  = (Returns (Py.mem username (chat_clients s),
              is_presenter username (current_presenter_username s)),
     unregistered username s).
Proof.
  intros Hl. unfold unregister, with_chat_lock, unregistered.
  rewrite Hl, bind_gets. cbn [chat_clients with_lock_flag].
  destruct s as [clients p l n]; cbn in *; subst l.
  destruct (Py.mem username clients); cbn;
    destruct (is_presenter username p); reflexivity.
Qed.

(** Unregistering keeps the invariant: the slot is cleared together with
    the entry of the user who held it. *)
Lemma unregister_keeps_slot_registered (username : string) :
  keeps slot_registered (unregister username).
Proof.
  intros s H. destruct (chat_lock s) eqn:Hl.
  - unfold unregister, with_chat_lock. now rewrite Hl.
  - rewrite unregister_free by exact Hl.
    unfold slot_registered, unregistered in *. cbn.
    destruct (current_presenter_username s) as [p|]; [|exact I].
    destruct (is_presenter username (Some p)) eqn:Hp; [exact I|].
    apply is_presenter_false in Hp.
    destruct (Py.mem username (chat_clients s)); [|exact H].
    unfold Py.mem in *. now rewrite get_del_other.
Qed.

(** The [finally] block keeps the invariant. *)
Lemma finally_keeps_slot_registered (conn : conn) (username : option string) :
  keeps slot_registered (chat_finally conn username).
Proof.
  pose proof ro_slot_registered as Hro.
  unfold chat_finally. apply keeps_bind.
  - destruct username as [username|]; [|apply keeps_ret].
    destruct (username =? ""); [apply keeps_ret|].
    apply keeps_bind; [apply unregister_keeps_slot_registered|].
    intros flags. apply keeps_bind.
    + destruct (fst flags); [now apply keeps_ro_broadcast|apply keeps_ret].
    + intros _.
      destruct (snd flags); [now apply keeps_ro_broadcast|apply keeps_ret].
  - intros _. apply keeps_try_except; [now apply keeps_ro_close|].
    intros; apply keeps_ret.
Qed.

(** *** Once a handler is stuck with the lock

    [chat_lock] is never released by a handler that blocked while holding
    it, so from then on every other handler blocks at its first
    [with chat_lock]. *)

Lemma with_chat_lock_held {A} (body : M state A) (s : state) :
  chat_lock s = true -> with_chat_lock body s = (Blocks, s).
Proof. intros H. unfold with_chat_lock. now rewrite H. Qed.

(** With the lock held, a new socket is never answered. *)
Lemma held_lock_freezes_handshake (conn : conn) (username_bytes : string)
    (s : state) :
  chat_lock s = true -> username_bytes <> "" ->
  chat_handshake conn username_bytes s = (Blocks, s).
Proof.
  intros Hl Hne. unfold chat_handshake.
  apply String.eqb_neq in Hne. rewrite Hne.
  apply bind_blocks. now apply with_chat_lock_held.
Qed.

(** With the lock held, a handler that leaves never finishes leaving: its
    entry stays in the registry and its socket is not closed. *)
Lemma held_lock_freezes_finally (conn : conn) (username : string) (s : state) :
  chat_lock s = true -> username <> "" ->
  chat_finally conn (Some username) s = (Blocks, s).
Proof.
  intros Hl Hne. unfold chat_finally.
  apply String.eqb_neq in Hne. rewrite Hne.
  apply bind_blocks, bind_blocks. now apply with_chat_lock_held.
Qed.

(** With the lock held, a command changes nothing, except that a [PM:]
    that does not parse is still answered with the error notice. *)
Lemma held_lock_freezes_dispatch
    (conn : conn) (username timestamp message_str : string) (s : state) :
  chat_lock s = true ->
  snd (chat_dispatch conn username timestamp message_str s) = s
  \/ snd (chat_dispatch conn username timestamp message_str s)
     = with_io (delivered [(conn, timestamp ++ " SYSTEM:Error processing PM.")]
                          (io s)) s.
Proof.
  intros Hl. unfold chat_dispatch.
  destruct (Py.startswith "SET_STATUS:" message_str).
  { left. unfold on_set_status, try_except.
    destruct (Py.split ":" 1 message_str) as [|a [|b [|c l]]];
      try reflexivity.
    now rewrite (bind_blocks _ _ s s) by now apply with_chat_lock_held. }
  destruct (Py.startswith "PM:" message_str).
  { assert (Herr : snd (sendall conn
                          (timestamp ++ " SYSTEM:Error processing PM.") s) = s
                   \/ snd (sendall conn
                             (timestamp ++ " SYSTEM:Error processing PM.") s)
                      = with_io (delivered
                                   [(conn, timestamp
                                           ++ " SYSTEM:Error processing PM.")]
                                   (io s)) s).
    { destruct (alive conn (io s)) eqn:Ha.
      - right. now rewrite sendall_alive by exact Ha.
      - left. now destruct (sendall_dead conn
                  (timestamp ++ " SYSTEM:Error processing PM.") s Ha)
                  as [e ->]. }
    unfold on_pm, try_except.
    destruct (Py.split ":" 2 message_str) as [|a [|b [|c [|d l]]]];
      try exact Herr.
    left. now rewrite (bind_blocks _ _ s s) by now apply with_chat_lock_held. }
  destruct (message_str =? "REQUEST_TO_PRESENT").
  { left. unfold on_request_to_present.
    now rewrite with_chat_lock_held by exact Hl. }
  destruct (Py.startswith "PRESENT_RESPONSE:" message_str).
  { left. unfold on_present_response, try_except.
    destruct (Py.split ":" 2 message_str) as [|a [|b [|c [|d l]]]];
      try reflexivity.
    now rewrite with_chat_lock_held by exact Hl. }
  destruct (message_str =? "STOP_SHARING").
  { left. unfold on_stop_sharing. now rewrite with_chat_lock_held by exact Hl. }
  left. now rewrite broadcast_chat_held by exact Hl.
Qed.

(** C4 (the run that breaks the invariant).  alice joins; a second socket
    asks for the name alice and is refused, and its [finally] block removes
    alice's entry although alice's handler is still in its command loop;
    the invariant holds at that point.  alice then asks to present: the
    slot is set to alice, who is not registered. *)
Theorem C4_slot_granted_to_unregistered_user :
  let before := run [Accept 1 "alice"; Accept 2 "alice"] boot in
  let after := step (Recv 1 "12:00:00" "REQUEST_TO_PRESENT") before in
  slot_registered (shared before)
  /\ loop_of 1 (loops before) = Some "alice"
  /\ chat_clients (shared before) = []
  /\ current_presenter_username (shared after) = Some "alice"
  /\ chat_clients (shared after) = []
  /\ ~ slot_registered (shared after).
Proof.
  cbv zeta. repeat split; try reflexivity.
  unfold slot_registered. vm_compute. discriminate.
Qed.

End SlotInvariant.

(** ** The roster *)

Section Roster.
Import Chat.

Lemma roster_keys (d : Py.dict client_info) :
  map fst (roster_of d) = Py.keys d.
Proof.
  unfold roster_of, Py.keys. rewrite map_map. now apply map_ext.
Qed.

Lemma mem_keys {V} (u : string) (d : Py.dict V) :
  Py.mem u d = existsb (String.eqb u) (Py.keys d).
Proof.
  unfold Py.mem. induction d as [|[k v] d IH]; cbn; [reflexivity|].
  destruct (u =? k); [reflexivity|exact IH].
Qed.

Lemma mem_false_not_in {V} (u : string) (d : Py.dict V) :
  Py.mem u d = false -> ~ In u (Py.keys d).
Proof.
  rewrite mem_keys. intros H Hin.
  assert (existsb (String.eqb u) (Py.keys d) = true) as E.
  { apply existsb_exists. exists u. split; [exact Hin|apply String.eqb_refl]. }
  congruence.
Qed.

Lemma roster_set_fresh (u : string) (v : client_info) (d : Py.dict client_info) :
  Py.mem u d = false ->
  roster_of (Py.set u v d) = (roster_of d ++ [(u, ci_status v)])%list.
Proof.
  unfold Py.mem. induction d as [|[k w] d IH]; cbn; [reflexivity|].
  destruct (u =? k); [discriminate|]. intros H. cbn. f_equal. now apply IH.
Qed.

Lemma keys_set_fresh {V} (u : string) (v : V) (d : Py.dict V) :
  Py.mem u d = false -> Py.keys (Py.set u v d) = (Py.keys d ++ [u])%list.
Proof.
  unfold Py.mem. induction d as [|[k w] d IH]; cbn; [reflexivity|].
  destruct (u =? k); [discriminate|]. intros H. cbn. f_equal. now apply IH.
Qed.

(** Without an entry for [u], dropping or updating the entries of [u]
    changes nothing. *)
Lemma filter_absent (u : string) (r : roster) :
  ~ In u (map fst r) ->
  filter (fun e => negb (u =? fst e)) r = r.
Proof.
  induction r as [|[k st] r IH]; cbn; [reflexivity|]. intros H.
  destruct (String.eqb_spec u k) as [->|Hn]; [tauto|]. cbn.
  f_equal. apply IH. tauto.
Qed.

Lemma map_absent (u st : string) (r : roster) :
  ~ In u (map fst r) ->
  map (fun e => if u =? fst e then (fst e, st) else e) r = r.
Proof.
  induction r as [|[k st'] r IH]; cbn; [reflexivity|]. intros H.
  destruct (String.eqb_spec u k) as [->|Hn]; [tauto|].
  f_equal. apply IH. tauto.
Qed.

Lemma roster_del (u : string) (d : Py.dict client_info) :
  NoDup (Py.keys d) ->
  roster_of (Py.del u d) = filter (fun e => negb (u =? fst e)) (roster_of d).
Proof.
  induction d as [|[k w] d IH]; cbn; [reflexivity|]. intros Hnd.
  inversion Hnd as [|? ? Hk Hd]; subst.
  destruct (String.eqb_spec u k) as [->|Hn]; cbn.
  - rewrite filter_absent; [reflexivity|]. now rewrite roster_keys.
  - f_equal. now apply IH.
Qed.

Lemma keys_del_incl {V} (u : string) (d : Py.dict V) (k : string) :
  In k (Py.keys (Py.del u d)) -> In k (Py.keys d).
Proof.
  induction d as [|[k0 w] d IH]; cbn; [tauto|].
  destruct (u =? k0); cbn; tauto.
Qed.

Lemma nodup_del {V} (u : string) (d : Py.dict V) :
  NoDup (Py.keys d) -> NoDup (Py.keys (Py.del u d)).
Proof.
  induction d as [|[k w] d IH]; cbn; [auto|]. intros Hnd.
  inversion Hnd as [|? ? Hk Hd]; subst.
  destruct (u =? k); cbn; [exact Hd|].
  constructor; [|auto]. intros Hin. apply Hk. eapply keys_del_incl, Hin.
Qed.

Lemma roster_set_present (u st : string) (c : conn) (d : Py.dict client_info) :
  NoDup (Py.keys d) ->
  Py.mem u d = true ->
  roster_of (Py.set u (mk_client_info c st) d)
  = map (fun e => if u =? fst e then (fst e, st) else e) (roster_of d).
Proof.
  unfold Py.mem. induction d as [|[k w] d IH]; cbn; [discriminate|].
  intros Hnd. inversion Hnd as [|? ? Hk Hd]; subst.
  destruct (String.eqb_spec u k) as [->|Hn]; cbn; intros Hm.
  - rewrite map_absent; [reflexivity|]. now rewrite roster_keys.
  - f_equal. now apply IH.
Qed.

Lemma roster_set_status (u st : string) (d : Py.dict client_info) :
  NoDup (Py.keys d) ->
  roster_of (set_status u st d)
  = map (fun e => if u =? fst e then (fst e, st) else e) (roster_of d).
Proof.
  unfold set_status. intros Hnd.
  destruct (Py.get u d) as [info|] eqn:Hg.
  - apply roster_set_present; [exact Hnd|]. unfold Py.mem. now rewrite Hg.
  - rewrite map_absent; [reflexivity|]. rewrite roster_keys.
    apply mem_false_not_in. unfold Py.mem. now rewrite Hg.
Qed.

(** One operation, on a dict without duplicate keys. *)
Lemma apply_op_refines (d : Py.dict client_info) (op : registry_op) :
  NoDup (Py.keys d) ->
  roster_of (apply_op d op) = spec_apply (roster_of d) op
  /\ NoDup (Py.keys (apply_op d op)).
Proof.
  intros Hnd. destruct op as [u c|u|u st]; cbn [apply_op spec_apply].
  - unfold register. rewrite roster_keys, <- mem_keys.
    destruct (u =? ""); cbn [orb]; [now split|].
    destruct (Py.mem u d) eqn:Hm; [now split|]. split.
    + now apply roster_set_fresh.
    + rewrite keys_set_fresh by exact Hm.
      apply NoDup_app; [exact Hnd|repeat constructor; tauto|].
      intros k Hin [<-|[]]. revert Hin. now apply mem_false_not_in.
  - destruct (Py.mem u d) eqn:Hm.
    + split; [now apply roster_del|now apply nodup_del].
    + split; [|exact Hnd].
      rewrite filter_absent; [reflexivity|]. rewrite roster_keys.
      now apply mem_false_not_in.
  - split; [now apply roster_set_status|].
    now rewrite set_status_keys.
Qed.

Lemma apply_ops_refine (ops : list registry_op) (d : Py.dict client_info) :
  NoDup (Py.keys d) ->
  roster_of (fold_left apply_op ops d)
  = fold_left spec_apply ops (roster_of d)
  /\ NoDup (Py.keys (fold_left apply_op ops d)).
Proof.
  revert d. induction ops as [|op ops IH]; intros d Hnd; cbn; [now split|].
  destruct (apply_op_refines d op Hnd) as [Hr Hn].
  rewrite <- Hr. now apply IH.
Qed.

Lemma user_list_of_roster (d : Py.dict client_info) :
  user_list_of d
  = "USER_LIST:"
    ++ Py.join "," (map (fun e => fst e ++ "=" ++ snd e) (roster_of d)).
Proof.
  unfold user_list_of, roster_of. destruct d as [|e d]; [reflexivity|].
  rewrite map_map. f_equal. f_equal. apply map_ext. now intros [k v].
Qed.

(** C3 (as amended).  After any sequence of Register, Unregister and
    SetStatus operations the dict holds exactly the registered usernames
    with their statuses, each once, in the order in which they registered,
    and the [USER_LIST] string lists them in that order; it is not sorted
    by username. *)
Theorem C3_roster_in_registration_order (ops : list registry_op) :
  roster_of (apply_ops ops) = spec_roster ops
  /\ NoDup (map fst (spec_roster ops))
  /\ user_list_of (apply_ops ops)
     = "USER_LIST:"
       ++ Py.join "," (map (fun e => fst e ++ "=" ++ snd e) (spec_roster ops)).
Proof.
  destruct (apply_ops_refine ops [] (NoDup_nil _)) as [Hr Hn].
  fold (apply_ops ops) in Hr, Hn. change (roster_of []) with (@nil (string * string)) in Hr.
  fold (spec_roster ops) in Hr.
  split; [exact Hr|]. split.
  - rewrite <- Hr, roster_keys. exact Hn.
  - now rewrite user_list_of_roster, Hr.
Qed.

(** C3 (counterexample).  bob registers before alice: the roster sent to
    alice lists bob first, so it is not sorted by username. *)
Lemma C3_roster_not_sorted :
  user_list_of (apply_ops [Register "bob" 2; Register "alice" 1])
  = "USER_LIST:bob=Online,alice=Online"
  /\ sorted_names (Py.keys (apply_ops [Register "bob" 2; Register "alice" 1]))
     = false
  /\ received_by 1 (io (shared (run [Accept 2 "bob"; Accept 1 "alice"] boot)))
     = ["OK"; "USER_LIST:bob=Online,alice=Online"].
Proof. split; [reflexivity|split; reflexivity]. Qed.

End Roster.

(** ** Screen-share exclusivity *)

Section ScreenShare.
Import Screen.

Lemma presenter_role (conn : conn) :
  negotiate_role conn "PRESENTER"
  = (p <- gets screen_presenter_socket ;;
     match p with
     | None =>
         modify (with_presenter_socket (Some conn)) ;;
         ret PresenterLoop
     | Some _ =>
         sendall conn "ERROR: Presenter busy" ;;
         close conn ;;
         ret LeavesTry
     end).
Proof. reflexivity. Qed.

(** C5.  A new socket (alive, not yet known to the server) whose first
    bytes are [PRESENTER]: while a presenter socket is held, the new socket
    is sent exactly [ERROR: Presenter busy] and is closed, and the held
    presenter socket and the viewers are as before; while none is held, the
    new socket becomes the presenter socket and enters the presenter
    loop: after the handshake the presenter slot holds this very socket,
    the viewers are as before, and nothing was sent or closed. *)
Theorem C5_presenter_handshake (s : state) (conn : conn) :
  alive conn (io s) = true ->
  is_in conn (screen_viewers s) = false ->
  (forall held,
     screen_presenter_socket s = Some held ->
     conn <> held ->
     handle_screen_client conn "PRESENTER" s
     = (Returns LeavesTry, turned_away conn s)
     /\ screen_presenter_socket (turned_away conn s) = Some held
     /\ screen_viewers (turned_away conn s) = screen_viewers s
     /\ wire (io (turned_away conn s))
        = (wire (io s) ++ [(conn, "ERROR: Presenter busy")])%list
     /\ is_in conn (closed (io (turned_away conn s))) = true)
  /\ (screen_presenter_socket s = None ->
      handle_screen_client conn "PRESENTER" s
      = (Returns PresenterLoop, with_presenter_socket (Some conn) s)
      /\ screen_presenter_socket
           (snd (handle_screen_client conn "PRESENTER" s)) = Some conn
      /\ screen_viewers (snd (handle_screen_client conn "PRESENTER" s))
         = screen_viewers s
      /\ io (snd (handle_screen_client conn "PRESENTER" s)) = io s).
Proof.
  intros Ha Hv. split.
  - intros held Hp Hn. split.
    + unfold handle_screen_client, try_except. rewrite presenter_role.
      unfold bind at 1. rewrite bind_gets, Hp.
      unfold bind at 1. unfold sendall, lift.
      rewrite net_sendall_alive by exact Ha.
      apply Nat.eqb_neq in Hn.
      unfold screen_finally, drop_viewer, close, lift, Net.close,
        bind, modify, try_except, ret, turned_away.
      destruct s as [p v n]. cbn in Hp, Hv |- *. subst p.
      unfold is_presenter_socket. rewrite Hn. cbn [screen_viewers with_io].
      unfold is_in in *. rewrite Hv. reflexivity.
    + repeat split; try reflexivity; try assumption.
      cbn. now rewrite Nat.eqb_refl.
  - intros Hp.
    assert (Hrun : handle_screen_client conn "PRESENTER" s
                   = (Returns PresenterLoop,
                      with_presenter_socket (Some conn) s)).
    { unfold handle_screen_client, try_except.
      rewrite presenter_role. unfold bind at 1. rewrite bind_gets, Hp.
      reflexivity. }
    rewrite Hrun. repeat split.
Qed.

(** Socket 10 asks to present while socket 7 does; socket 11 asks when
    nobody does. *)
Lemma C5_second_presenter_turned_away :
  handle_screen_client 10 "PRESENTER" presenting
  = (Returns LeavesTry, turned_away 10 presenting)
  /\ screen_presenter_socket (turned_away 10 presenting) = Some 7
  /\ screen_viewers (turned_away 10 presenting) = [8; 9]
  /\ received_by 10 (io (turned_away 10 presenting))
     = ["ERROR: Presenter busy"]
  /\ handle_screen_client 11 "PRESENTER" (with_presenter_socket None presenting)
     = (Returns PresenterLoop,
        with_presenter_socket (Some 11) (with_presenter_socket None presenting))
  /\ screen_presenter_socket
       (snd (handle_screen_client 11 "PRESENTER"
               (with_presenter_socket None presenting))) = Some 11.
Proof.
  destruct (proj1 (C5_presenter_handshake presenting 10 eq_refl eq_refl)
              7 eq_refl) as (H1 & H2 & H3 & _).
  - discriminate.
  - split; [exact H1|]. split; [exact H2|]. split; [exact H3|].
    split; [reflexivity|].
    destruct (proj2 (C5_presenter_handshake
                       (with_presenter_socket None presenting) 11
                       eq_refl eq_refl) eq_refl) as (H4 & H5 & _).
    split; [exact H4|exact H5].
Defined.

End ScreenShare.

(** ** Strings and paths *)

Section StringLemmas.

Lemma sapp_nil_r (s : string) : s ++ "" = s.
Proof. induction s as [|c s IH]; cbn; [reflexivity|now rewrite IH]. Qed.

Lemma sapp_assoc (a b c : string) : (a ++ b) ++ c = a ++ (b ++ c).
Proof. induction a as [|x a IH]; cbn; [reflexivity|now rewrite IH]. Qed.

Lemma slength_app (a b : string) :
  String.length (a ++ b) = String.length a + String.length b.
Proof. induction a as [|x a IH]; cbn; [reflexivity|now rewrite IH]. Qed.



Lemma take_drop (n : nat) (s : string) : Py.take n s ++ Py.drop n s = s.
Proof.
  revert s. induction n as [|n IH]; intros [|c s]; cbn; try reflexivity.
  now rewrite IH.
Qed.



Lemma rfind_app (c : ascii) (a b : string) :
  Py.rfind c (a ++ b)
  = match Py.rfind c b with
    | Some i => Some (String.length a + i)
    | None => Py.rfind c a
    end.
Proof.
  induction a as [|x a IH]; cbn.
  - now destruct (Py.rfind c b).
  - rewrite IH. now destruct (Py.rfind c b).
Qed.



End StringLemmas.

Section PathLemmas.
Import Files.

Lemma sep_free_app (a b : string) :
  sep_free (a ++ b) <-> sep_free a /\ sep_free b.
Proof.
  unfold sep_free. rewrite rfind_app.
  destruct (Py.rfind "/" b); split; try tauto; try discriminate.
  intros [_ H]; discriminate.
Qed.



Lemma sep_free_cons (c : ascii) (s : string) :
  sep_free (String c s) <-> Ascii.eqb c "/" = false /\ sep_free s.
Proof.
  unfold sep_free. cbn. destruct (Py.rfind "/" s).
  - split; [discriminate|intros [_ H]; discriminate].
  - destruct (Ascii.eqb c "/"); split; try tauto; try discriminate.
    intros [H _]; discriminate.
Qed.

(** [after_last_sep] returns a suffix without a separator. *)
Lemma after_last_sep_free (p x cur : string) :
  cur = x ++ p -> sep_free x -> sep_free (after_last_sep cur p).
Proof.
  revert x cur. induction p as [|c p IH]; intros x cur Hc Hx; cbn.
  - subst. now rewrite sapp_nil_r.
  - destruct (Ascii.eqb c "/") eqn:Hs.
    + apply (IH ""); [reflexivity|reflexivity].
    + apply (IH (x ++ String c "")).
      * subst. now rewrite sapp_assoc.
      * apply sep_free_app. split; [exact Hx|].
        apply sep_free_cons. split; [exact Hs|reflexivity].
Qed.

(** The base name never contains a path separator. *)
Lemma basename_sep_free (p : string) : sep_free (basename p).
Proof. apply (after_last_sep_free p ""); reflexivity. Qed.

Lemma after_last_sep_of_free (n cur : string) :
  sep_free n -> after_last_sep cur n = cur.
Proof.
  revert cur. induction n as [|c n IH]; intros cur H; cbn; [reflexivity|].
  apply sep_free_cons in H as [Hc Hn]. rewrite Hc. now apply IH.
Qed.




Lemma sep_free_not_absolute (n : string) :
  sep_free n -> Py.startswith "/" n = false.
Proof.
  destruct n as [|c n]; [reflexivity|]. intros H.
  apply sep_free_cons in H as [Hc _].
  change (Py.startswith "/" (String c n)) with (Ascii.eqb "/" c && true).
  now rewrite Ascii.eqb_sym, Hc.
Qed.

(** Joining the directory with a separator-free name prefixes the name. *)
Lemma join_prefix (FILE_DIR n : string) :
  sep_free n -> join FILE_DIR n = dir_prefix FILE_DIR ++ n.
Proof.
  intros H. unfold join, dir_prefix.
  rewrite (sep_free_not_absolute n H).
  destruct (_ || _); [reflexivity|]. now rewrite sapp_assoc.
Qed.

End PathLemmas.

Section SplitextLemmas.
Import Files.









End SplitextLemmas.

(** ** The rename loop *)

Section RenameLoop.
Import Files.


Variables (files : Py.dict node) (base ext : string).




End RenameLoop.

Section UploadTarget.
Import Files.
Variable FILE_DIR : string.







End UploadTarget.

(** ** What the file commands do to the storage *)

Section FileFrame.
Import Files.
Variable FILE_DIR : string.

(** [I] looks at the file system and at the log only. *)
Variable I : state -> Prop.
Hypothesis I_frame :
  forall s s', fs s' = fs s -> touched s' = touched s -> I s -> I s'.






(** *** UPLOAD, for a target path on which [I] allows creating, writing
    and removing *)
Section Upload.
Variable filepath : string.
Hypothesis I_create :
  forall s, I s -> I (with_fs (Py.set filepath (File "") (fs s))
                              [Create filepath] s).
Hypothesis I_write :
  forall s c, I s -> I (with_fs (Py.set filepath (File c) (fs s)) [] s).
Hypothesis I_remove :
  forall s, I s -> I (with_fs (Py.del filepath (fs s)) [Remove filepath] s).









End Upload.




(** *** DOWNLOAD and DELETE, where [I] allows reading and removing a
    regular file right below the storage directory *)
Section Serve.
Hypothesis I_read :
  forall name s c,
    name <> "" -> sep_free name ->
    Py.get (join FILE_DIR name) (fs s) = Some (File c) ->
    I s -> I (with_fs (fs s) [Read (join FILE_DIR name)] s).
Hypothesis I_delete :
  forall name s c,
    name <> "" -> sep_free name ->
    Py.get (join FILE_DIR name) (fs s) = Some (File c) ->
    I s -> I (with_fs (Py.del (join FILE_DIR name) (fs s))
                      [Remove (join FILE_DIR name)] s).



End Serve.

End FileFrame.

(** ** Uploads, downloads and deletions stay inside the storage *)

Section Storage.
Import Files.
Variable FILE_DIR : string.





Lemma touched_only_weaken (P Q : string -> Prop) (s0 s : state) :
  (forall p, P p -> Q p) -> touched_only P s0 s -> touched_only Q s0 s.
Proof.
  intros H (ops & H1 & H2). exists ops. split; [exact H1|].
  eapply Forall_impl; [|exact H2]. intros op. apply H.
Qed.




End Storage.

Section StorageClaims.
Import Files.
Variable FILE_DIR : string.









End StorageClaims.

Section StorageExamples.
Import Files.



End StorageExamples.

(** ** Two uploads of one name at the same time *)

Section ConcurrentUploads.
Import Files Interleaved.

(** The two steps run back to back are the UPLOAD branch. *)
Lemma on_upload_in_two_steps (FILE_DIR : string) (conn : conn)
    (cmd_data : string) (payload : list recv_result) (s : state)
    (target : string * string * nat) :
  upload_resolve FILE_DIR cmd_data s = Some target ->
  on_upload FILE_DIR conn cmd_data (with_inbound payload s)
  = upload_finish FILE_DIR conn target payload s.
Proof.
  unfold upload_resolve, on_upload, upload_finish.
  destruct (parse_upload cmd_data) as [[filename filesize]|];
    [|discriminate].
  unfold bind at 1, gets. cbn [fs with_inbound].
  destruct (upload_target FILE_DIR (fs s) filename) as [[filepath name]|];
    [|discriminate].
  now intros [= <-].
Qed.

(** What a thread resolved does not depend on what arrives on a socket. *)
Lemma upload_resolve_inbound (FILE_DIR cmd_data : string)
    (payload : list recv_result) (s : state) :
  upload_resolve FILE_DIR cmd_data (with_inbound payload s)
  = upload_resolve FILE_DIR cmd_data s.
Proof. reflexivity. Qed.

(** C6.  Two clients upload [report.txt] at the same time, each served by
    its own thread, into an empty storage directory.  Both threads find
    the name free (lines 631-638) before either opens the file, so both
    go on with the path [server_files/report.txt].  The first thread
    stores [first] there.  The [open(filepath, 'wb')] of the second thread
    then empties that file and [second] is written over it: the storage
    ends with the one file [report.txt] holding [second], there is no
    [report_1.txt], and the bytes of the first upload are gone, although
    both clients were sent [OK] and both uploads were announced.  Served
    one after the other, the same two uploads are stored as [report.txt]
    and [report_1.txt]. *)
Theorem C6_concurrent_uploads_overwrite :
  upload_resolve "server_files" "UPLOAD:report.txt:5" two_uploaders
  = Some ("server_files/report.txt", "report.txt", 5)
  /\ upload_resolve "server_files" "UPLOAD:report.txt:6" two_uploaders
     = Some ("server_files/report.txt", "report.txt", 6)
  /\ fs (snd (upload_finish "server_files" 1
                ("server_files/report.txt", "report.txt", 5)
                [Data "first"] two_uploaders))
     = [("server_files/.", Dir); ("server_files/..", Dir);
        ("server_files/report.txt", File "first")]
  /\ option_map fs report_twice_at_once
     = Some [("server_files/.", Dir); ("server_files/..", Dir);
             ("server_files/report.txt", File "second")]
  /\ option_map touched report_twice_at_once
     = Some [Create "server_files/report.txt";
             Create "server_files/report.txt"]
  /\ option_map available_files report_twice_at_once = Some ["report.txt"]
  /\ option_map (fun s => wire (io s)) report_twice_at_once
     = Some [(1, "OK" ++ LF); (2, "NEW_FILE:report.txt" ++ LF);
             (2, "OK" ++ LF); (1, "NEW_FILE:report.txt" ++ LF)]
  /\ fs (snd (on_upload "server_files" 2 "UPLOAD:report.txt:6"
                (with_inbound [Data "second"]
                   (snd (on_upload "server_files" 1 "UPLOAD:report.txt:5"
                           (with_inbound [Data "first"] two_uploaders))))))
     = [("server_files/.", Dir); ("server_files/..", Dir);
        ("server_files/report.txt", File "first");
        ("server_files/report_1.txt", File "second")].
Proof. repeat split; vm_compute; reflexivity. Qed.

End ConcurrentUploads.

(* ================================================================== *)
(** * Further properties of the chat server *)

Section SessionLife.
Import Chat Session.

Lemma set_fresh {V} (k : string) (v : V) (d : Py.dict V) :
  Py.mem k d = false -> Py.set k v d = (d ++ [(k, v)])%list.
Proof.
  unfold Py.mem. induction d as [|[k0 v0] d IH]; cbn; [reflexivity|].
  destruct (String.eqb k k0); [discriminate|].
  intros H. now rewrite IH.
Qed.

Lemma del_set_fresh {V} (k : string) (v : V) (d : Py.dict V) :
  Py.mem k d = false -> Py.del k (Py.set k v d) = d.
Proof.
  unfold Py.mem. induction d as [|[k0 v0] d IH]; cbn.
  - now rewrite String.eqb_refl.
  - destruct (String.eqb k k0) eqn:Hk; [discriminate|].
    intros H. cbn. now rewrite Hk, IH.
Qed.

Lemma mem_del_nodup {V} (k : string) (d : Py.dict V) :
  NoDup (Py.keys d) -> Py.mem k (Py.del k d) = false.
Proof.
  unfold Py.mem. induction d as [|[k0 v0] d IH]; cbn; [reflexivity|].
  intros Hnd. inversion Hnd as [|? ? Hin Hnd']; subst.
  destruct (String.eqb_spec k k0) as [->|Hk].
  - destruct (Py.get k0 d) eqn:Hg; [|reflexivity].
    exfalso. apply Hin. clear -Hg.
    induction d as [|[k1 v1] d IH]; cbn in *; [discriminate|].
    destruct (String.eqb_spec k0 k1) as [->|]; [now left|right; auto].
  - cbn. destruct (String.eqb_spec k k0); [contradiction|]. now apply IH.
Qed.

(** The newcomer's own entry is the sender's: it adds no recipient. *)
Lemma recipients_set_fresh (u st : string) (c : conn)
    (d : Py.dict client_info) (n : net) :
  Py.mem u d = false ->
  recipients (Py.set u (mk_client_info c st) d) (Some c) n
  = recipients d (Some c) n.
Proof.
  intros H. rewrite (set_fresh _ _ _ H). unfold recipients, Py.values.
  rewrite !map_app, filter_app. cbn.
  rewrite Nat.eqb_refl. cbn. now rewrite app_nil_r.
Qed.

Lemma recipients_delivered (d : Py.dict client_info) (sc : option conn)
    (l : list (conn * string)) (n : net) :
  recipients d sc (delivered l n) = recipients d sc n.
Proof. reflexivity. Qed.

Lemma get_user_list_string_free (s : state) :
  chat_lock s = false ->
  get_user_list_string s = (Returns (user_list_of (chat_clients s)), s).
Proof.
  intros Hl. unfold get_user_list_string, with_chat_lock, gets.
  now rewrite Hl, (unlock_lock _ Hl).
Qed.

(** An accepted handshake, step by step. *)
Lemma handshake_accepted (s : state) (conn : conn) (username : string) :
  chat_lock s = false ->
  alive conn (io s) = true ->
  username <> "" ->
  Py.mem username (chat_clients s) = false ->
  chat_handshake conn username s = (Returns EntersLoop, joined conn username s).
Proof.
  intros Hl Ha Hne Hm. unfold chat_handshake.
  apply String.eqb_neq in Hne. rewrite Hne.
  set (s1 := with_clients (Py.set username (mk_client_info conn "Online"))
               (with_io (delivered [(conn, "OK")] (io s)) s)).
  rewrite (bind_returns _ _ s s1 EntersLoop).
  2:{ unfold with_chat_lock. rewrite Hl, bind_gets.
      cbn [chat_clients with_lock_flag orb]. rewrite Hm.
      unfold bind at 1. unfold try_except.
      rewrite bind_sendall_alive by exact Ha.
      cbn. subst s1. destruct s; cbn in *. now subst. }
  assert (Hl1 : chat_lock s1 = false) by exact Hl.
  rewrite (bind_returns _ _ _ _ _ (get_user_list_string_free s1 Hl1)).
  rewrite bind_sendall_alive by exact Ha.
  erewrite bind_returns; [|now apply broadcast_chat_free].
  subst s1. unfold bind at 1, with_chat_lock.
  cbn [chat_lock with_io with_clients chat_clients io]. rewrite Hl.
  rewrite bind_gets. unfold joined.
  cbn [with_io with_clients with_lock_flag chat_clients io
       current_presenter_username chat_lock].
  rewrite !recipients_delivered, !delivered_app.
  rewrite recipients_set_fresh by exact Hm.
  unfold start_notice.
  destruct (current_presenter_username s) as [presenter|] eqn:Hp.
  - destruct (presenter =? "").
    + unfold ret, with_lock_flag, with_io, with_clients.
      cbn [chat_clients current_presenter_username chat_lock io map].
      now rewrite Hl, Hp, app_nil_r.
    + rewrite sendall_alive by exact Ha.
      unfold with_lock_flag, with_io, with_clients.
      cbn [chat_clients current_presenter_username chat_lock io map].
      rewrite Hl, Hp, delivered_app. do 3 f_equal.
      now rewrite <- !app_assoc.
  - unfold ret, with_lock_flag, with_io, with_clients.
    cbn [chat_clients current_presenter_username chat_lock io map].
    now rewrite Hl, Hp, app_nil_r.
Qed.

(** No copy of a broadcast is addressed to its sender. *)
Lemma copies_skip_sender (message : string) (d : Py.dict client_info)
    (c : conn) (n : net) :
  filter (fun e => Nat.eqb (fst e) c)
         (copies message (recipients d (Some c) n)) = [].
Proof.
  unfold copies, recipients.
  induction (map ci_conn (Py.values d)) as [|x l IH]; [reflexivity|].
  cbn [filter]. destruct (conn_differs x (Some c) && alive x n) eqn:Hx.
  - apply andb_prop in Hx as [Hx _]. cbn in Hx.
    cbn [map filter fst]. apply negb_true_iff in Hx. now rewrite Hx.
  - exact IH.
Qed.


(** The [finally] block of a handler whose [username] is set. *)
Lemma finally_free (s : state) (conn : conn) (username : string) :
  chat_lock s = false ->
  username <> "" ->
  chat_finally conn (Some username) s = (Returns tt, departed conn username s).
Proof.
  intros Hl Hne. unfold chat_finally.
  apply String.eqb_neq in Hne. rewrite Hne.
  assert (Hl1 : chat_lock (unregistered username s) = false) by exact Hl.
  unfold bind at 1. unfold bind at 1.
  rewrite (unregister_free _ _ Hl). cbn [fst snd].
  unfold departed.
  destruct (Py.mem username (chat_clients s)) eqn:Hm;
    destruct (is_presenter username (current_presenter_username s)) eqn:Hp.
  - unfold bind at 1. rewrite (broadcast_chat_free _ _ _ Hl1).
    rewrite broadcast_chat_free by exact Hl1.
    cbn [with_io chat_clients io]. rewrite recipients_delivered, delivered_app.
    unfold try_except, close, lift, Net.close, modify, unregistered.
    cbn. now rewrite Hm, Hp.
  - unfold bind at 1. rewrite (broadcast_chat_free _ _ _ Hl1).
    unfold ret, try_except, close, lift, Net.close, modify, unregistered.
    cbn. now rewrite Hm, Hp, app_nil_r.
  - unfold bind at 1, ret. rewrite broadcast_chat_free by exact Hl1.
    unfold try_except, close, lift, Net.close, modify, unregistered.
    cbn. now rewrite Hm, Hp.
  - unfold bind at 1, ret.
    unfold try_except, close, lift, Net.close, modify, unregistered.
    cbn. rewrite Hm, Hp, delivered_nil. now destruct s.
Qed.

(** X1.  A handshake for a non-empty name that is not registered, on a
    live socket and with [chat_lock] free, is accepted: the user is
    registered as [Online] on that socket, after those who were there; no
    other entry changes; the newcomer is sent [OK], the roster (itself
    included, last) and [SCREEN_START:<presenter>] when the slot is set,
    and never its own [USER_JOIN:], which goes to the live sockets that
    were registered before. *)
Theorem accepted_handshake_registers_and_greets
    (s : state) (conn : conn) (username : string) :
  chat_lock s = false ->
  alive conn (io s) = true ->
  username <> "" ->
  Py.mem username (chat_clients s) = false ->
  chat_handshake conn username s = (Returns EntersLoop, joined conn username s)
  /\ Py.get username (chat_clients (joined conn username s))
     = Some (mk_client_info conn "Online")
  /\ (forall other,
        other <> username ->
        Py.get other (chat_clients (joined conn username s))
        = Py.get other (chat_clients s))
  /\ roster_of (chat_clients (joined conn username s))
     = (roster_of (chat_clients s) ++ [(username, "Online")])%list
  /\ received_by conn (io (joined conn username s))
     = (received_by conn (io s)
        ++ "OK" :: user_list_of (chat_clients (joined conn username s))
           :: start_notice (current_presenter_username s))%list.
Proof.
  intros Hl Ha Hne Hm.
  split; [now apply handshake_accepted|].
  split; [apply get_set_same|].
  split; [intros other Ho; now apply get_set_other|].
  split; [exact (roster_set_fresh _ _ _ Hm)|].
  unfold joined. cbn [io chat_clients].
  rewrite received_by_delivered. f_equal.
  rewrite !filter_app, copies_skip_sender.
  cbn [filter fst]. rewrite Nat.eqb_refl. cbn [List.app map snd]. do 2 f_equal.
  induction (start_notice (current_presenter_username s)) as [|m l IH];
    [reflexivity|].
  cbn [map filter fst]. rewrite Nat.eqb_refl. cbn [map snd]. now rewrite IH.
Qed.

(** dave joins carol, alice and bob while alice presents. *)
Lemma dave_joins_while_alice_presents :
  chat_handshake 4 "dave" carol_alice_bob
  = (Returns EntersLoop, joined 4 "dave" carol_alice_bob)
  /\ received_by 4 (io (joined 4 "dave" carol_alice_bob))
     = ["OK";
        "USER_LIST:carol=Online,alice=Away,bob=Online,dave=Online";
        "SCREEN_START:alice"].
Proof.
  destruct (accepted_handshake_registers_and_greets carol_alice_bob 4 "dave"
              eq_refl eq_refl ltac:(discriminate) eq_refl)
    as (H1 & _ & _ & _ & H2).
  split; [exact H1|exact H2].
Defined.

(** X2.  The [finally] block of a handler whose username is set, with
    [chat_lock] free: the user's entry is deleted (no other entry
    changes), the slot is cleared when it names the user, [USER_LEAVE:] is
    sent to the live sockets that stay registered when there was an entry,
    [SCREEN_STOP] when the user held the slot, and the socket is closed. *)
Theorem teardown_unregisters_and_announces
    (s : state) (conn : conn) (username : string) :
  chat_lock s = false ->
  username <> "" ->
  chat_finally conn (Some username) s = (Returns tt, departed conn username s)
  /\ (NoDup (Py.keys (chat_clients s)) ->
      Py.mem username (chat_clients (departed conn username s)) = false)
  /\ (forall other,
        other <> username ->
        Py.get other (chat_clients (departed conn username s))
        = Py.get other (chat_clients s))
  /\ current_presenter_username (departed conn username s) <> Some username
  /\ is_in conn (closed (io (departed conn username s))) = true.
Proof.
  intros Hl Hne. split; [now apply finally_free|].
  unfold departed, unregistered.
  cbn [chat_clients current_presenter_username io closing closed].
  split; [|split; [|split]].
  - intros Hnd. destruct (Py.mem username (chat_clients s)) eqn:Hm;
      [now apply mem_del_nodup|exact Hm].
  - intros other Ho.
    destruct (Py.mem username (chat_clients s)); [|reflexivity].
    now apply get_del_other.
  - destruct (current_presenter_username s) as [p|] eqn:Hp; [|discriminate].
    destruct (is_presenter username (Some p)) eqn:Hq; [discriminate|].
    apply is_presenter_false in Hq. congruence.
  - cbn. now rewrite Nat.eqb_refl.
Qed.

(** alice, who presents, leaves carol and bob. *)
Lemma alice_leaves_while_presenting :
  chat_finally 1 (Some "alice") carol_alice_bob
  = (Returns tt, departed 1 "alice" carol_alice_bob)
  /\ roster_of (chat_clients (departed 1 "alice" carol_alice_bob))
     = [("carol", "Online"); ("bob", "Online")]
  /\ current_presenter_username (departed 1 "alice" carol_alice_bob) = None
  /\ received_by 2 (io (departed 1 "alice" carol_alice_bob))
     = ["USER_LEAVE:alice"; "SCREEN_STOP"].
Proof.
  split; [|repeat split].
  exact (proj1 (teardown_unregisters_and_announces carol_alice_bob 1 "alice"
                  eq_refl ltac:(discriminate))).
Defined.

(** X3.  A session that joins and leaves at once gives the registry and
    the slot back as they were: the handler registers the user, finds the
    end of the stream at its first read, and its [finally] block deletes
    the entry again and closes the socket. *)
Theorem join_then_leave_restores_registry
    (s : state) (conn : conn) (username : string)
    (inbox : list (string * string)) :
  chat_lock s = false ->
  alive conn (io s) = true ->
  username <> "" ->
  Py.mem username (chat_clients s) = false ->
  is_presenter username (current_presenter_username s) = false ->
  ends_at_once inbox ->
  handle_chat_client conn username inbox s
  = (Returns tt, departed conn username (joined conn username s))
  /\ chat_clients (departed conn username (joined conn username s))
     = chat_clients s
  /\ current_presenter_username (departed conn username (joined conn username s))
     = current_presenter_username s.
Proof.
  intros Hl Ha Hne Hm Hp Hin. split; [|split].
  - unfold handle_chat_client.
    erewrite bind_returns with (a := tt) (s' := joined conn username s).
    + unfold local_username.
      apply String.eqb_neq in Hne. rewrite Hne. apply String.eqb_neq in Hne.
      now apply finally_free.
    + unfold try_except.
      rewrite (bind_returns _ _ _ _ _ (handshake_accepted s conn username
                                          Hl Ha Hne Hm)).
      destruct inbox as [|[timestamp message_str] rest]; [reflexivity|].
      cbn in Hin. subst message_str. reflexivity.
  - unfold departed, unregistered, joined. cbn [chat_clients].
    unfold Py.mem. rewrite get_set_same. now apply del_set_fresh.
  - unfold departed, unregistered, joined.
    cbn [current_presenter_username]. now rewrite Hp.
Qed.

(** dave connects to carol, alice and bob and hangs up. *)
Lemma dave_drops_in :
  handle_chat_client 4 "dave" [] carol_alice_bob
  = (Returns tt, departed 4 "dave" (joined 4 "dave" carol_alice_bob))
  /\ chat_clients (departed 4 "dave" (joined 4 "dave" carol_alice_bob))
     = chat_clients carol_alice_bob.
Proof.
  destruct (join_then_leave_restores_registry carol_alice_bob 4 "dave" []
              eq_refl eq_refl ltac:(discriminate) eq_refl eq_refl I)
    as (H1 & H2 & _).
  split; [exact H1|exact H2].
Defined.

End SessionLife.

(** ** Private and public messages *)

Section Messages.
Import Chat Session.

Lemma cut_app (c : ascii) (t rest : string) :
  free_of c t -> Py.cut c (t ++ String c rest) = Some (t, rest).
Proof.
  unfold free_of. induction t as [|a t IH]; cbn.
  - now rewrite Ascii.eqb_refl.
  - destruct (Ascii.eqb a c); [discriminate|].
    destruct (Py.cut c t) as [[x y]|]; [discriminate|].
    intros _. now rewrite IH.
Qed.

Lemma pm_split (target content : string) :
  free_of ":" target ->
  Py.split ":" 2 ("PM:" ++ target ++ ":" ++ content) = ["PM"; target; content].
Proof.
  intros H. cbn. now rewrite (cut_app _ _ _ H).
Qed.


Lemma pm_dispatch (conn : conn) (username timestamp rest : string) :
  chat_dispatch conn username timestamp ("PM:" ++ rest)
  = on_pm conn username timestamp ("PM:" ++ rest).
Proof. reflexivity. Qed.

(** The critical section of the [PM:] branch looks the target up. *)
Lemma pm_lookup (target_user : string) (s : state) :
  chat_lock s = false ->
  with_chat_lock (clients <- gets chat_clients ;;
                  ret (option_map ci_conn (Py.get target_user clients))) s
  = (Returns (option_map ci_conn (Py.get target_user (chat_clients s))), s).
Proof.
  intros Hl. unfold with_chat_lock. rewrite Hl, bind_gets. unfold ret.
  cbn [chat_clients with_lock_flag]. now rewrite (unlock_lock _ Hl).
Qed.

(** X4.  A private message [PM:<target>:<content>] from a live socket,
    with [chat_lock] free: when the target is registered on a live socket
    it is sent [<time> PM_FROM:<sender>:<content>] and the sender is sent
    the echo [<time> PM_TO:<target>:<content>]; when the target is not
    registered the sender is told so.  Nothing else is sent, and the
    registry and the slot stay as they are. *)
Theorem private_message_is_passed_on_and_echoed
    (s : state) (conn : conn) (username timestamp target content : string) :
  chat_lock s = false ->
  alive conn (io s) = true ->
  free_of ":" target ->
  (forall info,
     Py.get target (chat_clients s) = Some info ->
     alive (ci_conn info) (io s) = true ->
     chat_dispatch conn username timestamp
                   ("PM:" ++ target ++ ":" ++ content) s
     = (Returns tt,
        pm_delivered conn (ci_conn info) username timestamp target content s))
  /\ (Py.get target (chat_clients s) = None ->
      chat_dispatch conn username timestamp
                    ("PM:" ++ target ++ ":" ++ content) s
      = (Returns tt,
         noticed conn (timestamp ++ " SYSTEM:User '" ++ target
                       ++ "' not found or offline.") s)).
Proof.
  intros Hl Ha Hf. split.
  - intros info Hg Hat. rewrite pm_dispatch. unfold on_pm.
    rewrite (pm_split _ _ Hf).
    rewrite (try_bind_returns _ _ _ _ _ _ (pm_lookup target s Hl)).
    rewrite Hg. cbn [option_map]. unfold try_except.
    rewrite bind_sendall_alive by exact Hat.
    rewrite sendall_alive by exact Ha.
    unfold pm_delivered. cbn [with_io io chat_clients
                              current_presenter_username chat_lock].
    now rewrite delivered_app.
  - intros Hg. rewrite pm_dispatch. unfold on_pm.
    rewrite (pm_split _ _ Hf).
    rewrite (try_bind_returns _ _ _ _ _ _ (pm_lookup target s Hl)).
    rewrite Hg. cbn [option_map]. unfold try_except.
    now rewrite sendall_alive by exact Ha.
Qed.

(** carol writes to bob, and to dave, who is not there. *)
Lemma carol_writes_to_bob_and_dave :
  chat_dispatch 3 "carol" "12:00:00" "PM:bob:hello: there" carol_alice_bob
  = (Returns tt,
     pm_delivered 3 2 "carol" "12:00:00" "bob" "hello: there" carol_alice_bob)
  /\ chat_dispatch 3 "carol" "12:00:00" "PM:dave:hello" carol_alice_bob
     = (Returns tt,
        noticed 3 "12:00:00 SYSTEM:User 'dave' not found or offline."
                carol_alice_bob).
Proof.
  split.
  - exact (proj1 (private_message_is_passed_on_and_echoed carol_alice_bob 3
                    "carol" "12:00:00" "bob" "hello: there"
                    eq_refl eq_refl eq_refl)
                 (mk_client_info 2 "Online") eq_refl eq_refl).
  - exact (proj2 (private_message_is_passed_on_and_echoed carol_alice_bob 3
                    "carol" "12:00:00" "dave" "hello"
                    eq_refl eq_refl eq_refl)
                 eq_refl).
Defined.





(** X7.  [STOP_SHARING] from a user who does not hold the slot changes
    nothing.  From the user who holds it, with [chat_lock] free, the slot
    is cleared and the handler then blocks for ever on [chat_lock], which
    it holds itself: [SCREEN_STOP] is sent to nobody. *)
Theorem stop_sharing_clears_slot_and_blocks
    (s : state) (conn : conn) (username timestamp : string) :
  chat_lock s = false ->
  (is_presenter username (current_presenter_username s) = false ->
   chat_dispatch conn username timestamp "STOP_SHARING" s = (Returns tt, s))
  /\ (is_presenter username (current_presenter_username s) = true ->
      chat_dispatch conn username timestamp "STOP_SHARING" s
      = (Blocks, stopped_and_stuck s)).
Proof.
  intros Hl.
  change (chat_dispatch conn username timestamp "STOP_SHARING")
    with (on_stop_sharing username).
  unfold on_stop_sharing, with_chat_lock. rewrite Hl, bind_gets.
  cbn [current_presenter_username with_lock_flag].
  split; intros Hp; rewrite Hp.
  - unfold ret. now rewrite (unlock_lock _ Hl).
  - rewrite bind_modify, broadcast_chat_held by reflexivity. reflexivity.
Qed.

(** alice, who presents, stops sharing; bob, who does not, tries to. *)
Lemma alice_stops_sharing :
  chat_dispatch 2 "bob" "12:00:00" "STOP_SHARING" carol_alice_bob
  = (Returns tt, carol_alice_bob)
  /\ chat_dispatch 1 "alice" "12:00:00" "STOP_SHARING" carol_alice_bob
     = (Blocks, stopped_and_stuck carol_alice_bob).
Proof.
  split.
  - exact (proj1 (stop_sharing_clears_slot_and_blocks carol_alice_bob 2 "bob"
                    "12:00:00" eq_refl) eq_refl).
  - exact (proj2 (stop_sharing_clears_slot_and_blocks carol_alice_bob 1
                    "alice" "12:00:00" eq_refl) eq_refl).
Defined.

End Messages.

(** ** What every run of the chat server keeps *)

Section RegistryInvariant.
Import Chat Session.

Variable P : Py.dict client_info -> Prop.
Hypothesis P_register :
  forall u c d, u <> "" -> P d -> P (Py.set u (mk_client_info c "Online") d).
Hypothesis P_status :
  forall u received d, P d -> P (set_status u (coerce_status received) d).
Hypothesis P_delete : forall u d, P d -> P (Py.del u d).

Lemma ro_on_registry : registry_only (on_registry P).
Proof. intros s s' Hc _. unfold on_registry. now rewrite Hc. Qed.

Lemma keeps_registry_handshake (conn : conn) (username_bytes : string) :
  keeps (on_registry P) (chat_handshake conn username_bytes).
Proof.
  pose proof ro_on_registry as Hro.
  unfold chat_handshake.
  destruct (String.eqb_spec username_bytes "") as [|Hne]; [apply keeps_ret|].
  apply keeps_bind.
  - apply keeps_ro_lock; [exact Hro|].
    apply keeps_bind; [apply keeps_gets|]. intros clients.
    destruct (_ || _).
    + apply keeps_bind.
      * apply keeps_try_except; [now apply keeps_ro_sendall|].
        intros; apply keeps_ret.
      * intros _. apply keeps_bind; [now apply keeps_ro_close|].
        intros; apply keeps_ret.
    + apply keeps_bind.
      * apply keeps_try_except.
        -- apply keeps_bind; [now apply keeps_ro_sendall|].
           intros; apply keeps_ret.
        -- intros _. apply keeps_bind; [now apply keeps_ro_close|].
           intros; apply keeps_ret.
      * intros [|]; [|apply keeps_ret].
        apply keeps_bind; [|intros; apply keeps_ret].
        apply keeps_modify. intros s H. now apply P_register.
  - intros [|]; [|apply keeps_ret].
    apply keeps_bind.
    { unfold get_user_list_string.
      apply keeps_ro_lock; [exact Hro|apply keeps_gets]. }
    intros l. apply keeps_bind; [now apply keeps_ro_sendall|].
    intros _. apply keeps_bind; [now apply keeps_ro_broadcast|].
    intros _. apply keeps_bind; [|intros; apply keeps_ret].
    apply keeps_ro_lock; [exact Hro|].
    apply keeps_bind; [apply keeps_gets|]. intros [presenter|];
      [|apply keeps_ret].
    destruct (presenter =? ""); [apply keeps_ret|now apply keeps_ro_sendall].
Qed.

Lemma keeps_registry_grant (conn : conn) (username : string) :
  keeps (on_registry P)
        (modify (with_presenter (Some username)) ;;
         sendall conn "OK_TO_PRESENT" ;;
         broadcast_chat ("SCREEN_START:" ++ username) (Some conn)).
Proof.
  pose proof ro_on_registry as Hro.
  apply keeps_bind; [apply keeps_modify; now intros s H|].
  intros _. apply keeps_bind; [now apply keeps_ro_sendall|].
  intros _. now apply keeps_ro_broadcast.
Qed.

Lemma keeps_registry_dispatch
    (conn : conn) (username timestamp message_str : string) :
  keeps (on_registry P) (chat_dispatch conn username timestamp message_str).
Proof.
  pose proof ro_on_registry as Hro.
  unfold chat_dispatch.
  destruct (Py.startswith "SET_STATUS:" message_str).
  { unfold on_set_status.
    apply keeps_try_except; [|intros; apply keeps_ret].
    destruct (Py.split ":" 1 message_str) as [|a [|b [|c l]]];
      try apply keeps_raise.
    apply keeps_bind; [|intros; now apply keeps_ro_broadcast].
    apply keeps_ro_lock; [exact Hro|].
    apply keeps_modify. intros s H. now apply P_status. }
  destruct (Py.startswith "PM:" message_str).
  { unfold on_pm.
    apply keeps_try_except; [|intros; now apply keeps_ro_sendall].
    destruct (Py.split ":" 2 message_str) as [|a [|b [|c [|d l]]]];
      try apply keeps_raise.
    apply keeps_bind.
    - apply keeps_ro_lock; [exact Hro|].
      apply keeps_bind; [apply keeps_gets|intros; apply keeps_ret].
    - intros [tc|]; [|now apply keeps_ro_sendall].
      apply keeps_bind; intros; now apply keeps_ro_sendall. }
  destruct (message_str =? "REQUEST_TO_PRESENT").
  { unfold on_request_to_present. apply keeps_ro_lock; [exact Hro|].
    apply keeps_bind; [apply keeps_gets|]. intros [presenter|].
    - apply keeps_bind; [apply keeps_gets|]. intros clients.
      destruct (Py.get presenter clients);
        [now apply keeps_ro_sendall|apply keeps_registry_grant].
    - apply keeps_registry_grant. }
  destruct (Py.startswith "PRESENT_RESPONSE:" message_str).
  { unfold on_present_response.
    apply keeps_try_except; [|intros; apply keeps_ret].
    destruct (Py.split ":" 2 message_str)
      as [|a [|response [|requester [|d l]]]];
      try apply keeps_raise.
    apply keeps_ro_lock; [exact Hro|].
    apply keeps_bind; [apply keeps_gets|]. intros p.
    destruct (negb (is_presenter username p)); [apply keeps_ret|].
    apply keeps_bind; [apply keeps_gets|]. intros clients.
    destruct (Py.get requester clients) as [info|]; [|apply keeps_ret].
    destruct (response =? "Yes"); [|now apply keeps_ro_sendall].
    apply keeps_bind; [now apply keeps_ro_sendall|]. intros _.
    apply keeps_bind; [now apply keeps_ro_sendall|]. intros _.
    apply keeps_bind; [apply keeps_modify; now intros s H|].
    intros _. now apply keeps_ro_broadcast. }
  destruct (message_str =? "STOP_SHARING").
  { unfold on_stop_sharing. apply keeps_ro_lock; [exact Hro|].
    apply keeps_bind; [apply keeps_gets|]. intros p.
    destruct (is_presenter username p); [|apply keeps_ret].
    apply keeps_bind; [apply keeps_modify; now intros s H|].
    intros _. now apply keeps_ro_broadcast. }
  now apply keeps_ro_broadcast.
Qed.

Lemma keeps_registry_finally (conn : conn) (username : option string) :
  keeps (on_registry P) (chat_finally conn username).
Proof.
  pose proof ro_on_registry as Hro.
  unfold chat_finally. apply keeps_bind.
  - destruct username as [username|]; [|apply keeps_ret].
    destruct (username =? ""); [apply keeps_ret|].
    apply keeps_bind.
    + unfold unregister. apply keeps_ro_lock; [exact Hro|].
      apply keeps_bind; [apply keeps_gets|]. intros clients.
      apply keeps_bind.
      * destruct (Py.mem username clients); [|apply keeps_ret].
        apply keeps_bind; [|intros; apply keeps_ret].
        apply keeps_modify. intros s H. now apply P_delete.
      * intros removed. apply keeps_bind; [apply keeps_gets|]. intros p.
        destruct (is_presenter username p); [|apply keeps_ret].
        apply keeps_bind; [|intros; apply keeps_ret].
        apply keeps_modify. now intros s H.
    + intros flags. apply keeps_bind.
      * destruct (fst flags); [now apply keeps_ro_broadcast|apply keeps_ret].
      * intros _.
        destruct (snd flags); [now apply keeps_ro_broadcast|apply keeps_ret].
  - intros _. apply keeps_try_except; [now apply keeps_ro_close|].
    intros; apply keeps_ret.
Qed.

Lemma step_keeps_registry (ev : event) (sv : server) :
  on_registry P (shared sv) -> on_registry P (shared (step ev sv)).
Proof.
  intros H. destruct ev as [c username_bytes|c timestamp message_bytes]; cbn.
  - destruct (loop_of c (loops sv)); [exact H|].
    pose proof (keeps_registry_handshake c username_bytes _ H) as Hh.
    destruct (chat_handshake c username_bytes (shared sv)) as [[[|]|e|] s'];
      cbn in *; try exact Hh; now apply keeps_registry_finally.
  - destruct (loop_of c (loops sv)) as [username|]; [|exact H].
    destruct (message_bytes =? "").
    + cbn. now apply keeps_registry_finally.
    + pose proof (keeps_registry_dispatch c username timestamp message_bytes
                    _ H) as Hd.
      destruct (chat_dispatch c username timestamp message_bytes (shared sv))
        as [[[]|e|] s']; cbn in *; try exact Hd.
      now apply keeps_registry_finally.
Qed.

Lemma run_keeps_registry (evs : list event) (sv : server) :
  on_registry P (shared sv) -> on_registry P (shared (run evs sv)).
Proof.
  revert sv. induction evs as [|ev evs IH]; intros sv H; [exact H|].
  cbn. apply IH. now apply step_keeps_registry.
Qed.

End RegistryInvariant.

Section Runs.
Import Chat Session.

Lemma values_set {V} (Q : V -> Prop) (k : string) (v : V) (d : Py.dict V) :
  Q v -> Forall Q (Py.values d) -> Forall Q (Py.values (Py.set k v d)).
Proof.
  intros Hv. unfold Py.values.
  induction d as [|[k0 v0] d IH]; cbn; intros H.
  - now constructor.
  - inversion H; subst. destruct (String.eqb k k0); cbn; constructor; auto.
Qed.

Lemma values_del {V} (Q : V -> Prop) (k : string) (d : Py.dict V) :
  Forall Q (Py.values d) -> Forall Q (Py.values (Py.del k d)).
Proof.
  unfold Py.values.
  induction d as [|[k0 v0] d IH]; cbn; intros H; [exact H|].
  inversion H; subst. destruct (String.eqb k k0); cbn; auto.
Qed.

Lemma mem_del_absent {V} (k u : string) (d : Py.dict V) :
  Py.mem k d = false -> Py.mem k (Py.del u d) = false.
Proof.
  unfold Py.mem. induction d as [|[k0 v0] d IH]; cbn; [reflexivity|].
  destruct (String.eqb k k0) eqn:Hk; [discriminate|].
  intros H. destruct (String.eqb u k0); [exact H|].
  cbn. rewrite Hk. now apply IH.
Qed.

(** X8.  In every state the server reaches from its start, whatever the
    sockets send and however their handlers interleave, every registered
    user's status is [Online] or [Away], and nobody is registered under
    the empty username. *)
Theorem registry_is_well_formed_in_every_run (evs : list event) :
  statuses_valid (shared (run evs boot))
  /\ Py.mem "" (chat_clients (shared (run evs boot))) = false.
Proof.
  split.
  - apply (run_keeps_registry
             (fun d => Forall (fun info => ci_status info = "Online"
                                           \/ ci_status info = "Away")
                              (Py.values d))).
    + intros u c d _ H. apply values_set; [now left|exact H].
    + intros u received d H. unfold set_status.
      destruct (Py.get u d); [|exact H].
      apply values_set; [apply coerce_status_domain|exact H].
    + intros u d H. now apply values_del.
    + constructor.
  - apply (run_keeps_registry (fun d => Py.mem "" d = false)).
    + intros u c d Hne H. unfold Py.mem in *.
      rewrite get_set_other; [exact H|congruence].
    + intros u received d H. now rewrite mem_set_status.
    + intros u d H. now apply mem_del_absent.
    + reflexivity.
Qed.

Lemma frozen_as_refl (s : state) : chat_lock s = true -> frozen_as s s.
Proof. intros H. now repeat split. Qed.

Lemma frozen_as_trans (s0 s s' : state) :
  frozen_as s0 s -> frozen_as s s' -> frozen_as s0 s'.
Proof.
  intros (H1 & H2 & H3) (H4 & H5 & H6). repeat split; congruence.
Qed.

Lemma finally_held (conn : conn) (username : option string) (s : state) :
  chat_lock s = true -> frozen_as s (snd (chat_finally conn username s)).
Proof.
  intros Hl. destruct username as [username|].
  - destruct (String.eqb_spec username "") as [->|Hne].
    + now repeat split.
    + rewrite held_lock_freezes_finally by assumption.
      now apply frozen_as_refl.
  - now repeat split.
Qed.

Lemma dispatch_held (conn : conn) (username timestamp message_str : string)
    (s : state) :
  chat_lock s = true ->
  frozen_as s (snd (chat_dispatch conn username timestamp message_str s)).
Proof.
  intros Hl.
  destruct (held_lock_freezes_dispatch conn username timestamp message_str s Hl)
    as [-> | ->]; now repeat split.
Qed.

Lemma drop_loop_incl (c : conn) (l : list (conn * string)) :
  incl (drop_loop c l) l.
Proof. intros x Hx. unfold drop_loop in Hx. now apply filter_In in Hx. Qed.

Lemma step_held (ev : event) (sv : server) :
  chat_lock (shared sv) = true ->
  frozen_as (shared sv) (shared (step ev sv))
  /\ incl (loops (step ev sv)) (loops sv).
Proof.
  intros Hl. destruct ev as [c username_bytes|c timestamp message_bytes]; cbn.
  - destruct (loop_of c (loops sv));
      [split; [now apply frozen_as_refl|apply incl_refl]|].
    destruct (String.eqb_spec username_bytes "") as [->|Hne].
    + cbn. split; [now repeat split|apply drop_loop_incl].
    + rewrite held_lock_freezes_handshake by assumption. cbn.
      split; [now apply frozen_as_refl|apply incl_refl].
  - destruct (loop_of c (loops sv)) as [username|];
      [|split; [now apply frozen_as_refl|apply incl_refl]].
    destruct (message_bytes =? "").
    + cbn. split; [now apply finally_held|apply drop_loop_incl].
    + pose proof (dispatch_held c username timestamp message_bytes _ Hl) as Hd.
      destruct (chat_dispatch c username timestamp message_bytes (shared sv))
        as [[[]|e|] s']; cbn in *.
      * split; [exact Hd|apply incl_refl].
      * split; [|apply drop_loop_incl].
        apply (frozen_as_trans _ s'); [exact Hd|].
        apply finally_held, Hd.
      * split; [exact Hd|apply drop_loop_incl].
Qed.

(** X9.  Once a handler is stuck holding [chat_lock] the chat server is
    frozen for good: whatever the sockets send from then on, the lock
    stays held, the registry and the presenter slot never change (nobody
    joins, nobody is unregistered), and no new handler reaches its command
    loop. *)
Theorem held_lock_freezes_every_run (evs : list event) (sv : server) :
  chat_lock (shared sv) = true ->
  frozen_as (shared sv) (shared (run evs sv))
  /\ incl (loops (run evs sv)) (loops sv).
Proof.
  revert sv. induction evs as [|ev evs IH]; intros sv Hl.
  - split; [now apply frozen_as_refl|apply incl_refl].
  - destruct (step_held ev sv Hl) as [Hf Hi].
    destruct (IH (step ev sv) (proj1 Hf)) as [Hf' Hi'].
    cbn. split.
    + now apply (frozen_as_trans _ (shared (step ev sv))).
    + intros x Hx. now apply Hi, Hi'.
Qed.

(** After alice's request got her handler stuck, carol tries to join and
    bob talks and hangs up: nothing of it shows in the registry. *)
Lemma nobody_joins_or_leaves_a_stuck_server :
  chat_lock (shared stuck_server) = true
  /\ frozen_as (shared stuck_server)
       (shared (run [Accept 3 "carol"; Recv 2 "12:00:01" "hi";
                     Recv 2 "12:00:02" ""] stuck_server)).
Proof.
  split; [reflexivity|].
  exact (proj1 (held_lock_freezes_every_run
                  [Accept 3 "carol"; Recv 2 "12:00:01" "hi";
                   Recv 2 "12:00:02" ""] stuck_server eq_refl)).
Defined.

(** X10.  The presenter-slot invariant (a non-empty slot names a
    registered user) is kept by the handshake of any socket, by the
    [finally] block of any handler, and by every command of a sender who
    is registered, however the operation ends. *)
Theorem slot_invariant_kept_for_registered_senders :
  (forall conn username_bytes s,
     slot_registered s ->
     slot_registered (snd (chat_handshake conn username_bytes s)))
  /\ (forall conn username s,
        slot_registered s ->
        slot_registered (snd (chat_finally conn username s)))
  /\ (forall conn username timestamp message_str s,
        Py.mem username (chat_clients s) = true ->
        slot_registered s ->
        slot_registered
          (snd (chat_dispatch conn username timestamp message_str s))).
Proof.
  split; [|split].
  - intros conn username_bytes. apply handshake_keeps_slot_registered.
  - intros conn username. apply finally_keeps_slot_registered.
  - intros conn username timestamp message_str s.
    apply dispatch_keeps_slot_registered.
Qed.

(** alice, who presents, hands over to bob, leaves, or stops sharing: the
    slot names a registered user, or nobody, afterwards. *)
Lemma slot_stays_registered_around_alice :
  slot_registered carol_alice_bob
  /\ slot_registered
       (snd (chat_dispatch 1 "alice" "12:00:00" "PRESENT_RESPONSE:Yes:bob"
               carol_alice_bob))
  /\ slot_registered (snd (chat_finally 1 (Some "alice") carol_alice_bob))
  /\ slot_registered (snd (chat_handshake 4 "alice" carol_alice_bob)).
Proof.
  pose proof slot_invariant_kept_for_registered_senders as (H1 & H2 & H3).
  assert (H0 : slot_registered carol_alice_bob) by reflexivity.
  split; [exact H0|]. split; [|split].
  - exact (H3 1 "alice" "12:00:00" "PRESENT_RESPONSE:Yes:bob" carol_alice_bob
              eq_refl H0).
  - exact (H2 1 (Some "alice") carol_alice_bob H0).
  - exact (H1 4 "alice" carol_alice_bob H0).
Defined.

End Runs.

(** ** The slot while the lock is free *)

Section FreeLock.
Import Chat Session.

Lemma ro_slot_empty : registry_only slot_empty.
Proof. intros s s' _ Hp H. unfold slot_empty in *. now rewrite Hp. Qed.

Ltac keeps_empty :=
  repeat first
    [ apply keeps_ret | apply keeps_raise | apply keeps_gets
    | apply (keeps_ro_sendall _ ro_slot_empty)
    | apply (keeps_ro_close _ ro_slot_empty)
    | apply (keeps_ro_broadcast _ ro_slot_empty)
    | apply (keeps_ro_lock _ ro_slot_empty)
    | apply keeps_try_except
    | apply keeps_bind
    | apply keeps_modify; now intros ? ?
    | intro ].

(** A handshake writes no slot. *)
Lemma keeps_empty_handshake (conn : conn) (username_bytes : string) :
  keeps slot_empty (chat_handshake conn username_bytes).
Proof.
  unfold chat_handshake.
  destruct (String.eqb_spec username_bytes "") as [|Hne]; [apply keeps_ret|].
  apply keeps_bind.
  - apply (keeps_ro_lock _ ro_slot_empty).
    apply keeps_bind; [apply keeps_gets|]. intros clients.
    destruct (_ || _); [keeps_empty|].
    apply keeps_bind; [keeps_empty|].
    intros [|]; keeps_empty.
  - intros [|]; [|apply keeps_ret].
    unfold get_user_list_string.
    apply keeps_bind; [keeps_empty|]. intros l.
    apply keeps_bind; [keeps_empty|]. intros _.
    apply keeps_bind; [keeps_empty|]. intros _.
    apply keeps_bind; [|keeps_empty].
    apply (keeps_ro_lock _ ro_slot_empty).
    apply keeps_bind; [apply keeps_gets|]. intros [presenter|];
      [|apply keeps_ret].
    destruct (presenter =? ""); keeps_empty.
Qed.

(** The [finally] block only ever clears the slot. *)
Lemma keeps_empty_finally (conn : conn) (username : option string) :
  keeps slot_empty (chat_finally conn username).
Proof.
  unfold chat_finally. apply keeps_bind; [|keeps_empty].
  destruct username as [username|]; [|apply keeps_ret].
  destruct (username =? ""); [apply keeps_ret|].
  apply keeps_bind.
  - unfold unregister. apply (keeps_ro_lock _ ro_slot_empty).
    apply keeps_bind; [apply keeps_gets|]. intros clients.
    apply keeps_bind.
    + destruct (Py.mem username clients); keeps_empty.
    + intros removed. apply keeps_bind; [apply keeps_gets|]. intros p.
      destruct (is_presenter username p); [|apply keeps_ret].
      apply keeps_bind; [|keeps_empty].
      apply keeps_modify. now intros s H.
  - intros flags. apply keeps_bind.
    + destruct (fst flags); keeps_empty.
    + intros _. destruct (snd flags); keeps_empty.
Qed.

(** While nobody presents, only [REQUEST_TO_PRESENT] sets the slot: an
    answer and a [STOP_SHARING] do not pass their guard. *)
Lemma keeps_empty_dispatch
    (conn : conn) (username timestamp message_str : string) :
  message_str <> "REQUEST_TO_PRESENT" ->
  keeps slot_empty (chat_dispatch conn username timestamp message_str).
Proof.
  intros Hm. apply String.eqb_neq in Hm.
  unfold chat_dispatch.
  destruct (Py.startswith "SET_STATUS:" message_str).
  { unfold on_set_status.
    apply keeps_try_except; [|keeps_empty].
    destruct (Py.split ":" 1 message_str) as [|a [|b [|c l]]];
      keeps_empty. }
  destruct (Py.startswith "PM:" message_str).
  { unfold on_pm.
    apply keeps_try_except; [|keeps_empty].
    destruct (Py.split ":" 2 message_str) as [|a [|b [|c [|d l]]]];
      try apply keeps_raise.
    apply keeps_bind; [keeps_empty|].
    intros [tc|]; keeps_empty. }
  rewrite Hm.
  destruct (Py.startswith "PRESENT_RESPONSE:" message_str).
  { unfold on_present_response.
    apply keeps_try_except; [|keeps_empty].
    destruct (Py.split ":" 2 message_str)
      as [|a [|response [|requester [|d l]]]];
      try apply keeps_raise.
    apply (keeps_ro_lock _ ro_slot_empty).
    apply keeps_bind_gets. intros s Hs.
    unfold slot_empty in Hs. rewrite Hs. exact Hs. }
  destruct (message_str =? "STOP_SHARING").
  { unfold on_stop_sharing. apply (keeps_ro_lock _ ro_slot_empty).
    apply keeps_bind_gets. intros s Hs.
    unfold slot_empty in Hs. rewrite Hs. exact Hs. }
  keeps_empty.
Qed.

(** [REQUEST_TO_PRESENT] while the lock is free and nobody presents: the
    handler ends up stuck with the lock, or, when its own socket is dead,
    it leaves by the exception of [sendall] and its [finally] block clears
    the slot it has just set. *)
Lemma request_holds_or_clears
    (conn : conn) (username timestamp : string) (s : state) :
  chat_lock s = false -> slot_empty s -> username <> "" ->
  match chat_dispatch conn username timestamp "REQUEST_TO_PRESENT" s with
  | (Returns _, s') => slot_empty s'
  | (Raises _, s') => slot_empty (snd (chat_finally conn (Some username) s'))
  | (Blocks, s') => chat_lock s' = true
  end.
Proof.
  intros Hl Hs Hne. rewrite request_dispatch.
  unfold on_request_to_present, with_chat_lock. rewrite Hl, bind_gets.
  cbn [current_presenter_username with_lock_flag].
  unfold slot_empty in Hs. rewrite Hs.
  destruct (alive conn (io s)) eqn:Ha.
  - rewrite grant_blocks by exact Ha. reflexivity.
  - unfold bind at 1, modify. unfold bind at 1.
    destruct (sendall_dead conn "OK_TO_PRESENT"
                (with_presenter (Some username) (with_lock_flag true s)) Ha)
      as [e He].
    rewrite He. rewrite finally_free; [|reflexivity|exact Hne].
    unfold slot_empty, departed, unregistered.
    cbn [snd current_presenter_username with_presenter with_lock_flag
         is_presenter].
    now rewrite String.eqb_refl.
Qed.

Lemma loop_of_in (c : conn) (username : string) (l : list (conn * string)) :
  loop_of c l = Some username -> exists c', In (c', username) l.
Proof.
  unfold loop_of.
  destruct (find (fun e => Nat.eqb c (fst e)) l) as [[c' u]|] eqn:Hf;
    [|discriminate].
  intros [= <-]. exists c'. now apply find_some in Hf.
Qed.

Lemma drop_loop_named (c : conn) (l : list (conn * string)) :
  all_named l -> all_named (drop_loop c l).
Proof.
  unfold all_named. rewrite !Forall_forall. intros H x Hx.
  apply H. now apply drop_loop_incl in Hx.
Qed.

Lemma step_held_or_empty (ev : event) (sv : server) :
  held_or_empty (shared sv) -> all_named (loops sv) ->
  held_or_empty (shared (step ev sv)) /\ all_named (loops (step ev sv)).
Proof.
  intros [Hl|Hs] Hn.
  { destruct (step_held ev sv Hl) as [(Hl' & _) Hincl]. split.
    - now left.
    - unfold all_named in *. rewrite Forall_forall in *.
      intros x Hx. now apply Hn, Hincl. }
  destruct ev as [c username_bytes|c timestamp message_bytes]; cbn.
  - destruct (loop_of c (loops sv)); [split; [now right|exact Hn]|].
    pose proof (keeps_empty_handshake c username_bytes _ Hs) as Hh.
    destruct (String.eqb_spec username_bytes "") as [->|Hne].
    { cbn. split; [now right|now apply drop_loop_named]. }
    destruct (chat_handshake c username_bytes (shared sv)) as [[[|]|e|] s'];
      cbn in *.
    + split; [now right|]. unfold all_named in *.
      apply Forall_app. split; [exact Hn|]. now repeat constructor.
    + split; [right; now apply keeps_empty_finally
             |now apply drop_loop_named].
    + split; [right; now apply keeps_empty_finally
             |now apply drop_loop_named].
    + split; [now right|exact Hn].
  - destruct (loop_of c (loops sv)) as [username|] eqn:Hloop;
      [|split; [now right|exact Hn]].
    assert (Hne : username <> "").
    { destruct (loop_of_in _ _ _ Hloop) as [c' Hin].
      unfold all_named in Hn. rewrite Forall_forall in Hn.
      exact (Hn _ Hin). }
    destruct (String.eqb_spec message_bytes "") as [->|Hm].
    { cbn. split; [right; now apply keeps_empty_finally
                  |now apply drop_loop_named]. }
    destruct (String.eqb_spec message_bytes "REQUEST_TO_PRESENT") as [->|Hr].
    + destruct (chat_lock (shared sv)) eqn:Hl.
      { destruct (step_held (Recv c timestamp "REQUEST_TO_PRESENT") sv Hl)
          as [(Hl' & _) Hincl].
        cbn in Hl', Hincl. rewrite Hloop in Hl', Hincl. cbn in Hl', Hincl.
        split; [now left|].
        unfold all_named in *. rewrite Forall_forall in *.
        intros x Hx. now apply Hn, Hincl. }
      pose proof (request_holds_or_clears c username timestamp _ Hl Hs Hne)
        as Hq.
      destruct (chat_dispatch c username timestamp "REQUEST_TO_PRESENT"
                  (shared sv)) as [[[]|e|] s']; cbn in *.
      * split; [now right|exact Hn].
      * split; [now right|now apply drop_loop_named].
      * split; [now left|now apply drop_loop_named].
    + pose proof (keeps_empty_dispatch c username timestamp message_bytes
                    Hr _ Hs) as Hd.
      destruct (chat_dispatch c username timestamp message_bytes (shared sv))
        as [[[]|e|] s']; cbn in *.
      * split; [now right|exact Hn].
      * split; [right; now apply keeps_empty_finally
               |now apply drop_loop_named].
      * split; [now right|now apply drop_loop_named].
Qed.

Lemma run_held_or_empty (evs : list event) (sv : server) :
  held_or_empty (shared sv) -> all_named (loops sv) ->
  held_or_empty (shared (run evs sv)) /\ all_named (loops (run evs sv)).
Proof.
  revert sv. induction evs as [|ev evs IH]; intros sv H Hn; [now split|].
  cbn. destruct (step_held_or_empty ev sv H Hn) as [H1 H2]. now apply IH.
Qed.

(** X29.  Served turn by turn (each handshake and each turn of a command
    loop, with the [finally] block that follows an exception, running
    without another handler in between), the chat server never shows a
    presenter while [chat_lock] is free: in every state it reaches from
    its start, whatever the sockets send, a free lock goes with an empty
    presenter slot.  Every grant of the slot ends with the granting
    handler stuck holding the lock, or is undone by the [finally] block of
    that handler. *)
Theorem free_lock_means_empty_slot (evs : list event) :
  chat_lock (shared (run evs boot)) = false ->
  current_presenter_username (shared (run evs boot)) = None.
Proof.
  intros Hl.
  destruct (run_held_or_empty evs boot) as [[H|H] _].
  - now right.
  - constructor.
  - congruence.
  - exact H.
Qed.

(** bob and alice join, a third socket is refused the name alice, bob
    speaks and the first alice leaves: the lock is free, and nobody
    presents. *)
Lemma nobody_presents_after_joins_and_leaves :
  current_presenter_username
    (shared (run [Accept 2 "bob"; Accept 1 "alice"; Accept 3 "alice";
                  Recv 2 "12:00:00" "hello"; Recv 1 "12:00:01" ""] boot))
  = None.
Proof.
  apply (free_lock_means_empty_slot
           [Accept 2 "bob"; Accept 1 "alice"; Accept 3 "alice";
            Recv 2 "12:00:00" "hello"; Recv 1 "12:00:01" ""]).
  reflexivity.
Defined.

End FreeLock.

(* ================================================================== *)
(** * Further properties of the screen-share server *)

Section Viewers.
Import Screen Frames.

Lemma screen_sendall_alive (c : conn) (data : string) (s : Screen.state) :
  alive c (io s) = true ->
  sendall c data s = (Returns tt, with_io (delivered [(c, data)] (io s)) s).
Proof.
  intros H; unfold sendall, lift. now rewrite (net_sendall_alive _ _ _ H).
Qed.

Lemma screen_sendall_dead (c : conn) (data : string) (s : Screen.state) :
  alive c (io s) = false -> exists e, sendall c data s = (Raises e, s).
Proof.
  intros H; unfold sendall, lift.
  destruct (net_sendall_dead c data _ H) as [e ->].
  exists e. now destruct s.
Qed.

Lemma is_in_app (c : conn) (a b : list conn) :
  is_in c (a ++ b) = is_in c a || is_in c b.
Proof. unfold is_in. apply existsb_app. Qed.

Lemma list_remove_app (c : conn) (a b : list conn) :
  is_in c a = false -> list_remove c (a ++ b) = (a ++ list_remove c b)%list.
Proof.
  induction a as [|x a IH]; cbn; [reflexivity|].
  destruct (Nat.eqb c x); [discriminate|]. intros H. now rewrite IH.
Qed.

Lemma all_alive_not_dead (c : conn) (n : net) (l : list conn) :
  forallb (fun v => alive v n) l = true -> alive c n = false ->
  is_in c l = false.
Proof.
  induction l as [|x l IH]; cbn; [reflexivity|].
  intros H Hd. apply andb_prop in H as [Hx Hl].
  destruct (Nat.eqb_spec c x) as [->|_]; [congruence|]. now apply IH.
Qed.

(** The loop of [broadcast_to_viewers] over a tail [vs] of the viewer
    list: the live viewers are sent the data and the dead ones leave the
    list. *)
Lemma viewers_loop (data : string) (vs pre : list conn) (s : Screen.state) :
  screen_viewers s = (pre ++ vs)%list ->
  forallb (fun v => alive v (io s)) pre = true ->
  for_each vs (fun viewer_conn =>
    try_except (sendall viewer_conn data)
               (fun _ => drop_viewer viewer_conn)) s
  = (Returns tt,
     {| screen_presenter_socket := screen_presenter_socket s;
        screen_viewers := pre ++ filter (fun v => alive v (io s)) vs;
        io := delivered
                (Chat.copies data (filter (fun v => alive v (io s)) vs))
                (io s) |}).
Proof.
  revert pre s. induction vs as [|v vs IH]; intros pre s Hv Hpre.
  - cbn. unfold ret. rewrite delivered_nil. destruct s; cbn in *. now subst.
  - cbn [for_each filter]. unfold bind, try_except.
    destruct (alive v (io s)) eqn:Ha.
    + rewrite (screen_sendall_alive _ _ _ Ha).
      rewrite (IH (pre ++ [v])%list).
      * cbn [io with_io screen_presenter_socket]. cbn [Chat.copies map].
        rewrite delivered_app, <- app_assoc. reflexivity.
      * cbn. now rewrite <- app_assoc.
      * change (forallb (fun x => alive x (io s)) (pre ++ [v]) = true).
        rewrite forallb_app. cbn [forallb]. now rewrite Hpre, Ha.
    + destruct (screen_sendall_dead v data s Ha) as [e ->].
      unfold drop_viewer, modify. rewrite Hv.
      assert (Hin : is_in v pre = false)
        by exact (all_alive_not_dead _ _ _ Hpre Ha).
      rewrite is_in_app, Hin. cbn [orb is_in existsb].
      rewrite Nat.eqb_refl. cbn [orb].
      rewrite list_remove_app by exact Hin. cbn [list_remove].
      rewrite Nat.eqb_refl.
      rewrite (IH pre); [reflexivity|reflexivity|exact Hpre].
Qed.

(** X11.  [broadcast_to_viewers] from the socket that holds the presenter
    slot sends the data to every live viewer, in the order of the list,
    and drops the viewers whose send fails from the list, without stopping
    at them; the presenter socket itself is sent nothing by this call and
    keeps the slot.  From any other socket the call does nothing. *)
Theorem broadcast_reaches_live_viewers_and_drops_dead
    (data : string) (sender : conn) (s : Screen.state) :
  (is_presenter_socket sender (screen_presenter_socket s) = true ->
   broadcast_to_viewers data sender s = (Returns tt, broadcasted data s))
  /\ (is_presenter_socket sender (screen_presenter_socket s) = false ->
      broadcast_to_viewers data sender s = (Returns tt, s)).
Proof.
  unfold broadcast_to_viewers. rewrite bind_gets. split; intros Hp; rewrite Hp.
  - cbn [negb]. rewrite bind_gets.
    now rewrite (viewers_loop data (screen_viewers s) [] s).
  - reflexivity.
Qed.

(** Socket 7 sends a frame while the peer of viewer 8 is gone; viewer 9
    tries to broadcast. *)
Lemma frame_for_nine_only :
  broadcast_to_viewers "frame" 7 viewer_gone
  = (Returns tt, broadcasted "frame" viewer_gone)
  /\ screen_viewers (broadcasted "frame" viewer_gone) = [9]
  /\ wire (io (broadcasted "frame" viewer_gone)) = [(9, "frame")]
  /\ broadcast_to_viewers "frame" 9 viewer_gone = (Returns tt, viewer_gone).
Proof.
  pose proof (broadcast_reaches_live_viewers_and_drops_dead "frame" 7
                viewer_gone) as [H7 _].
  pose proof (broadcast_reaches_live_viewers_and_drops_dead "frame" 9
                viewer_gone) as [_ H9].
  split; [exact (H7 eq_refl)|]. split; [reflexivity|].
  split; [reflexivity|exact (H9 eq_refl)].
Defined.

(** X12.  A viewer that connects and disconnects leaves no trace: the
    [VIEWER] handshake appends the socket to the viewer list and sends
    nothing, and the [finally] block takes it out again and closes it, so
    that the list and the presenter socket are as before.  A socket whose
    first bytes are neither [PRESENTER] nor [VIEWER] is closed without
    being sent or registered anywhere. *)
Theorem viewer_session_leaves_no_trace (s : Screen.state) (conn : conn) :
  is_in conn (screen_viewers s) = false ->
  is_presenter_socket conn (screen_presenter_socket s) = false ->
  handle_screen_client conn "VIEWER" s
  = (Returns ViewerLoop, with_viewers (screen_viewers s ++ [conn]) s)
  /\ screen_finally conn (with_viewers (screen_viewers s ++ [conn]) s)
     = (Returns tt, hung_up conn s)
  /\ (forall role,
        role <> "PRESENTER" -> role <> "VIEWER" ->
        handle_screen_client conn role s = (Returns LeavesTry, hung_up conn s)).
Proof.
  intros Hv Hp. split; [reflexivity|]. split.
  - unfold screen_finally, drop_viewer. rewrite !bind_modify.
    cbn [screen_presenter_socket with_viewers]. rewrite Hp.
    cbn [screen_viewers with_viewers].
    rewrite is_in_app. cbn [is_in existsb]. rewrite Nat.eqb_refl, orb_true_r.
    rewrite list_remove_app by exact Hv. cbn [list_remove].
    rewrite Nat.eqb_refl, app_nil_r. cbn. unfold hung_up. now destruct s.
  - intros role H1 H2. unfold handle_screen_client, negotiate_role.
    apply String.eqb_neq in H1, H2. rewrite H1, H2.
    rewrite (bind_returns _ _ s s LeavesTry) by reflexivity.
    unfold screen_finally, drop_viewer.
    rewrite (bind_returns _ _ s (hung_up conn s) tt); [reflexivity|].
    rewrite !bind_modify. rewrite Hp, Hv. reflexivity.
Qed.

(** Socket 10 watches socket 7 present for a while; socket 11 sends
    something else. *)
Lemma ten_watches_and_leaves :
  screen_finally 10 (with_viewers (screen_viewers presenting ++ [10]) presenting)
  = (Returns tt, hung_up 10 presenting)
  /\ handle_screen_client 11 "HELLO" presenting
     = (Returns LeavesTry, hung_up 11 presenting).
Proof.
  split.
  - exact (proj1 (proj2 (viewer_session_leaves_no_trace presenting 10
                           eq_refl eq_refl))).
  - refine (proj2 (proj2 (viewer_session_leaves_no_trace presenting 11
                            eq_refl eq_refl)) "HELLO" _ _); discriminate.
Defined.

(** X13.  When the handler of the presenter socket leaves, its [finally]
    block releases the slot and closes the socket, and the viewer list
    stays as it is.  From then on a broadcast from that socket is
    ignored, and the next [PRESENTER] handshake is accepted. *)
Theorem presenter_slot_is_released_on_disconnect
    (s : Screen.state) (presenter : conn) :
  screen_presenter_socket s = Some presenter ->
  is_in presenter (screen_viewers s) = false ->
  screen_finally presenter s = (Returns tt, released presenter s)
  /\ (forall data,
        broadcast_to_viewers data presenter (released presenter s)
        = (Returns tt, released presenter s))
  /\ (forall conn,
        handle_screen_client conn "PRESENTER" (released presenter s)
        = (Returns PresenterLoop,
           with_presenter_socket (Some conn) (released presenter s))).
Proof.
  intros Hp Hv. split; [|split].
  - unfold screen_finally, drop_viewer. rewrite !bind_modify.
    rewrite Hp. cbn [is_presenter_socket]. rewrite Nat.eqb_refl.
    cbn [screen_viewers with_presenter_socket]. rewrite Hv. reflexivity.
  - intros data. reflexivity.
  - intros conn. reflexivity.
Qed.

(** Socket 7, which presents, hangs up, and socket 12 takes over. *)
Lemma twelve_takes_over :
  screen_finally 7 presenting = (Returns tt, released 7 presenting)
  /\ handle_screen_client 12 "PRESENTER" (released 7 presenting)
     = (Returns PresenterLoop,
        with_presenter_socket (Some 12) (released 7 presenting)).
Proof.
  destruct (presenter_slot_is_released_on_disconnect presenting 7
              eq_refl eq_refl) as (H1 & _ & H3).
  split; [exact H1|exact (H3 12)].
Defined.

End Viewers.

(** ** The frames of the presenter *)

Section PresenterFrames.
Import Screen Frames.

Lemma stream_cons (d : string) (rest : list string) :
  d <> "" -> stream (d :: rest) = d ++ stream rest.
Proof. intros H. cbn. apply String.eqb_neq in H. now rewrite H. Qed.

Lemma slength_take (n : nat) (d : string) :
  String.length (Py.take n d) = Nat.min n (String.length d).
Proof.
  revert d. induction n as [|n IH]; intros [|c d]; cbn; auto.
Qed.

Lemma slength_drop (n : nat) (d : string) :
  String.length (Py.drop n d) = String.length d - n.
Proof.
  revert d. induction n as [|n IH]; intros [|c d]; cbn; auto.
Qed.

Lemma take_app_le (n : nat) (a b : string) :
  n <= String.length a -> Py.take n (a ++ b) = Py.take n a.
Proof.
  revert a. induction n as [|n IH]; intros [|c a] H; cbn in *;
    try reflexivity; try lia.
  f_equal. apply IH. lia.
Qed.

Lemma drop_app_le (n : nat) (a b : string) :
  n <= String.length a -> Py.drop n (a ++ b) = Py.drop n a ++ b.
Proof.
  revert a. induction n as [|n IH]; intros [|c a] H; cbn in *;
    try reflexivity; try lia.
  apply IH. lia.
Qed.

Lemma take_all (n : nat) (a : string) :
  String.length a <= n -> Py.take n a = a.
Proof.
  revert a. induction n as [|n IH]; intros [|c a] H; cbn in *;
    try reflexivity; try lia.
  f_equal. apply IH. lia.
Qed.

Lemma drop_all (n : nat) (a : string) :
  String.length a <= n -> Py.drop n a = "".
Proof.
  revert a. induction n as [|n IH]; intros [|c a] H; cbn in *;
    try reflexivity; try lia.
  apply IH. lia.
Qed.

Lemma take_take_drop (n m : nat) (a : string) :
  Py.take n a ++ Py.take m (Py.drop n a) = Py.take (n + m) a.
Proof.
  revert a. induction n as [|n IH]; intros a; [reflexivity|].
  destruct a as [|c a]; cbn; [now destruct m|]. f_equal. apply IH.
Qed.

Lemma drop_drop (n m : nat) (a : string) :
  Py.drop m (Py.drop n a) = Py.drop (n + m) a.
Proof.
  revert a. induction n as [|n IH]; intros a; [reflexivity|].
  destruct a as [|c a]; cbn; [now destruct m|]. apply IH.
Qed.

(** What one [recv] takes from the stream. *)
Lemma recv_stream (n : nat) (s : Frames.state) :
  1 <= n ->
  exists d s',
    Frames.recv n s = (Returns d, s')
    /\ screen s' = screen s
    /\ ((d = "" /\ stream (inbound s) = "")
        \/ (d <> "" /\ d = Py.take (String.length d) (stream (inbound s))
            /\ String.length d <= n
            /\ stream (inbound s') = Py.drop (String.length d)
                                             (stream (inbound s)))).
Proof.
  intros Hn. unfold Frames.recv.
  destruct (inbound s) as [|d rest] eqn:Hi.
  - exists "", s. rewrite Hi. repeat split. now left.
  - destruct (Nat.leb_spec (String.length d) n) as [Hle|Hgt].
    + exists d, (Frames.with_inbound rest s). repeat split.
      destruct (String.eqb_spec d "") as [->|Hd]; [now left|right].
      rewrite (stream_cons _ _ Hd). cbn [inbound Frames.with_inbound].
      repeat split; [exact Hd| |exact Hle|].
      * rewrite take_app_le by lia. now rewrite take_all by lia.
      * rewrite drop_app_le by lia. now rewrite drop_all by lia.
    + exists (Py.take n d), (Frames.with_inbound (Py.drop n d :: rest) s).
      repeat split. right.
      assert (Hd : d <> "") by (intros ->; cbn in Hgt; lia).
      assert (Hl : String.length (Py.take n d) = n)
        by (rewrite slength_take; lia).
      assert (Hr : Py.drop n d <> "").
      { intros E. pose proof (slength_drop n d) as Hs. rewrite E in Hs.
        cbn in Hs. lia. }
      rewrite (stream_cons _ _ Hd). cbn [inbound Frames.with_inbound].
      rewrite (stream_cons _ _ Hr), Hl.
      repeat split.
      * intros E. rewrite E in Hl. cbn in Hl. lia.
      * rewrite take_app_le by lia. reflexivity.
      * lia.
      * rewrite drop_app_le by lia. reflexivity.
Qed.

(** The inner loop takes the bytes of the frame from the stream, and no
    byte more; when the stream ends before the frame is complete it
    returns what was there. *)
Lemma read_frame_stream (fuel : nat) (frame_size : N) (acc : string)
    (s : Frames.state) :
  N.to_nat frame_size - String.length acc <= fuel ->
  exists data s',
    read_frame fuel frame_size acc s = (Returns data, s')
    /\ screen s' = screen s
    /\ (N.to_nat frame_size - String.length acc
        <= String.length (stream (inbound s)) ->
        data = acc ++ Py.take (N.to_nat frame_size - String.length acc)
                              (stream (inbound s))
        /\ stream (inbound s')
           = Py.drop (N.to_nat frame_size - String.length acc)
                     (stream (inbound s)))
    /\ (String.length (stream (inbound s))
        < N.to_nat frame_size - String.length acc ->
        data = acc ++ stream (inbound s)).
Proof.
  revert acc s. induction fuel as [|fuel IH]; intros acc s Hf.
  - exists acc, s. cbn. unfold len.
    destruct (N.ltb_spec (N.of_nat (String.length acc)) frame_size);
      (split; [reflexivity|]); (split; [reflexivity|]); split; try lia;
      intros _; replace (N.to_nat frame_size - String.length acc) with 0
        by lia; cbn; now rewrite sapp_nil_r.
  - cbn [read_frame]. unfold len.
    destruct (N.ltb_spec (N.of_nat (String.length acc)) frame_size) as [Hlt|Hge].
    + set (n := N.to_nat (N.min 4096 (frame_size
                                        - N.of_nat (String.length acc)))).
      assert (Hn : 1 <= n) by (subst n; lia).
      assert (Hn' : n <= N.to_nat frame_size - String.length acc)
        by (subst n; lia).
      destruct (recv_stream n s Hn) as (d & s1 & Hr & Hs1 & Hcase).
      rewrite (bind_returns _ _ _ _ _ Hr).
      destruct Hcase as [[-> Hb]|(Hd & Htake & Hlen & Hdrop)].
      * exists acc, s1. cbn. split; [reflexivity|]. split; [exact Hs1|].
        rewrite Hb. cbn. split; [lia|]. intros _. now rewrite sapp_nil_r.
      * apply String.eqb_neq in Hd. rewrite Hd. apply String.eqb_neq in Hd.
        assert (Hd1 : 1 <= String.length d).
        { destruct d; [contradiction|cbn; lia]. }
        assert (Hdb : String.length d <= String.length (stream (inbound s))).
        { pose proof (slength_take (String.length d) (stream (inbound s))) as E.
          rewrite <- Htake in E. lia. }
        destruct (IH (acc ++ d) s1) as (data & s' & Hrf & Hs' & Hfull & Hpart).
        { rewrite slength_app. lia. }
        exists data, s'. split; [exact Hrf|]. split; [congruence|].
        rewrite slength_app, Hdrop, slength_drop in *.
        replace (N.to_nat frame_size - (String.length acc + String.length d))
          with (N.to_nat frame_size - String.length acc - String.length d)
          in * by lia.
        split.
        -- intros Hen. destruct Hfull as [-> Hst]; [lia|]. split.
           ++ rewrite sapp_assoc. f_equal. rewrite Htake at 1.
              rewrite take_take_drop. f_equal. lia.
           ++ rewrite Hst, drop_drop. f_equal. lia.
        -- intros Hsh. rewrite Hpart by lia.
           rewrite sapp_assoc. f_equal. rewrite Htake at 1.
           apply take_drop.
    + exists acc, s. split; [reflexivity|]. split; [reflexivity|].
      replace (N.to_nat frame_size - String.length acc) with 0 by lia.
      split; [|lia]. intros _. cbn. now rewrite sapp_nil_r.
Qed.

Lemma broadcast_from_presenter (data : string) (conn : conn)
    (sc : Screen.state) :
  is_presenter_socket conn (screen_presenter_socket sc) = true ->
  broadcast_to_viewers data conn sc = (Returns tt, broadcasted data sc).
Proof.
  intros Hp. unfold broadcast_to_viewers. rewrite bind_gets, Hp.
  cbn [negb]. rewrite bind_gets.
  now rewrite (viewers_loop data (screen_viewers sc) [] sc).
Qed.

(** The read of the length prefix, when the first piece holds it. *)
Lemma recv_header (s : Frames.state) (first : string) (more : list string) :
  inbound s = first :: more ->
  4 <= String.length first ->
  exists s1,
    Frames.recv 4 s = (Returns (Py.take 4 first), s1)
    /\ screen s1 = screen s
    /\ Py.take 4 first = Py.take 4 (stream (inbound s))
    /\ stream (inbound s1) = Py.drop 4 (stream (inbound s)).
Proof.
  intros Hi Hlen. unfold Frames.recv. rewrite Hi.
  assert (Hf : first <> "") by (intros ->; cbn in Hlen; lia).
  rewrite (stream_cons _ _ Hf).
  rewrite take_app_le, drop_app_le by exact Hlen.
  destruct (Nat.leb_spec (String.length first) 4) as [Hle|Hgt].
  - exists (Frames.with_inbound more s).
    rewrite (take_all 4 first Hle). repeat split.
    cbn [inbound Frames.with_inbound]. now rewrite drop_all by exact Hle.
  - exists (Frames.with_inbound (Py.drop 4 first :: more) s). repeat split.
    cbn [inbound Frames.with_inbound]. apply stream_cons.
    intros E. pose proof (slength_drop 4 first) as Hs. rewrite E in Hs.
    cbn in Hs. lia.
Qed.

(** X14.  A turn of the presenter loop that finds a whole frame passes it
    on byte for byte.  When the first piece read holds the four bytes of
    the length prefix, the prefix announces between 1 and [MAX_FRAME]
    bytes and the stream holds that many more, in whatever pieces they
    arrive, then every live viewer is sent the prefix followed by exactly
    those bytes, the dead viewers are dropped, no byte beyond the frame is
    taken from the stream, and the loop goes on. *)
Theorem complete_frame_is_passed_on_verbatim
    (s : Frames.state) (conn : conn) (first : string) (more : list string) :
  inbound s = first :: more ->
  4 <= String.length first ->
  let frame_size := unpack_uint 0 (Py.take 4 first) in
  (0 < frame_size)%N ->
  (frame_size <= MAX_FRAME)%N ->
  4 + N.to_nat frame_size <= String.length (stream (inbound s)) ->
  is_presenter_socket conn (screen_presenter_socket (screen s)) = true ->
  exists rest,
    presenter_turn conn s
    = (Returns NextFrame,
       shown (Py.take (4 + N.to_nat frame_size) (stream (inbound s))) rest s)
    /\ stream rest = Py.drop (4 + N.to_nat frame_size) (stream (inbound s))
    /\ forall fuel,
         presenter_loop (S fuel) conn s
         = presenter_loop fuel conn
             (shown (Py.take (4 + N.to_nat frame_size) (stream (inbound s)))
                    rest s).
Proof.
  intros Hi Hlen frame_size Hpos Hmax Hbytes Hp.
  destruct (recv_header s first more Hi Hlen) as (s1 & Hr & Hs1 & Hhd & Hst).
  destruct (read_frame_stream (N.to_nat frame_size) frame_size "" s1)
    as (data & s2 & Hrf & Hs2 & Hfull & _); [cbn; lia|].
  cbn [String.length] in Hfull. rewrite Nat.sub_0_r, Hst, slength_drop in Hfull.
  destruct Hfull as [Hdata Hrest]; [lia|]. cbn [append] in Hdata.
  assert (Hturn :
    presenter_turn conn s
    = (Returns NextFrame,
       shown (Py.take (4 + N.to_nat frame_size) (stream (inbound s)))
             (inbound s2) s)).
  { unfold presenter_turn. rewrite (bind_returns _ _ _ _ _ Hr).
    assert (H4 : String.length (Py.take 4 first) = 4)
      by (rewrite slength_take; lia).
    destruct (String.eqb_spec (Py.take 4 first) "") as [E|_];
      [rewrite E in H4; discriminate|].
    rewrite H4. cbn [orb Nat.ltb Nat.leb].
    fold frame_size.
    destruct (N.leb_spec frame_size 0); [lia|].
    destruct (N.ltb_spec MAX_FRAME frame_size); [lia|]. cbn [orb].
    rewrite (bind_returns _ _ _ _ _ Hrf).
    assert (Hl : len data = frame_size).
    { unfold len. rewrite Hdata, slength_take, slength_drop. lia. }
    rewrite Hl, N.eqb_refl. cbn [negb].
    unfold in_screen, bind. rewrite Hs2, Hs1.
    rewrite (broadcast_from_presenter _ _ _ Hp).
    rewrite Hdata, Hhd, take_take_drop. reflexivity. }
  exists (inbound s2). split; [exact Hturn|]. split.
  - rewrite Hrest. apply drop_drop.
  - intros fuel. cbn [presenter_loop].
    now rewrite (bind_returns _ _ _ _ _ Hturn).
Qed.

(** Socket 7 sends the five bytes of [hello] behind their length prefix,
    the prefix and the first two bytes in one piece. *)
Lemma hello_is_shown :
  exists rest,
    presenter_turn 7 one_frame
    = (Returns NextFrame,
       shown (String Ascii.zero (String Ascii.zero (String Ascii.zero
                (String (ascii_of_nat 5) "hello"))))
             rest one_frame)
    /\ stream rest
       = String Ascii.zero (String Ascii.zero (String Ascii.zero
           (String Ascii.zero ""))).
Proof.
  destruct (complete_frame_is_passed_on_verbatim one_frame 7
              (String Ascii.zero (String Ascii.zero (String Ascii.zero
                 (String (ascii_of_nat 5) "he"))))
              ["ll"; "o";
               String Ascii.zero (String Ascii.zero (String Ascii.zero
                 (String Ascii.zero "")))]
              eq_refl ltac:(cbn; lia) eq_refl ltac:(discriminate)
              ltac:(cbn; lia) eq_refl)
    as (rest & H1 & H2 & _).
  exists rest. split; [exact H1|exact H2].
Defined.

(** X15.  A turn of the presenter loop that does not find a whole frame
    ends the loop without sending anything to anybody: when the stream has
    ended, when the first piece read has fewer than four bytes (even if
    the rest of the prefix follows), when the prefix announces 0 bytes or
    more than [MAX_FRAME], and when the stream ends before the announced
    bytes have arrived.  What follows on the stream is not looked at. *)
Theorem broken_frame_ends_presenter_loop (s : Frames.state) (conn : conn) :
  broken (inbound s) ->
  exists s',
    presenter_turn conn s = (Returns LeavesLoop, s')
    /\ screen s' = screen s
    /\ forall fuel, presenter_loop (S fuel) conn s = (Returns tt, s').
Proof.
  intros Hb.
  assert (Hturn : exists s',
            presenter_turn conn s = (Returns LeavesLoop, s')
            /\ screen s' = screen s).
  { unfold broken in Hb. destruct (inbound s) as [|first more] eqn:Hi.
    - exists s. unfold presenter_turn, bind, Frames.recv. now rewrite Hi.
    - destruct (Nat.ltb_spec (String.length first) 4) as [Hshort|Hlen].
      + exists (Frames.with_inbound more s).
        unfold presenter_turn, bind, Frames.recv. rewrite Hi.
        destruct (Nat.leb_spec (String.length first) 4); [|lia].
        destruct (Nat.ltb_spec (String.length first) 4); [|lia].
        now rewrite orb_true_r.
      + destruct Hb as [Hb|Hb]; [lia|]. cbv zeta in Hb.
        destruct (recv_header s first more Hi Hlen)
          as (s1 & Hr & Hs1 & Hhd & Hst).
        unfold presenter_turn. rewrite (bind_returns _ _ _ _ _ Hr).
        assert (H4 : String.length (Py.take 4 first) = 4)
          by (rewrite slength_take; lia).
        destruct (String.eqb_spec (Py.take 4 first) "") as [E|_];
          [rewrite E in H4; discriminate|].
        rewrite H4. cbn [orb Nat.ltb Nat.leb].
        set (frame_size := unpack_uint 0 (Py.take 4 first)) in *.
        destruct (N.leb_spec frame_size 0) as [Hz|Hpos];
          [exists s1; now split|].
        destruct (N.ltb_spec MAX_FRAME frame_size) as [Hbig|Hmax];
          [exists s1; now split|].
        cbn [orb].
        destruct Hb as [Hb|[Hb|Hb]]; [lia|lia|].
        destruct (read_frame_stream (N.to_nat frame_size) frame_size "" s1)
          as (data & s2 & Hrf & Hs2 & _ & Hpart); [cbn; lia|].
        cbn [String.length] in Hpart.
        rewrite Nat.sub_0_r, Hst, slength_drop, Hi in Hpart.
        specialize (Hpart ltac:(lia)). cbn [append] in Hpart.
        rewrite (bind_returns _ _ _ _ _ Hrf).
        assert (Hl : len data <> frame_size).
        { unfold len. rewrite Hpart, slength_drop. lia. }
        apply N.eqb_neq in Hl. rewrite Hl. cbn [negb].
        exists s2. split; [reflexivity|congruence]. }
  destruct Hturn as (s' & Ht & Hs). exists s'.
  split; [exact Ht|]. split; [exact Hs|].
  intros fuel. cbn [presenter_loop]. now rewrite (bind_returns _ _ _ _ _ Ht).
Qed.

(** After [hello], socket 7 announces a frame of no bytes. *)
Lemma empty_frame_ends_the_show :
  exists s',
    presenter_turn 7
      (Frames.with_inbound
         [String Ascii.zero (String Ascii.zero (String Ascii.zero
            (String Ascii.zero "")));
          "more"] one_frame)
    = (Returns LeavesLoop, s')
    /\ screen s' = presenting.
Proof.
  destruct (broken_frame_ends_presenter_loop
              (Frames.with_inbound
                 [String Ascii.zero (String Ascii.zero (String Ascii.zero
                    (String Ascii.zero "")));
                  "more"] one_frame) 7
              (or_intror (or_introl eq_refl)))
    as (s' & H1 & H2 & _).
  exists s'. split; [exact H1|exact H2].
Defined.

End PresenterFrames.

(* ================================================================== *)
(** * The audio and video relays *)

Section Relays.
Import Relay.

Variable enumerate : list addr -> list addr.
Variable bufsize : nat.

Lemma filter_permutation {A} (f : A -> bool) (l l' : list A) :
  Permutation l l' -> Permutation (filter f l) (filter f l').
Proof.
  induction 1 as [|x l l' H IH|x y l|l l' l'' H1 IH1 H2 IH2]; cbn.
  - constructor.
  - destruct (f x); [now constructor|exact IH].
  - destruct (f x), (f y); try apply Permutation_refl. apply perm_swap.
  - now apply (Permutation_trans IH1).
Qed.

(** The sending loop of one turn. *)
Lemma fan_out (data : string) (from : addr) (cs : list addr) (s : state) :
  for_each cs (fun client_addr =>
    if negb (Nat.eqb client_addr from) then sendto data client_addr
    else ret tt) s
  = (Returns tt,
     {| clients := clients s; addr_var := addr_var s;
        sent := sent s ++ map (fun c => (c, data)) (set_discard from cs) |}).
Proof.
  revert s. induction cs as [|c cs IH]; intros s; cbn.
  - unfold ret. rewrite app_nil_r. now destruct s.
  - unfold bind. destruct (negb (Nat.eqb c from)); cbn.
    + rewrite IH. cbn. now rewrite <- app_assoc.
    + unfold ret. now rewrite IH.
Qed.

Lemma is_in_In (a : addr) (l : list addr) : is_in a l = true <-> In a l.
Proof.
  unfold is_in. rewrite existsb_exists. split.
  - intros (x & Hx & E). apply Nat.eqb_eq in E. now subst.
  - intros H. exists a. split; [exact H|apply Nat.eqb_refl].
Qed.

Lemma set_add_nodup (a : addr) (l : list addr) :
  NoDup l -> NoDup (set_add a l).
Proof.
  intros H. unfold set_add. destruct (is_in a l) eqn:Hin; [exact H|].
  apply NoDup_app; [exact H|repeat constructor; intros []|].
  intros x Hx [<-|[]]. apply is_in_In in Hx. congruence.
Qed.

Lemma set_add_in (a : addr) (l : list addr) : In a (set_add a l).
Proof.
  unfold set_add. destruct (is_in a l) eqn:Hin; [now apply is_in_In|].
  apply in_or_app. right. now left.
Qed.

Lemma set_discard_add (a : addr) (l : list addr) :
  set_discard a (set_add a l) = set_discard a l.
Proof.
  unfold set_add. destruct (is_in a l); [reflexivity|].
  unfold set_discard. rewrite filter_app. cbn.
  rewrite Nat.eqb_refl. cbn. apply app_nil_r.
Qed.

Lemma set_discard_not_in (a : addr) (l : list addr) :
  ~ In a (set_discard a l).
Proof.
  unfold set_discard. intros H. apply filter_In in H as [_ H].
  now rewrite Nat.eqb_refl in H.
Qed.

(** The state after a datagram was served. *)
Lemma datagram_turn (payload : string) (from : addr) (s : state) :
  relay_turn enumerate bufsize (Datagram payload from) s
  = (Returns tt,
     {| clients := set_add from (clients s); addr_var := Some from;
        sent := sent s
                ++ map (fun c => (c, Py.take bufsize payload))
                       (set_discard from
                          (enumerate (set_add from (clients s)))) |}).
Proof.
  unfold relay_turn. rewrite bind_modify, bind_gets.
  now rewrite fan_out.
Qed.

(** X16.  A datagram that arrives at a relay is passed on, cut to the
    buffer size, to every peer the relay knows except the one it came
    from: each of them is sent exactly one copy, whatever the order in
    which the set is enumerated, and the sender none.  The sender is
    known to the relay from then on, and no peer is in the set twice. *)
Theorem datagram_goes_once_to_every_other_peer
    (payload : string) (from : addr) (s : state) :
  enumerates enumerate ->
  NoDup (clients s) ->
  exists batch,
    relay_turn enumerate bufsize (Datagram payload from) s
    = (Returns tt,
       {| clients := set_add from (clients s); addr_var := Some from;
          sent := sent s ++ batch |})
    /\ Permutation batch
         (map (fun c => (c, Py.take bufsize payload))
              (set_discard from (clients s)))
    /\ ~ In from (map fst batch)
    /\ NoDup (map fst batch)
    /\ In from (set_add from (clients s))
    /\ NoDup (set_add from (clients s)).
Proof.
  intros He Hnd.
  exists (map (fun c => (c, Py.take bufsize payload))
              (set_discard from (enumerate (set_add from (clients s))))).
  assert (Hperm : Permutation
            (set_discard from (enumerate (set_add from (clients s))))
            (set_discard from (clients s))).
  { rewrite <- (set_discard_add from (clients s)).
    apply filter_permutation, He. }
  split; [apply datagram_turn|]. split; [now apply Permutation_map|].
  rewrite map_map. cbn [fst]. rewrite map_id.
  split; [apply set_discard_not_in|]. split; [|split].
  - apply (Permutation_NoDup (Permutation_sym Hperm)).
    now apply NoDup_filter.
  - apply set_add_in.
  - now apply set_add_nodup.
Qed.

(** The state after a datagram from [from] and then a reset. *)
Lemma datagram_then_reset (payload : string) (from : addr) (s : state) :
  relay_loop enumerate bufsize [Datagram payload from; ResetByPeer] s
  = (Returns tt,
     {| clients := set_discard from (clients s); addr_var := Some from;
        sent := sent s
                ++ map (fun c => (c, Py.take bufsize payload))
                       (set_discard from
                          (enumerate (set_add from (clients s)))) |}).
Proof.
  cbn [relay_loop]. rewrite (bind_returns _ _ _ _ _ (datagram_turn _ _ _)).
  unfold relay_turn, bind, gets, modify, ret.
  cbn [clients addr_var sent]. now rewrite set_discard_add.
Qed.

End Relays.

Section RelayLoops.
Import Relay.

(** Peers 1, 2 and 3 are known; 3 speaks; the set is enumerated from its
    newest element. *)
Lemma voice_from_three :
  exists batch,
    relay_turn (@List.rev addr) 4096 (Datagram "voice" 3)
      {| clients := [1; 2; 3]; addr_var := Some 1; sent := [] |}
    = (Returns tt,
       {| clients := [1; 2; 3]; addr_var := Some 3; sent := batch |})
    /\ Permutation batch [(1, "voice"); (2, "voice")].
Proof.
  destruct (datagram_goes_once_to_every_other_peer (@List.rev addr) 4096 "voice" 3
              {| clients := [1; 2; 3]; addr_var := Some 1; sent := [] |})
    as (batch & H1 & H2 & _).
  - intros l. apply Permutation_sym, Permutation_rev.
  - repeat constructor; cbn; intuition discriminate.
  - exists batch. split; [exact H1|exact H2].
Defined.

(** X17.  The handler of [ConnectionResetError] discards the address held
    by the loop variable [addr], which is the sender of the latest
    datagram: a reset reported right after a datagram from a peer removes
    that peer from the set, whoever's port was unreachable.  While no
    datagram has been received [addr] is unbound, and a reset then ends
    the relay: nothing that arrives later is passed on. *)
Theorem reset_discards_latest_sender
    (enumerate : list addr -> list addr) :
  (forall bufsize payload from s,
     let r := relay_loop enumerate bufsize
                [Datagram payload from; ResetByPeer] s in
     fst r = Returns tt
     /\ clients (snd r) = set_discard from (clients s)
     /\ ~ In from (clients (snd r)))
  /\ (forall evs,
        start_audio_server enumerate (ResetByPeer :: evs)
        = (Raises OSError, initial)
        /\ start_video_server enumerate (ResetByPeer :: evs)
           = (Raises OSError, initial)).
Proof.
  split.
  - intros bufsize payload from s r. subst r.
    rewrite datagram_then_reset. cbn [fst snd clients].
    split; [reflexivity|]. split; [reflexivity|apply set_discard_not_in].
  - intros evs. split; reflexivity.
Qed.

End RelayLoops.

(* ================================================================== *)
(** * Further properties of the file server *)

Section FileBroadcasts.
Import Files FileSession.

Lemma file_sendall_alive (c : conn) (data : string) (s : state) :
  alive c (io s) = true ->
  sendall c data s = (Returns tt, with_io (delivered [(c, data)] (io s)) s).
Proof.
  intros H; unfold sendall, lift. now rewrite (net_sendall_alive _ _ _ H).
Qed.

Lemma file_sendall_dead (c : conn) (data : string) (s : state) :
  alive c (io s) = false -> exists e, sendall c data s = (Raises e, s).
Proof.
  intros H; unfold sendall, lift.
  destruct (net_sendall_dead c data _ H) as [e ->].
  exists e. now destruct s.
Qed.

Lemma file_list_remove_app (c : conn) (a b : list conn) :
  is_in c a = false -> list_remove c (a ++ b) = (a ++ list_remove c b)%list.
Proof.
  induction a as [|x a IH]; cbn; [reflexivity|].
  destruct (Nat.eqb c x); [discriminate|]. intros H. now rewrite IH.
Qed.

Lemma kept_not_dropped (c : conn) (sender_conn : option conn) (n : net)
    (l : list conn) :
  forallb (fun x => negb (conn_differs x sender_conn) || alive x n) l = true ->
  conn_differs c sender_conn = true -> alive c n = false ->
  is_in c l = false.
Proof.
  induction l as [|x l IH]; cbn; [reflexivity|].
  intros H Hd Ha. apply andb_prop in H as [Hx Hl].
  destruct (Nat.eqb_spec c x) as [->|_]; [|now apply IH].
  rewrite Hd, Ha in Hx. discriminate.
Qed.

(** The loop of [broadcast_file_update] over a tail [cs] of the client
    list. *)
Lemma file_clients_loop (message : string) (sender_conn : option conn)
    (cs pre : list conn) (s : state) :
  file_clients s = (pre ++ cs)%list ->
  forallb (fun x => negb (conn_differs x sender_conn) || alive x (io s)) pre
  = true ->
  for_each cs (fun client_conn =>
    if conn_differs client_conn sender_conn
    then try_except (sendall client_conn message)
                    (fun _ => drop_client client_conn)
    else ret tt) s
  = (Returns tt,
     {| fs := fs s; touched := touched s;
        file_clients :=
          pre ++ filter (fun c => negb (conn_differs c sender_conn)
                                  || alive c (io s)) cs;
        available_files := available_files s;
        inbound := inbound s;
        io := delivered
                (copies message
                   (filter (fun c => conn_differs c sender_conn
                                     && alive c (io s)) cs))
                (io s) |}).
Proof.
  revert pre s. induction cs as [|c cs IH]; intros pre s Hc Hpre.
  - cbn. unfold ret. rewrite delivered_nil. destruct s; cbn in *. now subst.
  - cbn [for_each filter]. unfold bind.
    destruct (conn_differs c sender_conn) eqn:Hd; cbn [negb orb andb].
    + unfold try_except. destruct (alive c (io s)) eqn:Ha.
      * rewrite (file_sendall_alive _ _ _ Ha).
        rewrite (IH (pre ++ [c])%list).
        -- cbn [io with_io fs touched available_files inbound].
           cbn [copies map]. rewrite delivered_app, <- app_assoc. reflexivity.
        -- cbn. now rewrite <- app_assoc.
        -- change (forallb (fun x => negb (conn_differs x sender_conn)
                                     || alive x (io s)) (pre ++ [c]) = true).
           rewrite forallb_app. cbn [forallb]. rewrite Hpre, Hd, Ha.
           reflexivity.
      * destruct (file_sendall_dead c message s Ha) as [e ->].
        unfold drop_client, modify. rewrite Hc.
        assert (Hin : is_in c pre = false)
          by exact (kept_not_dropped _ _ _ _ Hpre Hd Ha).
        rewrite is_in_app, Hin. cbn [orb is_in existsb].
        rewrite Nat.eqb_refl. cbn [orb].
        rewrite file_list_remove_app by exact Hin. cbn [list_remove].
        rewrite Nat.eqb_refl.
        rewrite (IH pre); [reflexivity|reflexivity|exact Hpre].
    + unfold ret. rewrite (IH (pre ++ [c])%list).
      * now rewrite <- app_assoc.
      * now rewrite <- app_assoc.
      * rewrite forallb_app. cbn [forallb]. rewrite Hpre, Hd. reflexivity.
Qed.

Lemma broadcast_file_update_spec (message : string)
    (sender_conn : option conn) (s : state) :
  broadcast_file_update message sender_conn s
  = (Returns tt, announced message sender_conn s).
Proof.
  unfold broadcast_file_update. rewrite bind_gets.
  now rewrite (file_clients_loop message sender_conn (file_clients s) [] s).
Qed.

(** X18.  A file update ([NEW_FILE:], [FILE_DELETED:]) is sent to every
    live file client except the sender, in the order of the list; a client
    whose send fails is dropped from the list and the broadcast goes on;
    the sender is sent nothing and stays in the list, and the stored files
    are not touched. *)
Theorem file_update_reaches_live_clients_and_drops_dead
    (message : string) (sender_conn : option conn) (s : state) :
  broadcast_file_update message sender_conn s
  = (Returns tt, announced message sender_conn s)
  /\ (forall c,
        In c (file_clients (announced message sender_conn s))
        <-> In c (file_clients s)
            /\ (sender_conn = Some c \/ alive c (io s) = true))
  /\ (forall c text,
        In (c, text) (wire (io (announced message sender_conn s)))
        <-> In (c, text) (wire (io s))
            \/ (text = message /\ In c (file_clients s)
                /\ sender_conn <> Some c /\ alive c (io s) = true)).
Proof.
  split; [apply broadcast_file_update_spec|]. split.
  - intros c. unfold announced, kept. cbn [file_clients].
    rewrite filter_In. apply and_iff_compat_l.
    destruct sender_conn as [c'|]; cbn.
    + destruct (Nat.eqb_spec c c') as [->|Hn]; cbn.
      * split; [now left|reflexivity].
      * split; [now right|]. intros [[= E]|H]; [congruence|exact H].
    + split; [now right|]. now intros [|].
  - intros c text. unfold announced, reached. cbn [io delivered wire].
    rewrite in_app_iff. apply or_iff_compat_l.
    unfold copies. rewrite in_map_iff. split.
    + intros (x & [= <- <-] & Hx). apply filter_In in Hx as [Hin Hx].
      apply andb_prop in Hx as [Hd Ha].
      repeat split; try assumption.
      intros ->. cbn in Hd. now rewrite Nat.eqb_refl in Hd.
    + intros (-> & Hin & Hs & Ha). exists c. split; [reflexivity|].
      apply filter_In. split; [exact Hin|]. rewrite Ha, andb_true_r.
      destruct sender_conn as [c'|]; [|reflexivity]. cbn.
      apply negb_true_iff, Nat.eqb_neq. congruence.
Qed.

End FileBroadcasts.

(** ** Receiving an upload *)

Section Receiving.
Import Files FileSession.













End Receiving.

(** ** The inventory *)

Section Inventory.
Import Files FileSession.
Variable FILE_DIR : string.

Lemma startswith_app (a b : string) : Py.startswith a (a ++ b) = true.
Proof.
  induction a as [|c a IH]; cbn; [reflexivity|].
  now rewrite Ascii.eqb_refl, IH.
Qed.

Lemma startswith_split (a p : string) :
  Py.startswith a p = true -> p = a ++ Py.drop (String.length a) p.
Proof.
  revert p. induction a as [|c a IH]; intros p; cbn; [reflexivity|].
  destruct p as [|b p]; [discriminate|]. intros H.
  apply andb_prop in H as [H1 H2]. apply Ascii.eqb_eq in H1. subst b.
  f_equal. now apply IH.
Qed.

Lemma get_in {V} (k : string) (v : V) (d : Py.dict V) :
  Py.get k d = Some v -> In (k, v) d.
Proof.
  induction d as [|[k0 v0] d IH]; cbn; [discriminate|].
  destruct (String.eqb_spec k k0) as [->|_].
  - intros [= ->]. now left.
  - intros H. right. now apply IH.
Qed.

Lemma listdir_in (files : Py.dict node) (p n : string) (v : node) :
  In (p, v) files -> entry_name FILE_DIR p = Some n ->
  In n (listdir FILE_DIR files).
Proof.
  intros Hin He. induction files as [|[q w] files IH]; [destruct Hin|].
  cbn. destruct Hin as [[= -> ->]|Hin].
  - rewrite He. now left.
  - destruct (entry_name FILE_DIR q); [right|]; now apply IH.
Qed.

Lemma listdir_inv (files : Py.dict node) (n : string) :
  In n (listdir FILE_DIR files) ->
  exists p v, In (p, v) files /\ entry_name FILE_DIR p = Some n.
Proof.
  induction files as [|[q w] files IH]; cbn; [intros []|].
  destruct (entry_name FILE_DIR q) as [m|] eqn:He.
  - intros [->|H].
    + exists q, w. split; [now left|exact He].
    + destruct (IH H) as (p & v & Hin & Hp). exists p, v. split; [now right|exact Hp].
  - intros H. destruct (IH H) as (p & v & Hin & Hp).
    exists p, v. split; [now right|exact Hp].
Qed.

Lemma entry_name_join (n : string) :
  n <> "" -> n <> "." -> n <> ".." -> sep_free n ->
  entry_name FILE_DIR (join FILE_DIR n) = Some n.
Proof.
  intros H1 H2 H3 Hf. unfold entry_name.
  rewrite (join_prefix _ _ Hf), startswith_app.
  rewrite drop_app_le by lia. rewrite drop_all by lia. cbn [append].
  apply String.eqb_neq in H1, H2, H3. rewrite H1, H2, H3.
  unfold basename. rewrite (after_last_sep_of_free _ _ Hf).
  now rewrite String.eqb_refl.
Qed.

Lemma entry_name_inv (p n : string) :
  entry_name FILE_DIR p = Some n ->
  p = join FILE_DIR n /\ n <> "" /\ n <> "." /\ n <> ".." /\ sep_free n.
Proof.
  unfold entry_name.
  destruct (Py.startswith (dir_prefix FILE_DIR) p) eqn:Hs; [|discriminate].
  set (m := Py.drop _ p).
  destruct (String.eqb_spec m "") as [|H1]; [discriminate|].
  destruct (String.eqb_spec m ".") as [|H2]; [discriminate|].
  destruct (String.eqb_spec m "..") as [|H3]; [discriminate|].
  destruct (String.eqb_spec (basename m) m) as [Hb|]; [|discriminate].
  cbn. intros [= <-].
  assert (Hf : sep_free m) by (rewrite <- Hb; apply basename_sep_free).
  repeat split; try assumption.
  rewrite (join_prefix _ _ Hf). now apply startswith_split.
Qed.

(** What the rescan finds: the names of the regular files right below the
    storage directory. *)
Lemma inventory_spec (files : Py.dict node) (f : string) :
  FILE_DIR <> "" ->
  In f (inventory FILE_DIR files)
  <-> (f <> "" /\ f <> "." /\ f <> ".." /\ sep_free f
       /\ isfile (join FILE_DIR f) files = true).
Proof.
  intros Hd. unfold inventory.
  apply String.eqb_neq in Hd. rewrite Hd. rewrite filter_In. split.
  - intros [Hin Hfile]. apply listdir_inv in Hin as (p & v & _ & He).
    apply entry_name_inv in He as (_ & H1 & H2 & H3 & Hf). now repeat split.
  - intros (H1 & H2 & H3 & Hf & Hfile). split; [|exact Hfile].
    unfold isfile in Hfile.
    destruct (Py.get (join FILE_DIR f) files) as [v|] eqn:Hg; [|discriminate].
    apply (listdir_in files (join FILE_DIR f) f v); [now apply get_in|].
    now apply entry_name_join.
Qed.

Lemma update_file_list_spec (s : state) :
  update_file_list FILE_DIR s
  = (Returns tt, with_available (inventory FILE_DIR (fs s)) s).
Proof.
  unfold update_file_list, modify, inventory.
  now destruct (FILE_DIR =? "").
Qed.

(** X19.  A new file client is put on the client list and sent one line,
    [FILE_LIST:] followed by the comma-separated inventory: the names of
    the regular files that lie right below the storage directory, so that
    directories, [.] and [..], and files in sub-directories are not
    listed.  When that line cannot be sent the socket is taken off the
    list again and closed.  The [finally] block of the handler takes the
    socket off the list, which is then as it was before the connection,
    and closes it. *)
Theorem new_file_client_is_sent_the_inventory (conn : conn) (s : state) :
  (alive conn (io s) = true ->
   file_connect FILE_DIR conn s = (Returns true, connected FILE_DIR conn s))
  /\ (alive conn (io s) = false ->
      file_connect FILE_DIR conn s
      = (Returns false, turned_down FILE_DIR conn s))
  /\ (is_in conn (file_clients s) = false ->
      fst (file_finally conn (connected FILE_DIR conn s)) = Returns tt
      /\ file_clients (snd (file_finally conn (connected FILE_DIR conn s)))
         = file_clients s
      /\ is_in conn
           (closed (io (snd (file_finally conn (connected FILE_DIR conn s)))))
         = true)
  /\ (FILE_DIR <> "" ->
      forall f,
        In f (inventory FILE_DIR (fs s))
        <-> (f <> "" /\ f <> "." /\ f <> ".." /\ sep_free f
             /\ exists content,
                  Py.get (join FILE_DIR f) (fs s) = Some (File content))).
Proof.
  split; [|split; [|split]].
  - intros Ha. unfold file_connect. rewrite bind_modify.
    rewrite (bind_returns _ _ _ _ _ (update_file_list_spec _)).
    unfold try_except. rewrite bind_gets.
    erewrite bind_returns; [|apply file_sendall_alive; exact Ha].
    reflexivity.
  - intros Ha. unfold file_connect. rewrite bind_modify.
    rewrite (bind_returns _ _ _ _ _ (update_file_list_spec _)).
    unfold try_except. rewrite bind_gets.
    destruct (file_sendall_dead conn
                ("FILE_LIST:"
                 ++ Py.join "," (available_files
                      (with_available
                         (inventory FILE_DIR
                            (fs (with_file_clients (file_clients s ++ [conn]) s)))
                         (with_file_clients (file_clients s ++ [conn]) s)))
                 ++ LF)
                (with_available
                   (inventory FILE_DIR
                      (fs (with_file_clients (file_clients s ++ [conn]) s)))
                   (with_file_clients (file_clients s ++ [conn]) s)) Ha)
      as [e He].
    rewrite (bind_raises _ _ _ _ _ He). reflexivity.
  - intros Hin. unfold file_finally, drop_client. rewrite bind_modify.
    cbn [file_clients connected]. rewrite is_in_app.
    cbn [is_in existsb]. rewrite Nat.eqb_refl, orb_true_r.
    rewrite file_list_remove_app by exact Hin. cbn [list_remove].
    rewrite Nat.eqb_refl, app_nil_r.
    unfold try_except, FileSession.close, lift, Net.close, modify.
    cbn. now rewrite Nat.eqb_refl.
  - intros Hd f. rewrite (inventory_spec _ _ Hd). unfold isfile.
    split; intros (H1 & H2 & H3 & Hf & H); repeat split; try assumption.
    + destruct (Py.get (join FILE_DIR f) (fs s)) as [[c|]|]; try discriminate.
      now exists c.
    + destruct H as [c ->]. reflexivity.
Qed.

End Inventory.

Section InventoryExamples.
Import Files FileSession.

(** Socket 5 connects after [report.txt] was uploaded three times; socket
    6 connects with its peer already gone. *)
Lemma five_is_sent_three_reports :
  file_connect "server_files" 5 three_reports
  = (Returns true, connected "server_files" 5 three_reports)
  /\ received_by 5 (io (connected "server_files" 5 three_reports))
     = ["FILE_LIST:report.txt,report_1.txt,report_2.txt" ++ LF].
Proof.
  split; [|reflexivity].
  exact (proj1 (new_file_client_is_sent_the_inventory "server_files" 5
                  three_reports) eq_refl).
Defined.

End InventoryExamples.

(** ** Uploads *)

Section IntLiterals.

(** A text from the numbers of its bytes. *)
Let text (l : list nat) : string :=
  fold_right (fun n r => String (ascii_of_nat n) r) EmptyString l.

(** Plain literals: blanks around the number, a sign, single underscores
    between digits. *)
Lemma int_of_plain :
  Py.int_of "5" = Some (inl 5)
  /\ Py.int_of " 12 " = Some (inl 12)
  /\ Py.int_of (text [9; 55; 13]) = Some (inl 7)
  /\ Py.int_of "+5" = Some (inl 5)
  /\ Py.int_of "-5" = Some (inr 5)
  /\ Py.int_of "-0" = Some (inr 0)
  /\ Py.int_of "1_000" = Some (inl 1000)
  /\ Py.int_of "007" = Some (inl 7).
Proof. repeat split. Qed.

(** What [int()] refuses: no digit, a letter, a blank inside, a sign twice,
    an underscore that is not between two digits, a fraction. *)
Lemma int_of_refused :
  Py.int_of "" = None
  /\ Py.int_of "five" = None
  /\ Py.int_of "5a" = None
  /\ Py.int_of "1 2" = None
  /\ Py.int_of "- 5" = None
  /\ Py.int_of "--5" = None
  /\ Py.int_of "_1" = None
  /\ Py.int_of "1_" = None
  /\ Py.int_of "1__0" = None
  /\ Py.int_of "1.5" = None.
Proof. repeat split. Qed.

(** The separators U+001C to U+001F are blanks for [str.strip] and not for
    [int()]; a digit of another script counts as its value, and a no-break
    space is a blank. *)
Lemma int_of_beyond_ascii :
  Py.int_of (text [28; 53]) = None
  /\ Py.int_of (text [53; 31]) = None
  /\ Py.int_of (text [217; 163]) = Some (inl 3)
  /\ Py.int_of (text [194; 160; 53]) = Some (inl 5)
  /\ Py.int_of (text [49; 217; 163; 226; 128; 137]) = Some (inl 13)
  /\ Py.int_of (text [239; 188; 149]) = Some (inl 5)
  /\ Py.int_of (text [53; 195; 169]) = None
  /\ Py.int_of (text [194; 178]) = None.
Proof. repeat split. Qed.

(** A literal of more than 4300 digits is refused whatever its value. *)
Lemma int_of_long :
  Py.int_of (String.concat "" (List.repeat "0" 4300)) = Some (inl 0)
  /\ Py.int_of (String.concat "" (List.repeat "0" 4301)) = None.
Proof. split; vm_compute; reflexivity. Qed.

End IntLiterals.

Section Uploads.
Import Files FileSession.
Variable FILE_DIR : string.






End Uploads.

Section UploadExamples.
Import Files FileSession.



(** Three of the five bytes arrive and the client falls silent: the
    uploader is told of the timeout, the handler goes on, and the two late
    bytes are still on the socket. *)
Lemma hello_times_out :
  on_upload "server_files" 1 "UPLOAD:hello.txt:5" hello_stalls
  = (Returns Continue,
     abandoned 1 "server_files/hello.txt"
       ["ERROR:Upload failed: timed out" ++ Files.LF] [Data "lo"]
       hello_stalls).
Proof. reflexivity. Qed.

End UploadExamples.

(** ** Downloads and deletions *)

Section Serving.
Import Files FileSession.
Variable FILE_DIR : string.

Lemma concat_cons (a : string) (l : list string) :
  String.concat "" (a :: l) = a ++ String.concat "" l.
Proof. destruct l; cbn; [now rewrite sapp_nil_r|reflexivity]. Qed.

(** The pieces [f.read(size)] yields make up the file, and each holds
    between one and [size] bytes. *)
Lemma chunks_of_spec (fuel size : nat) (content : string) :
  1 <= size -> String.length content <= fuel ->
  String.concat "" (chunks_of fuel size content) = content
  /\ Forall (fun chunk => 1 <= String.length chunk <= size)
            (chunks_of fuel size content).
Proof.
  intros Hs. revert content.
  induction fuel as [|fuel IH]; intros content Hf.
  - destruct content; [now split|cbn in Hf; lia].
  - cbn [chunks_of].
    destruct (String.eqb_spec content "") as [->|Hne]; [now split|].
    assert (Hc : 1 <= String.length content).
    { destruct content; [contradiction|cbn; lia]. }
    destruct (IH (Py.drop size content)) as [Hcat Hall].
    { rewrite slength_drop. lia. }
    split.
    + rewrite concat_cons, Hcat. apply take_drop.
    + constructor; [|exact Hall]. rewrite slength_take. lia.
Qed.

Lemma send_pieces (conn : conn) (pieces : list string) (s : state) :
  alive conn (io s) = true ->
  for_each pieces (sendall conn) s
  = (Returns tt, with_io (delivered (map (pair conn) pieces) (io s)) s).
Proof.
  intros Ha. revert s Ha. induction pieces as [|p l IH]; intros s Ha.
  - cbn. unfold ret. rewrite delivered_nil. now destruct s.
  - cbn [for_each map].
    rewrite (bind_returns _ _ _ _ _ (file_sendall_alive _ _ _ Ha)).
    rewrite IH by exact Ha. cbn [io with_io]. rewrite delivered_app.
    reflexivity.
Qed.

Lemma download_split (requested : string) :
  Py.split ":" 1 ("DOWNLOAD:" ++ requested) = ["DOWNLOAD"; requested].
Proof. reflexivity. Qed.

Lemma delete_split (requested : string) :
  Py.split ":" 1 ("DELETE:" ++ requested) = ["DELETE"; requested].
Proof. reflexivity. Qed.

(** A confirmed download, step by step. *)
Lemma download_confirmed (conn : conn) (requested content : string)
    (rest : list recv_result) (s : state) :
  alive conn (io s) = true ->
  basename requested <> "" ->
  Py.get (join FILE_DIR (basename requested)) (fs s) = Some (File content) ->
  inbound s = Data "OK" :: rest ->
  on_download FILE_DIR conn ("DOWNLOAD:" ++ requested) s
  = (Returns Continue,
     downloaded conn (join FILE_DIR (basename requested)) content rest s).
Proof.
  intros Ha Hne Hg Hi. unfold on_download. rewrite download_split.
  apply String.eqb_neq in Hne. rewrite Hne.
  erewrite try_bind_returns by (unfold gets; reflexivity).
  unfold exists_, Py.mem, isfile, getsize. rewrite Hg. cbn [andb].
  rewrite (try_bind_returns _ _ _ _ _ _ (file_sendall_alive _ _ _ Ha)).
  erewrite try_bind_returns.
  2:{ unfold recv. cbn [inbound with_io]. rewrite Hi. reflexivity. }
  cbn [negb String.eqb Ascii.eqb Bool.eqb andb].
  erewrite try_bind_returns.
  2:{ unfold open_rb. cbn [fs with_inbound with_io]. rewrite Hg.
      reflexivity. }
  erewrite try_bind_returns by (apply send_pieces; exact Ha).
  unfold try_except, ret, downloaded.
  cbn [io with_io with_fs with_inbound fs touched file_clients
       available_files inbound].
  now rewrite delivered_app.
Qed.

(** X22.  A DOWNLOAD from a live socket, the base name of the request
    being non-empty.  When the path holds a regular file the server sends
    [FILE_DATA:<size>] and reads once; if it reads exactly [OK] it sends
    the file in pieces of 1 to 4096 bytes that put together are the file,
    byte for byte; if it reads anything else, or the stream has ended, it
    sends nothing more and does not open the file.  When the path holds
    no regular file the answer is [ERROR:File not found].  In each case
    the handler goes on with the next command and no file changes. *)
Theorem download_sends_the_file_after_confirmation
    (conn : conn) (requested : string) (s : state) :
  alive conn (io s) = true ->
  basename requested <> "" ->
  let filepath := join FILE_DIR (basename requested) in
  (forall content rest,
     Py.get filepath (fs s) = Some (File content) ->
     inbound s = Data "OK" :: rest ->
     on_download FILE_DIR conn ("DOWNLOAD:" ++ requested) s
     = (Returns Continue, downloaded conn filepath content rest s)
     /\ String.concat "" (chunks_of (String.length content) 4096 content)
        = content
     /\ Forall (fun chunk => 1 <= String.length chunk <= 4096)
               (chunks_of (String.length content) 4096 content))
  /\ (forall content,
        Py.get filepath (fs s) = Some (File content) ->
        (forall answer rest,
           inbound s = Data answer :: rest ->
           answer <> "OK" -> String.length answer <= 1024 ->
           on_download FILE_DIR conn ("DOWNLOAD:" ++ requested) s
           = (Returns Continue, offered conn content rest s))
        /\ (inbound s = [] ->
            on_download FILE_DIR conn ("DOWNLOAD:" ++ requested) s
            = (Returns Continue, offered conn content [] s)))
  /\ (isfile filepath (fs s) = false ->
      on_download FILE_DIR conn ("DOWNLOAD:" ++ requested) s
      = (Returns Continue, told conn ("ERROR:File not found" ++ LF) s)).
Proof.
  intros Ha Hne filepath. split; [|split].
  - intros content rest Hg Hi.
    split; [now apply download_confirmed|].
    destruct content as [|c content]; [split; [reflexivity|constructor]|].
    apply chunks_of_spec; lia.
  - intros content Hg.
    assert (Hstart : forall h,
      try_except
        (match Py.split ":" 1 ("DOWNLOAD:" ++ requested) with
         | [_; requested0] =>
             let filename_req := basename requested0 in
             if filename_req =? "" then raise ValueError
             else
               let filepath0 := join FILE_DIR filename_req in
               files <- gets fs ;;
               if exists_ filepath0 files && isfile filepath0 files then
                 let filesize := getsize filepath0 files in
                 sendall conn ("FILE_DATA:" ++ Py.str_of_nat filesize ++ LF) ;;
                 client_confirm <- recv 1024 ;;
                 if negb (client_confirm =? "OK") then ret Continue
                 else
                   content0 <- open_rb filepath0 ;;
                   for_each (chunks_of (String.length content0) 4096 content0)
                            (sendall conn) ;;
                   ret Continue
               else
                 sendall conn ("ERROR:File not found" ++ LF) ;;
                 ret Continue
         | _ => raise ValueError
         end) h s
      = try_except
          (client_confirm <- recv 1024 ;;
           if negb (client_confirm =? "OK") then ret Continue
           else
             content0 <- open_rb filepath ;;
             for_each (chunks_of (String.length content0) 4096 content0)
                      (sendall conn) ;;
             ret Continue) h
          (with_io (delivered
                      [(conn, "FILE_DATA:"
                              ++ Py.str_of_nat (String.length content) ++ LF)]
                      (io s)) s)).
    { intros h. rewrite download_split. cbv zeta.
      apply String.eqb_neq in Hne. rewrite Hne.
      erewrite try_bind_returns by (unfold gets; reflexivity).
      unfold exists_, Py.mem, isfile, getsize. fold filepath. rewrite Hg.
      cbn [andb].
      now rewrite (try_bind_returns _ _ _ _ _ _ (file_sendall_alive _ _ _ Ha)). }
    split.
    + intros answer rest Hi Hao Hlen. unfold on_download. rewrite Hstart.
      erewrite try_bind_returns.
      2:{ unfold recv. cbn [inbound with_io]. rewrite Hi.
          destruct (Nat.leb_spec (String.length answer) 1024); [|lia].
          reflexivity. }
      apply String.eqb_neq in Hao. rewrite Hao. reflexivity.
    + intros Hi. unfold on_download. rewrite Hstart.
      erewrite try_bind_returns.
      2:{ unfold recv. cbn [inbound with_io]. rewrite Hi. reflexivity. }
      cbn [negb String.eqb]. unfold try_except, ret, offered.
      unfold with_inbound, with_io.
      cbn [fs touched file_clients available_files inbound io].
      now rewrite Hi.
  - intros Hf. unfold on_download. rewrite download_split. cbv zeta.
    apply String.eqb_neq in Hne. rewrite Hne.
    erewrite try_bind_returns by (unfold gets; reflexivity).
    fold filepath. rewrite Hf, andb_false_r.
    now rewrite (try_bind_returns _ _ _ _ _ _ (file_sendall_alive _ _ _ Ha)).
Qed.


(** A deletion, step by step. *)
Lemma delete_existing (conn : conn) (requested content : string) (s : state) :
  alive conn (io s) = true ->
  basename requested <> "" ->
  Py.get (join FILE_DIR (basename requested)) (fs s) = Some (File content) ->
  on_delete FILE_DIR conn ("DELETE:" ++ requested) s
  = (Returns Continue,
     deleted FILE_DIR conn (join FILE_DIR (basename requested))
             (basename requested) s).
Proof.
  intros Ha Hne Hg. unfold on_delete. rewrite delete_split. cbv zeta.
  apply String.eqb_neq in Hne. rewrite Hne.
  erewrite try_bind_returns by (unfold gets; reflexivity).
  unfold exists_, Py.mem, isfile. rewrite Hg. cbn [andb].
  erewrite try_bind_returns by (unfold os_remove; rewrite Hg; reflexivity).
  rewrite (try_bind_returns _ _ _ _ _ _ (update_file_list_spec _ _)).
  rewrite (try_bind_returns _ _ _ _ _ _ (broadcast_file_update_spec _ _ _)).
  erewrite try_bind_returns by (apply file_sendall_alive; exact Ha).
  reflexivity.
Qed.

(** X24.  A DELETE from a live socket, the base name of the request being
    non-empty.  When the path holds a regular file it is removed and no
    other path changes, the server rescans, sends [FILE_DELETED:<name>] to
    every live client, the requester included, and then [OK:File deleted]
    to the requester; the name is no longer in the inventory.  When the
    path holds no regular file the answer is [ERROR:File not found] and
    nothing changes. *)
Theorem delete_removes_exactly_the_named_file
    (conn : conn) (requested : string) (s : state) :
  alive conn (io s) = true ->
  basename requested <> "" ->
  let name := basename requested in
  let filepath := join FILE_DIR name in
  (forall content,
     Py.get filepath (fs s) = Some (File content) ->
     on_delete FILE_DIR conn ("DELETE:" ++ requested) s
     = (Returns Continue, deleted FILE_DIR conn filepath name s)
     /\ (forall q,
           q <> filepath ->
           Py.get q (fs (deleted FILE_DIR conn filepath name s))
           = Py.get q (fs s))
     /\ (NoDup (Py.keys (fs s)) ->
         Py.get filepath (fs (deleted FILE_DIR conn filepath name s)) = None
         /\ ~ In name
                 (available_files (deleted FILE_DIR conn filepath name s))))
  /\ (isfile filepath (fs s) = false ->
      on_delete FILE_DIR conn ("DELETE:" ++ requested) s
      = (Returns Continue, told conn ("ERROR:File not found" ++ LF) s)).
Proof.
  intros Ha Hne name filepath. split.
  - intros content Hg.
    split; [now apply (delete_existing conn requested content)|]. split.
    + intros q Hq. unfold deleted, told, announced. cbn [fs with_io].
      now apply get_del_other.
    + intros Hnd.
      assert (Hgone : Py.get filepath (Py.del filepath (fs s)) = None).
      { apply mem_false_get. now apply mem_del_nodup. }
      split; [exact Hgone|].
      unfold deleted, told, announced. cbn [available_files with_io].
      unfold inventory. destruct (FILE_DIR =? ""); [intros []|].
      intros Hin. apply filter_In in Hin as [_ Hfile].
      unfold isfile in Hfile. fold filepath in Hfile.
      now rewrite Hgone in Hfile.
  - intros Hf. unfold on_delete. rewrite delete_split. cbv zeta.
    apply String.eqb_neq in Hne. rewrite Hne.
    erewrite try_bind_returns by (unfold gets; reflexivity).
    fold name filepath. rewrite Hf, andb_false_r.
    now rewrite (try_bind_returns _ _ _ _ _ _ (file_sendall_alive _ _ _ Ha)).
Qed.

Lemma upload_split (raw size : string) :
  Session.free_of ":" raw ->
  Py.split ":" 2 ("UPLOAD:" ++ raw ++ ":" ++ size) = ["UPLOAD"; raw; size].
Proof. intros H. cbn. now rewrite (cut_app _ _ _ H). Qed.

(** X25.  An UPLOAD that does not parse is refused before the storage is
    looked at: when the name has no base name (it is empty or ends with a
    slash), when the size is not an integer, when it is negative, and
    when the command has no size part at all, a live socket is sent
    [ERROR:Invalid UPLOAD command], nothing is read from it, no file is
    created, and the handler goes on with the next command. *)
Theorem malformed_upload_is_refused (conn : conn) (raw : string) (s : state) :
  alive conn (io s) = true ->
  Session.free_of ":" raw ->
  (forall size,
     basename raw = ""
     \/ Py.int_of size = None
     \/ (exists n, Py.int_of size = Some (inr (S n))) ->
     on_upload FILE_DIR conn ("UPLOAD:" ++ raw ++ ":" ++ size) s
     = (Returns Continue,
        told conn ("ERROR:Invalid UPLOAD command" ++ LF) s))
  /\ on_upload FILE_DIR conn ("UPLOAD:" ++ raw) s
     = (Returns Continue, told conn ("ERROR:Invalid UPLOAD command" ++ LF) s).
Proof.
  intros Ha Hf.
  assert (Hrefuse :
    upload_failed conn "" ValueError s
    = (Returns Continue, told conn ("ERROR:Invalid UPLOAD command" ++ LF) s)).
  { unfold upload_failed, try_except, bind.
    now rewrite (file_sendall_alive _ _ _ Ha). }
  split.
  - intros size Hbad. unfold on_upload, parse_upload.
    rewrite (upload_split _ _ Hf).
    destruct (basename raw =? "") eqn:Hb; [exact Hrefuse|].
    destruct Hbad as [Hbad|[Hbad|[n Hbad]]].
    + rewrite Hbad in Hb. discriminate.
    + rewrite Hbad. exact Hrefuse.
    + rewrite Hbad. exact Hrefuse.
  - unfold on_upload, parse_upload.
    replace (Py.split ":" 2 ("UPLOAD:" ++ raw)) with ["UPLOAD"; raw];
      [exact Hrefuse|].
    unfold Session.free_of in Hf. cbn. now rewrite Hf.
Qed.

End Serving.

Section ServingExamples.
Import Files FileSession.

(** Client 1 asks for [../hello.txt] and confirms. *)
Lemma hello_comes_back :
  on_download "server_files" 1 "DOWNLOAD:../hello.txt" hello_on_disk
  = (Returns Continue,
     downloaded 1 "server_files/hello.txt" "hello" [] hello_on_disk)
  /\ chunks_of 5 4096 "hello" = ["hello"].
Proof.
  split; [|reflexivity].
  refine (proj1 (proj1 (download_sends_the_file_after_confirmation
                          "server_files" 1 "../hello.txt" hello_on_disk
                          eq_refl _)
                       "hello" [] eq_refl eq_refl)).
  discriminate.
Defined.


(** Client 1 deletes [hello.txt], and then asks for it. *)
Lemma hello_is_deleted :
  on_delete "server_files" 1 "DELETE:hello.txt" hello_on_disk
  = (Returns Continue,
     deleted "server_files" 1 "server_files/hello.txt" "hello.txt"
             hello_on_disk)
  /\ on_delete "server_files" 1 "DELETE:hello.txt"
       (deleted "server_files" 1 "server_files/hello.txt" "hello.txt"
                hello_on_disk)
     = (Returns Continue,
        told 1 ("ERROR:File not found" ++ Files.LF)
          (deleted "server_files" 1 "server_files/hello.txt" "hello.txt"
                   hello_on_disk)).
Proof.
  split.
  - refine (proj1 (proj1 (delete_removes_exactly_the_named_file
                            "server_files" 1 "hello.txt" hello_on_disk
                            eq_refl _)
                         "hello" eq_refl)).
    discriminate.
  - refine (proj2 (delete_removes_exactly_the_named_file
                     "server_files" 1 "hello.txt"
                     (deleted "server_files" 1 "server_files/hello.txt"
                              "hello.txt" hello_on_disk)
                     eq_refl _)
                  eq_refl).
    discriminate.
Defined.

(** Uploads of a directory name, of a negative size and of a size that is
    no number. *)
Lemma three_uploads_refused :
  on_upload "server_files" 1 "UPLOAD:docs/:5" empty_storage
  = (Returns Continue,
     told 1 ("ERROR:Invalid UPLOAD command" ++ Files.LF) empty_storage)
  /\ on_upload "server_files" 1 "UPLOAD:a.txt:-5" empty_storage
     = (Returns Continue,
        told 1 ("ERROR:Invalid UPLOAD command" ++ Files.LF) empty_storage)
  /\ on_upload "server_files" 1 "UPLOAD:a.txt:five" empty_storage
     = (Returns Continue,
        told 1 ("ERROR:Invalid UPLOAD command" ++ Files.LF) empty_storage).
Proof.
  split; [|split].
  - exact (proj1 (malformed_upload_is_refused "server_files" 1 "docs/"
                    empty_storage eq_refl eq_refl)
                 "5" (or_introl eq_refl)).
  - exact (proj1 (malformed_upload_is_refused "server_files" 1 "a.txt"
                    empty_storage eq_refl eq_refl)
                 "-5" (or_intror (or_intror (ex_intro _ 4 eq_refl)))).
  - exact (proj1 (malformed_upload_is_refused "server_files" 1 "a.txt"
                    empty_storage eq_refl eq_refl)
                 "five" (or_intror (or_introl eq_refl))).
Defined.

End ServingExamples.

(* ================================================================== *)
(** * The roster, from the server to the client *)

Section RosterLine.
Import Chat Session Client.
















End RosterLine.
